(** * J Supreme Marketing: the brochure site of [app.py], verified

    A shallow embedding of the single-file Flask application [app.py]
    and the proofs of what its specification says about it.

    The embedding covers the record store ([ensure_csv_header],
    [save_row], [save_lead], [save_subscriber]), the two form handlers
    ([lead], [newsletter_subscribe]), the content registry ([BLOG_POSTS],
    [get_post]) and the view [blog_post] with [render_page] and the
    templates it renders, the background image lookup ([find_bg_file],
    [bg_image_for], [static_img_files]), the ad unit ([adsense_ad_unit]),
    the URL map and the sitemap. It goes on to the settings that the
    module reads from the environment ([Settings]), the robots directive
    ([robots]), the blog index ([blog] and its template), the views of
    the static pages and the alias of the lead form ([lead_alias]).

    Conventions of the embedding.
    - A Python [str] is the list of its Unicode code points ([list N]).
    - The filesystem says what every path names, a regular file with
      its text or a directory, and which opens the operating system
      refuses. An open that raises ends the request with status 500.
    - Code that touches the filesystem or aborts a request lives in the
      monad [M]: a state function over the filesystem whose result is a
      value or the HTTP error of the response, the one raised by [abort]
      or the 500 of an exception that nothing catches.
    - The clock read by [now_iso] is the argument [now] of the functions
      that call it.
    - The module-level settings read from the environment are the
      variables of the section [App].
    - A template constant is embedded as the function that renders it. A
      template that only exists at run time is rendered as it stands
      when it holds no tag; what the engine does with any other source
      is a variable of the section [App].

    The file has three parts: the embedding, the vocabulary of the
    statements, and the facts. *)

From Stdlib Require Import ZArith NArith List String Ascii Bool Lia.
From stdpp Require Import gmap list.
Import ListNotations.

Local Open Scope N_scope.
Local Open Scope list_scope.

(** ** Python strings *)

Module Py.

(** A code point, and a [str] as the sequence of its code points. *)
Abbreviation char := N.
Abbreviation str := (list N).

(** A literal of the source, written as a Rocq string of ASCII characters. *)
Fixpoint py (s : string) : str :=
  match s with
  | EmptyString => []
  | String c r => N_of_ascii c :: py r
  end.
Arguments py s%_string.

(** The double quote, which a literal above cannot hold. *)
Definition DQ : str := [34].

(** Truthiness of a [str]: [bool(s)], [if s], [not s]. *)
Definition truthy (s : str) : bool :=
  match s with [] => false | _ :: _ => true end.

(** [a or b] on strings where [a] may be [None]. *)
Definition or_default (a : option str) (b : str) : str :=
  match a with
  | Some s => if truthy s then s else b
  | None => b
  end.

(** [str.isspace] on one code point, as [str.strip()] with no argument
    reads it: the ASCII controls 9..13 and 28..31, the space, and the
    Unicode White_Space code points beyond ASCII. *)
Definition isspace (c : char) : bool :=
  ((9 <=? c) && (c <=? 13)) || ((28 <=? c) && (c <=? 32))
  || (c =? 133) || (c =? 160) || (c =? 5760)
  || ((8192 <=? c) && (c <=? 8202))
  || (c =? 8232) || (c =? 8233) || (c =? 8239) || (c =? 8287)
  || (c =? 12288).

Fixpoint lstrip (s : str) : str :=
  match s with
  | [] => []
  | c :: r => if isspace c then lstrip r else s
  end.

Definition rstrip (s : str) : str := rev (lstrip (rev s)).

(** [s.strip()] *)
Definition strip (s : str) : str := rstrip (lstrip s).

(** [s.rstrip(chars)] for a one-character [chars]. *)
Fixpoint lstrip_char (x : char) (s : str) : str :=
  match s with
  | [] => []
  | c :: r => if c =? x then lstrip_char x r else s
  end.
Definition rstrip_char (x : char) (s : str) : str :=
  rev (lstrip_char x (rev s)).

(** [s.startswith(p)] *)
Fixpoint startswith (p s : str) : bool :=
  match p, s with
  | [], _ => true
  | _ :: _, [] => false
  | a :: p', b :: s' => (a =? b) && startswith p' s'
  end.

(** [sub in s] *)
Fixpoint contains (sub s : str) : bool :=
  startswith sub s ||
  match s with
  | [] => false
  | _ :: r => contains sub r
  end.

(** [sep.join(parts)] *)
Fixpoint join (sep : str) (parts : list str) : str :=
  match parts with
  | [] => []
  | [p] => p
  | p :: rest => p ++ sep ++ join sep rest
  end.

(** A string starts, or ends, with whitespace. *)
Definition leading_space (s : str) : bool :=
  match s with [] => false | c :: _ => isspace c end.
Definition trailing_space (s : str) : bool := leading_space (rev s).

End Py.
Import Py.

(** ** The filesystem and the request monad *)

(** A path, as the text [str(path)]. *)
Abbreviation Path := str.

(** [Path(a) / name] for a relative [name] of one component. *)
Definition joinpath (a : Path) (name : str) : Path := a ++ py "/" ++ name.

(** What a path can name: a regular file, with its text, or a
    directory. *)
Inductive node :=
  | File (text : str)
  | Directory.

(** How a file is opened: [open("w")], [open("a")], and the reading
    open of [send_file]. *)
Inductive open_mode := Write | Append | Read.

(** The filesystem: what every path that exists names, and the opens
    that the operating system refuses for a reason of its own (the
    parent directory is missing, the permissions do not allow it, the
    device is read-only or full). The application changes the text of
    regular files and nothing else. *)
Record FileSystem := mkFileSystem {
  nodes : gmap Path node;
  refused : open_mode -> Path -> bool
}.

(** [fs !! path] is the text of the regular file at [path], if there is
    one; [<[path := text]> fs] is [fs] with a regular file at [path]
    that holds [text]; [∅] has no file and no directory, and refuses no
    open. *)
#[global] Instance fs_lookup : Lookup Path str FileSystem :=
  fun path fs =>
    match nodes fs !! path with
    | Some (File text) => Some text
    | _ => None
    end.

#[global] Instance fs_insert : Insert Path str FileSystem :=
  fun path text fs =>
    {| nodes := <[path := File text]> (nodes fs); refused := refused fs |}.

#[global] Instance fs_empty : Empty FileSystem :=
  {| nodes := ∅; refused := fun _ _ => false |}.

(** What a view function ends with: a value, or the HTTP error of the
    response: the one that [abort(code, description)] raises, or the
    500 of an exception that nothing catches. *)
Inductive outcome (A : Type) : Type :=
  | Done (a : A)
  | Aborted (code : Z) (description : str).
Arguments Done {A} a.
Arguments Aborted {A} code description.

Definition M (A : Type) : Type := FileSystem -> outcome A * FileSystem.

Definition ret {A} (a : A) : M A := fun fs => (Done a, fs).

Definition bind {A B} (m : M A) (k : A -> M B) : M B :=
  fun fs =>
    match m fs with
    | (Done a, fs') => k a fs'
    | (Aborted code d, fs') => (Aborted code d, fs')
    end.

Notation "x <- m ;; k" := (bind m (fun x => k))
  (at level 100, m at next level, right associativity).
Notation "m ;;; k" := (bind m (fun _ => k))
  (at level 100, right associativity).

(** [abort(code, description)] *)
Definition abort {A} (code : Z) (description : str) : M A :=
  fun fs => (Aborted code description, fs).

(** An exception other than [abort] escaping a view: 500. *)
Definition internal_server_error {A} : M A :=
  fun fs => (Aborted 500 (py "Internal Server Error"), fs).

(** [path.exists()]: true of a regular file and of a directory. *)
Definition path_exists (path : Path) : M bool :=
  fun fs => (Done (bool_decide (is_Some (nodes fs !! path))), fs).

(** [path] names a directory. *)
Definition is_directory (fs : FileSystem) (path : Path) : bool :=
  match nodes fs !! path with
  | Some Directory => true
  | _ => false
  end.

(** [path.open(mode)] returns a file: [path] is no directory
    (IsADirectoryError) and the operating system does not refuse the
    open (FileNotFoundError, PermissionError and the other OSErrors). *)
Definition can_open (fs : FileSystem) (mode : open_mode) (path : Path) : bool :=
  negb (is_directory fs path) && negb (refused fs mode path).

(** [with path.open("w", newline="") as f: f.write(text)]: the file is
    created or truncated, then holds [text]. When the open raises,
    nothing is written and the exception ends the request. *)
Definition open_w_write (path : Path) (text : str) : M unit :=
  fun fs =>
    if can_open fs Write path
    then (Done tt, <[path := text]> fs)
    else internal_server_error fs.

(** [with path.open("a", newline="") as f: f.write(text)]: the file is
    created when absent, and [text] goes after what it holds. When the
    open raises, nothing is written and the exception ends the
    request. *)
Definition open_a_write (path : Path) (text : str) : M unit :=
  fun fs =>
    if can_open fs Append path
    then (Done tt, <[path := default [] (fs !! path) ++ text]> fs)
    else internal_server_error fs.

(** ** [csv.writer]: one row in the default (excel) dialect *)

Module Csv.

(** A cell handed to [writerow]: a [str], or [None]. *)
Definition cell := option str.

Definition COMMA : char := 44.
Definition QUOTE : char := 34.
Definition CR : char := 13.
Definition LF : char := 10.

(** A field is quoted (QUOTE_MINIMAL) when it holds the delimiter, the
    quote character or a character of the line terminator. *)
Definition special (c : char) : bool :=
  (c =? COMMA) || (c =? QUOTE) || (c =? CR) || (c =? LF).

(** Inside quotes, a quote character is doubled. *)
Definition double_quotes (s : str) : str :=
  flat_map (fun c => if c =? QUOTE then [QUOTE; QUOTE] else [c]) s.

Definition field_text (s : str) : str :=
  if existsb special s then [QUOTE] ++ double_quotes s ++ [QUOTE] else s.

(** [None] is written as the empty field. *)
Definition cell_text (v : cell) : str :=
  match v with
  | Some s => field_text s
  | None => []
  end.

(** The text [writerow(row)] writes: the fields joined by commas, then
    CR LF. A row of one empty field is written as a pair of quotes. *)
Definition writerow (row : list cell) : str :=
  let line := join [COMMA] (map cell_text row) in
  match row, line with
  | _ :: _, [] => [QUOTE; QUOTE] ++ [CR; LF]
  | _, _ => line ++ [CR; LF]
  end.

(** What a reader gets back from a cell. *)
Definition cell_value (v : cell) : str := default [] v.

End Csv.
Import Csv.

Abbreviation dict := (gmap str (option str)).

(** ** The application *)

(** [markupsafe.escape], applied by the templates (autoescape is on) to
    every expression that is not marked [safe]. *)
Definition escape (s : str) : str :=
  flat_map (fun c =>
    if c =? 38 then py "&amp;"
    else if c =? 60 then py "&lt;"
    else if c =? 62 then py "&gt;"
    else if c =? 39 then py "&#39;"
    else if c =? 34 then py "&#34;"
    else [c]) s.

Definition APP_NAME : str := py "J Supreme Marketing".
Definition SLOGAN : str :=
  py "Strategy " ++ [183] ++ py " Execution " ++ [183] ++ py " Distribution".

(** *** The URL map: one entry per [@app.route] *)

Record Route := {
  rule : str;
  endpoint : str;
  methods : list str;
  (** the view returns [render_page(...)] *)
  renders_page : bool
}.

Definition url_map : list Route :=
  [ {| rule := py "/static/<path:filename>"; endpoint := py "static_files";
       methods := [py "GET"]; renders_page := false |};
    {| rule := py "/static/img/<path:filename>"; endpoint := py "static_img_files";
       methods := [py "GET"]; renders_page := false |};
    {| rule := py "/robots.txt"; endpoint := py "robots";
       methods := [py "GET"]; renders_page := false |};
    {| rule := py "/sitemap.xml"; endpoint := py "sitemap";
       methods := [py "GET"]; renders_page := false |};
    {| rule := py "/"; endpoint := py "home";
       methods := [py "GET"]; renders_page := true |};
    {| rule := py "/insights"; endpoint := py "insights";
       methods := [py "GET"]; renders_page := true |};
    {| rule := py "/blog"; endpoint := py "blog";
       methods := [py "GET"]; renders_page := true |};
    {| rule := py "/blog/<slug>"; endpoint := py "blog_post";
       methods := [py "GET"]; renders_page := true |};
    {| rule := py "/start"; endpoint := py "start";
       methods := [py "GET"]; renders_page := true |};
    {| rule := py "/thank-you"; endpoint := py "thank_you";
       methods := [py "GET"]; renders_page := true |};
    {| rule := py "/newsletter/thanks"; endpoint := py "newsletter_thanks";
       methods := [py "GET"]; renders_page := true |};
    {| rule := py "/privacy"; endpoint := py "privacy";
       methods := [py "GET"]; renders_page := true |};
    {| rule := py "/terms"; endpoint := py "terms";
       methods := [py "GET"]; renders_page := true |};
    {| rule := py "/api/lead"; endpoint := py "lead";
       methods := [py "POST"]; renders_page := false |};
    {| rule := py "/lead"; endpoint := py "lead_alias";
       methods := [py "POST"]; renders_page := false |};
    {| rule := py "/api/newsletter"; endpoint := py "newsletter_subscribe";
       methods := [py "POST"]; renders_page := false |} ].

(** A rule with a variable part, such as [/blog/<slug>]. *)
Definition has_variable (r : Route) : bool := contains (py "<") (rule r).

(** The static page routes: the GET rules without a variable part whose
    view renders a page. *)
Definition static_page_routes : list Route :=
  List.filter
    (fun r => renders_page r
              && existsb (fun m => bool_decide (m = py "GET")) (methods r)
              && negb (has_variable r))
    url_map.

(** [url_for(endpoint)] for an endpoint whose rule has no variable part:
    the rule itself (the application is mounted at the root). No call in
    the source names an endpoint outside the map. *)
Definition url_for (name : str) : str :=
  match find (fun r => bool_decide (endpoint r = name)) url_map with
  | Some r => rule r
  | None => []
  end.

(** [url_for("blog_post", slug=slug)], for a slug made of characters
    that URL building leaves as they are (every slug of [BLOG_POSTS]). *)
Definition url_for_blog_post (slug : str) : str := py "/blog/" ++ slug.

(** *** Requests and responses *)

Record Request := {
  (** [request.path] *)
  path : str;
  (** [request.form], a multi-dict: [get] returns the first value *)
  form : list (str * str);
  (** [request.headers.get("X-Forwarded-For")] *)
  x_forwarded_for : option str;
  (** [request.headers.get("User-Agent")] *)
  user_agent : option str;
  (** [request.remote_addr] *)
  remote_addr : option str
}.

(** [request.form.get(key)] *)
Definition form_get (request : Request) (key : str) : option str :=
  snd <$> find (fun kv => bool_decide (fst kv = key)) (form request).

Inductive Response : Type :=
  (** [redirect(location, code=code)] *)
  | Redirect (location : str) (code : Z)
  (** a view returning a [str]: 200, text/html *)
  | Html (body : str)
  (** [Response(body, mimetype=mimetype)]: 200 *)
  | WithMimetype (body : str) (mimetype : str)
  (** [send_from_directory]: the file at [file] *)
  | SendFile (file : Path).

Definition status_code (r : Response) : Z :=
  match r with
  | Redirect _ code => code
  | Html _ | WithMimetype _ _ | SendFile _ => 200
  end.

(** The status the client sees. *)
Definition status {A} (code_of : A -> Z) (o : outcome A) : Z :=
  match o with
  | Done a => code_of a
  | Aborted code _ => code
  end.

(** *** Content registry *)

Record BlogPost := {
  slug : str;
  title : str;
  date : str;
  excerpt : str;
  html : str
}.

Definition NL : str := [10].

Definition BLOG_POSTS : list BlogPost :=
  [
    {| slug := py "positioning-before-promotion";
     title := py "Positioning Before Promotion";
     date := py "2025-12-23";
     excerpt :=
       py "Why pushing harder rarely fixes weak demand" ++ [8212]
       ++ py "and what to diagnose first.";
     html :=
       NL
       ++ py "<p>Most brands don" ++ [8217]
       ++ py "t have an advertising problem. They have a <strong>positioning</strong> problem.</p>"
       ++ NL
       ++ py "<p>Before you spend more on ads, audit three things:</p>" ++ NL
       ++ py "<ul>" ++ NL
       ++ py "  <li><strong>Offer clarity:</strong> can a stranger repeat what you do in one sentence?</li>"
       ++ NL
       ++ py "  <li><strong>Audience fit:</strong> are you speaking to buyers or browsers?</li>"
       ++ NL
       ++ py "  <li><strong>Proof:</strong> do you show outcomes, not just features?</li>"
       ++ NL
       ++ py "</ul>" ++ NL
       ++ py "<p>When these are aligned, distribution becomes leverage"
       ++ [8212] ++ py "not guesswork.</p>" ++ NL |};
    {| slug := py "the-signal-audit-framework";
     title := py "The Signal Audit Framework";
     date := py "2025-12-23";
     excerpt :=
       py "A simple way to diagnose why marketing isn" ++ [8217]
       ++ py "t converting" ++ [8212] ++ py "without guessing.";
     html :=
       NL
       ++ py "<p>The fastest way to improve marketing is to stop " ++ [8220]
       ++ py "tweaking" ++ [8221] ++ py " and start diagnosing.</p>" ++ NL
       ++ py "<p>We look at:</p>" ++ NL
       ++ py "<ul>" ++ NL
       ++ py "  <li><strong>Signal:</strong> what" ++ [8217]
       ++ py "s being communicated (message + positioning)</li>" ++ NL
       ++ py "  <li><strong>System:</strong> how demand moves (funnel + conversion logic)</li>"
       ++ NL
       ++ py "  <li><strong>Distribution:</strong> where you show up (channels + targeting)</li>"
       ++ NL
       ++ py "</ul>" ++ NL
       ++ py "<p>Fix the system, and the results follow.</p>" ++ NL |} ].

Definition get_post_in (posts : list BlogPost) (s : str) : option BlogPost :=
  find (fun p => bool_decide (slug p = s)) posts.

Definition get_post (s : str) : option BlogPost := get_post_in BLOG_POSTS s.

(** *** Templates

    A template constant of the source is embedded as the function that
    renders it: the text between two tags is a literal, [{{ e }}] is
    [escape e], [{{ e|safe }}] is [e], [{% if %}] is a conditional and a
    comment is nothing. The single newline ending a template is dropped,
    as the template lexer does. *)

Definition BLOG_POST_BODY (post : BlogPost)
    (ad_header ad_inarticle ad_sidebar : str) : str :=
  NL
  ++ py "<main class=" ++ DQ ++ py "page" ++ DQ ++ py ">" ++ NL
  ++ py "  <div class=" ++ DQ ++ py "container" ++ DQ ++ py ">" ++ NL
  ++ py "    <div class=" ++ DQ ++ py "blogwrap" ++ DQ ++ py ">" ++ NL
  ++ py "      <article class=" ++ DQ ++ py "postcard" ++ DQ ++ py ">" ++ NL
  ++ py "        <div class=" ++ DQ ++ py "kicker" ++ DQ
  ++ py ">BLOG POST</div>" ++ NL
  ++ py "        <h1 style=" ++ DQ ++ py "font-size:42px; margin-top:10px;"
  ++ DQ ++ py ">" ++ escape (title post) ++ py "</h1>" ++ NL
  ++ py "        <div class=" ++ DQ ++ py "postmeta" ++ DQ ++ py ">"
  ++ escape (date post) ++ py "</div>" ++ NL
  ++ NL
  ++ py "        "
  ++ (if truthy ad_header
     then
       NL
       ++ py "          <div style=" ++ DQ ++ py "margin-top:14px;" ++ DQ
       ++ py ">" ++ ad_header ++ py "</div>" ++ NL
       ++ py "        "
     else [])
  ++ NL
  ++ NL
  ++ py "        <div class=" ++ DQ ++ py "postbody" ++ DQ ++ py " style="
  ++ DQ ++ py "margin-top:16px;" ++ DQ ++ py ">" ++ NL
  ++ py "          " ++ html post ++ NL
  ++ py "        </div>" ++ NL
  ++ NL
  ++ py "        "
  ++ (if truthy ad_inarticle
     then
       NL
       ++ py "          <div style=" ++ DQ ++ py "margin-top:18px;" ++ DQ
       ++ py ">" ++ ad_inarticle ++ py "</div>" ++ NL
       ++ py "        "
     else [])
  ++ NL
  ++ NL
  ++ py "        <div style=" ++ DQ ++ py "margin-top:18px;" ++ DQ ++ py ">"
  ++ NL
  ++ py "          <a class=" ++ DQ ++ py "link" ++ DQ ++ py " href=" ++ DQ
  ++ escape (url_for (py "blog")) ++ DQ ++ py ">" ++ [8592]
  ++ py " Back to Blog</a>" ++ NL
  ++ py "        </div>" ++ NL
  ++ py "      </article>" ++ NL
  ++ NL
  ++ py "      <aside class=" ++ DQ ++ py "sidebar" ++ DQ ++ py ">" ++ NL
  ++ py "        <div class=" ++ DQ ++ py "kicker" ++ DQ ++ py ">MORE</div>"
  ++ NL
  ++ py "        <div class=" ++ DQ ++ py "desc" ++ DQ ++ py " style=" ++ DQ
  ++ py "color:var(--muted); margin-top:10px; line-height:1.6;" ++ DQ
  ++ py ">" ++ NL
  ++ py "          Get short strategy dispatches and frameworks." ++ NL
  ++ py "        </div>" ++ NL
  ++ NL
  ++ py "        " ++ NL
  ++ py "<div class=" ++ DQ ++ py "newsletter" ++ DQ ++ py ">" ++ NL
  ++ py "  <div class=" ++ DQ ++ py "kicker" ++ DQ ++ py ">NEWSLETTER</div>"
  ++ NL
  ++ py "  <div class=" ++ DQ ++ py "hint" ++ DQ
  ++ py ">Short strategy dispatches" ++ [8212] ++ py "no spam. If it"
  ++ [8217] ++ py "s not useful, we won" ++ [8217] ++ py "t send it.</div>"
  ++ NL
  ++ py "  <form method=" ++ DQ ++ py "post" ++ DQ ++ py " action=" ++ DQ
  ++ escape (url_for (py "newsletter_subscribe")) ++ DQ ++ py " style=" ++ DQ
  ++ py "margin:0; padding:0; border:none; background:transparent; max-width:none;"
  ++ DQ ++ py ">" ++ NL
  ++ py "    <div class=" ++ DQ ++ py "row" ++ DQ ++ py ">" ++ NL
  ++ py "      <input name=" ++ DQ ++ py "email" ++ DQ ++ py " type=" ++ DQ
  ++ py "email" ++ DQ ++ py " required placeholder=" ++ DQ
  ++ py "you@company.com" ++ DQ ++ py " aria-label=" ++ DQ
  ++ py "Email address" ++ DQ ++ py " />" ++ NL
  ++ py "      <button class=" ++ DQ ++ py "btn" ++ DQ ++ py " type=" ++ DQ
  ++ py "submit" ++ DQ ++ py ">Subscribe</button>" ++ NL
  ++ py "    </div>" ++ NL
  ++ py "    <input type=" ++ DQ ++ py "hidden" ++ DQ ++ py " name=" ++ DQ
  ++ py "source" ++ DQ ++ py " value=" ++ DQ ++ py "newsletter_block" ++ DQ
  ++ py " />" ++ NL
  ++ py "  </form>" ++ NL
  ++ py "</div>" ++ NL
  ++ NL
  ++ NL
  ++ py "        "
  ++ (if truthy ad_sidebar
     then
       NL
       ++ py "          <div style=" ++ DQ ++ py "margin-top:12px;" ++ DQ
       ++ py ">" ++ ad_sidebar ++ py "</div>" ++ NL
       ++ py "        "
     else [])
  ++ NL
  ++ py "      </aside>" ++ NL
  ++ py "    </div>" ++ NL
  ++ py "  </div>" ++ NL
  ++ py "</main>".

(** *** The template engine on text without tags

    [render_page] hands [render_template_string] a body that was rendered
    before. The lexer of the engine reads a source without an opening
    tag as one piece of data, after it has turned every newline sequence
    into a line feed and dropped one final newline. *)

(** The character after an opening brace that starts a template tag. *)
Definition tag_second (c : char) : bool := (c =? 123) || (c =? 37) || (c =? 35).

(** No carriage return and no start of a template tag. *)
Fixpoint tag_free (s : str) : bool :=
  match s with
  | [] => true
  | c :: r =>
      negb (c =? 13)
      && negb ((c =? 123) && match r with d :: _ => tag_second d | [] => false end)
      && tag_free r
  end.

(** The last character of [s] is [c]. *)
Definition ends_with (c : char) (s : str) : bool :=
  match rev s with
  | d :: _ => d =? c
  | [] => false
  end.

(** Text in which the template engine finds nothing to do: no tag, no
    newline to normalise, no final newline to drop. The engine renders
    such a source as it stands. *)
Definition inert (s : str) : bool := tag_free s && negb (ends_with 10 s).

Section App.

(** Module-level configuration, read from the environment at import. *)
Variable CANONICAL_DOMAIN : str.
Variables LEADS_CSV NEWSLETTER_CSV : Path.
Variable INCLUDE_PIXELS : bool.
Variable ADSENSE_ENABLED : bool.
Variable ADSENSE_CLIENT : str.
Variables ADSENSE_SLOT_HEADER ADSENSE_SLOT_INARTICLE ADSENSE_SLOT_SIDEBAR : str.
Variables STATIC_IMG_DIR IMAGES_DIR : Path.

(** The style sheet of [BASE], the text between [<style>] and [</style>]
    (it holds no template tag). *)
Variable BASE_STYLE : str.

(** What the template engine makes of a source that is not inert, given
    [hero_bg_url]: the text it renders, or [None] when it raises. *)
Variable render_tags : str -> option str -> option str.

(** [render_template_string(source, hero_bg_url=...)] on a template that
    is built at run time. *)
Definition render_template_string (source : str) (hero_bg_url : option str)
    : option str :=
  if inert source then Some source else render_tags source hero_bg_url.

Definition BASE (app_name slogan meta_title meta_desc canonical : str)
    (include_pixels adsense_enabled : bool) (adsense_client body : str) : str :=
  NL
  ++ py "<!doctype html>" ++ NL
  ++ py "<html lang=" ++ DQ ++ py "en" ++ DQ ++ py ">" ++ NL
  ++ py "<head>" ++ NL
  ++ py "  <meta charset=" ++ DQ ++ py "utf-8" ++ DQ ++ py " />" ++ NL
  ++ py "  <meta name=" ++ DQ ++ py "viewport" ++ DQ ++ py " content=" ++ DQ
  ++ py "width=device-width,initial-scale=1" ++ DQ ++ py " />" ++ NL
  ++ py "  <title>" ++ escape meta_title ++ py "</title>" ++ NL
  ++ py "  <meta name=" ++ DQ ++ py "description" ++ DQ ++ py " content="
  ++ DQ ++ escape meta_desc ++ DQ ++ py " />" ++ NL
  ++ py "  <link rel=" ++ DQ ++ py "canonical" ++ DQ ++ py " href=" ++ DQ
  ++ escape canonical ++ DQ ++ py " />" ++ NL
  ++ NL
  ++ py "  <meta property=" ++ DQ ++ py "og:title" ++ DQ ++ py " content="
  ++ DQ ++ escape meta_title ++ DQ ++ py " />" ++ NL
  ++ py "  <meta property=" ++ DQ ++ py "og:description" ++ DQ
  ++ py " content=" ++ DQ ++ escape meta_desc ++ DQ ++ py " />" ++ NL
  ++ py "  <meta property=" ++ DQ ++ py "og:type" ++ DQ ++ py " content="
  ++ DQ ++ py "website" ++ DQ ++ py " />" ++ NL
  ++ py "  <meta property=" ++ DQ ++ py "og:url" ++ DQ ++ py " content="
  ++ DQ ++ escape canonical ++ DQ ++ py " />" ++ NL
  ++ NL
  ++ py "  <link rel=" ++ DQ ++ py "preconnect" ++ DQ ++ py " href=" ++ DQ
  ++ py "https://fonts.googleapis.com" ++ DQ ++ py ">" ++ NL
  ++ py "  <link rel=" ++ DQ ++ py "preconnect" ++ DQ ++ py " href=" ++ DQ
  ++ py "https://fonts.gstatic.com" ++ DQ ++ py " crossorigin>" ++ NL
  ++ py "  <link href=" ++ DQ
  ++ py "https://fonts.googleapis.com/css2?family=Inter:wght@300;400;500;600&family=Playfair+Display:wght@400;500;600&display=swap"
  ++ DQ ++ py " rel=" ++ DQ ++ py "stylesheet" ++ DQ ++ py ">" ++ NL
  ++ NL
  ++ py "  "
  ++ (if adsense_enabled
     then
       NL
       ++ py "    " ++ NL
       ++ py "    <script async src=" ++ DQ
       ++ py "https://pagead2.googlesyndication.com/pagead/js/adsbygoogle.js?client="
       ++ escape adsense_client ++ DQ ++ py " crossorigin=" ++ DQ
       ++ py "anonymous" ++ DQ ++ py "></script>" ++ NL
       ++ py "  "
     else [])
  ++ NL
  ++ NL
  ++ py "  <style>" ++ BASE_STYLE ++ py "</style>" ++ NL
  ++ NL
  ++ py "  "
  ++ (if include_pixels
     then
       NL
       ++ py "  <!-- OPTIONAL AD PIXELS PLACEHOLDER -->" ++ NL
       ++ py "  "
     else [])
  ++ NL
  ++ py "</head>" ++ NL
  ++ NL
  ++ py "<body>" ++ NL
  ++ py "  <header>" ++ NL
  ++ py "    <div class=" ++ DQ ++ py "container topbar" ++ DQ ++ py ">"
  ++ NL
  ++ py "      <a class=" ++ DQ ++ py "brand" ++ DQ ++ py " href=" ++ DQ
  ++ escape (url_for (py "home")) ++ DQ ++ py ">" ++ escape app_name
  ++ py "</a>" ++ NL
  ++ py "      <nav>" ++ NL
  ++ py "        <a href=" ++ DQ ++ escape (url_for (py "home"))
  ++ py "#approach" ++ DQ ++ py ">Approach</a>" ++ NL
  ++ py "        <a href=" ++ DQ ++ escape (url_for (py "home"))
  ++ py "#capabilities" ++ DQ ++ py ">Capabilities</a>" ++ NL
  ++ py "        <a href=" ++ DQ ++ escape (url_for (py "home"))
  ++ py "#proof" ++ DQ ++ py ">Proof</a>" ++ NL
  ++ py "        <a href=" ++ DQ ++ escape (url_for (py "blog")) ++ DQ
  ++ py ">Blog</a>" ++ NL
  ++ py "        <a class=" ++ DQ ++ py "navcta" ++ DQ ++ py " href=" ++ DQ
  ++ escape (url_for (py "start")) ++ DQ ++ py ">Start Conversation</a>"
  ++ NL
  ++ py "      </nav>" ++ NL
  ++ py "    </div>" ++ NL
  ++ py "  </header>" ++ NL
  ++ NL
  ++ py "  " ++ body ++ NL
  ++ NL
  ++ py "  <footer>" ++ NL
  ++ py "    <div class=" ++ DQ ++ py "container footer-inner" ++ DQ
  ++ py ">" ++ NL
  ++ py "      <div>" ++ NL
  ++ py "        <div class=" ++ DQ ++ py "footbrand" ++ DQ ++ py ">"
  ++ escape app_name ++ py "</div>" ++ NL
  ++ py "        <div class=" ++ DQ ++ py "foottag" ++ DQ ++ py ">"
  ++ escape slogan ++ py "</div>" ++ NL
  ++ py "      </div>" ++ NL
  ++ py "      <div class=" ++ DQ ++ py "footlinks" ++ DQ ++ py ">" ++ NL
  ++ py "        <a href=" ++ DQ ++ escape (url_for (py "insights")) ++ DQ
  ++ py ">Insights</a>" ++ NL
  ++ py "        <span class=" ++ DQ ++ py "dot" ++ DQ ++ py ">" ++ [8226]
  ++ py "</span>" ++ NL
  ++ py "        <a href=" ++ DQ ++ escape (url_for (py "blog")) ++ DQ
  ++ py ">Blog</a>" ++ NL
  ++ py "        <span class=" ++ DQ ++ py "dot" ++ DQ ++ py ">" ++ [8226]
  ++ py "</span>" ++ NL
  ++ py "        <a href=" ++ DQ ++ escape (url_for (py "privacy")) ++ DQ
  ++ py ">Privacy</a>" ++ NL
  ++ py "        <span class=" ++ DQ ++ py "dot" ++ DQ ++ py ">" ++ [8226]
  ++ py "</span>" ++ NL
  ++ py "        <a href=" ++ DQ ++ escape (url_for (py "terms")) ++ DQ
  ++ py ">Terms</a>" ++ NL
  ++ py "        <span class=" ++ DQ ++ py "dot" ++ DQ ++ py ">" ++ [8226]
  ++ py "</span>" ++ NL
  ++ py "        <a href=" ++ DQ ++ py "mailto:jordanmorrisr@gmail.com" ++ DQ
  ++ py ">jordanmorrisr@gmail.com</a>" ++ NL
  ++ py "        <span class=" ++ DQ ++ py "dot" ++ DQ ++ py ">" ++ [8226]
  ++ py "</span>" ++ NL
  ++ py "        <a href=" ++ DQ ++ py "tel:+16582182282" ++ DQ
  ++ py ">(658) 218-2282</a>" ++ NL
  ++ py "      </div>" ++ NL
  ++ py "    </div>" ++ NL
  ++ py "  </footer>" ++ NL
  ++ py "</body>" ++ NL
  ++ py "</html>".

(** *** Helpers *)

Definition site_url (p : str) : str :=
  if truthy CANONICAL_DOMAIN
  then rstrip_char 47 CANONICAL_DOMAIN ++ p
  else p.

Definition ensure_csv_header (file : Path) (header : list str) : M unit :=
  present <- path_exists file ;;
  if negb present
  then open_w_write file (writerow (map Some header))
  else ret tt.

Definition save_row (file : Path) (header : list str) (row : list cell) : M unit :=
  ensure_csv_header file header ;;;
  open_a_write file (writerow row).

(** [data.get(key, "")] *)
Definition dict_get (data : dict) (key : str) : cell :=
  match data !! key with
  | Some v => v
  | None => Some []
  end.

Definition lead_header : list str :=
  [ py "created_at_utc"; py "name"; py "email"; py "company"; py "website";
    py "budget"; py "goal"; py "message"; py "source"; py "ip";
    py "user_agent" ].

Definition lead_row (now : str) (data : dict) : list cell :=
  [ Some now;
    dict_get data (py "name");
    dict_get data (py "email");
    dict_get data (py "company");
    dict_get data (py "website");
    dict_get data (py "budget");
    dict_get data (py "goal");
    dict_get data (py "message");
    dict_get data (py "source");
    dict_get data (py "ip");
    dict_get data (py "user_agent") ].

Definition save_lead (now : str) (data : dict) : M unit :=
  save_row LEADS_CSV lead_header (lead_row now data).

Definition subscriber_header : list str :=
  [ py "created_at_utc"; py "email"; py "source"; py "ip"; py "user_agent" ].

Definition subscriber_row (now : str) (data : dict) : list cell :=
  [ Some now;
    dict_get data (py "email");
    dict_get data (py "source");
    dict_get data (py "ip");
    dict_get data (py "user_agent") ].

Definition save_subscriber (now : str) (data : dict) : M unit :=
  save_row NEWSLETTER_CSV subscriber_header (subscriber_row now data).

Definition find_bg_file (filename : str) : M (option Path) :=
  let p1 := joinpath STATIC_IMG_DIR filename in
  e1 <- path_exists p1 ;;
  if e1 then ret (Some p1)
  else
    let p2 := joinpath IMAGES_DIR filename in
    e2 <- path_exists p2 ;;
    if e2 then ret (Some p2) else ret None.

Definition bg_mapping : gmap str str :=
  list_to_map
    [ (py "home", py "home_bg_1920x1080.jpg");
      (py "insights", py "insights_bg_1920x1080.jpg");
      (py "start", py "start_bg_1920x1080.jpg");
      (py "privacy", py "privacy_bg_1920x1080.jpg");
      (py "terms", py "terms_bg_1920x1080.jpg");
      (py "thank_you", py "thank_you_bg_1920x1080.jpg");
      (py "blog", py "insights_bg_1920x1080.jpg") ].

Definition bg_image_for (page : str) : M (option str) :=
  match bg_mapping !! page with
  | None => ret None
  | Some filename =>
      if negb (truthy filename) then ret None
      else
        found <- find_bg_file filename ;;
        match found with
        | Some _ => ret (Some (py "/static/img/" ++ filename))
        | None => ret None
        end
  end.

Definition render_page (request : Request) (body_html : str)
    (page title_ desc : str) : M str :=
  hero_bg_url <- bg_image_for page ;;
  match render_template_string body_html hero_bg_url with
  | None => internal_server_error
  | Some body =>
      ret (BASE APP_NAME SLOGAN title_ desc (site_url (path request))
             INCLUDE_PIXELS (ADSENSE_ENABLED && truthy ADSENSE_CLIENT)
             ADSENSE_CLIENT body)
  end.

(** *** Static images *)

(** [send_from_directory(file.parent, file.name)]: 404 unless [file] is
    a regular file; then [send_file] opens it, and answers with it. An
    open that raises ends the request. *)
Definition send_from_directory (file : Path) : M Response :=
  fun fs =>
    match fs !! file with
    | None => abort 404 [] fs
    | Some _ =>
        if refused fs Read file then internal_server_error fs
        else (Done (SendFile file), fs)
    end.

Definition static_img_files (filename : str) : M Response :=
  p <- find_bg_file filename ;;
  match p with
  | None => abort 404 []
  | Some file => send_from_directory file
  end.

(** *** SEO: the sitemap *)

(** The local [pages] of [sitemap]: location, change frequency, priority. *)
Definition sitemap_pages : list (str * str * str) :=
  [ (site_url (url_for (py "home")), py "weekly", py "1.0");
    (site_url (url_for (py "insights")), py "weekly", py "0.7");
    (site_url (url_for (py "blog")), py "weekly", py "0.7");
    (site_url (url_for (py "start")), py "monthly", py "0.7");
    (site_url (url_for (py "privacy")), py "yearly", py "0.2");
    (site_url (url_for (py "terms")), py "yearly", py "0.2");
    (site_url (url_for (py "thank_you")), py "yearly", py "0.1") ]
  ++ map (fun p => (site_url (url_for_blog_post (slug p)), py "monthly", py "0.6"))
       BLOG_POSTS.

Definition sitemap_entry (page : str * str * str) : list str :=
  let '(loc, changefreq, priority) := page in
  [ py "  <url>";
    py "    <loc>" ++ loc ++ py "</loc>";
    py "    <changefreq>" ++ changefreq ++ py "</changefreq>";
    py "    <priority>" ++ priority ++ py "</priority>";
    py "  </url>" ].

(** The local [xml] of [sitemap], line by line. *)
Definition sitemap_xml : list str :=
  [ py "<?xml version=" ++ DQ ++ py "1.0" ++ DQ ++ py " encoding=" ++ DQ
      ++ py "UTF-8" ++ DQ ++ py "?>";
    py "<urlset xmlns=" ++ DQ
      ++ py "http://www.sitemaps.org/schemas/sitemap/0.9" ++ DQ ++ py ">" ]
  ++ flat_map sitemap_entry sitemap_pages
  ++ [ py "</urlset>" ].

Definition sitemap : Response :=
  WithMimetype (join NL sitemap_xml) (py "application/xml").

(** *** Advertisement blocks *)

Definition adsense_ad_unit (slot : str) : str :=
  if negb (ADSENSE_ENABLED && truthy ADSENSE_CLIENT && truthy slot) then []
  else
    strip
      (NL
       ++ py "<div class=" ++ DQ ++ py "adbox" ++ DQ ++ py ">" ++ NL
       ++ py "  <div class=" ++ DQ ++ py "adlabel" ++ DQ
       ++ py ">ADVERTISEMENT</div>" ++ NL
       ++ py "  <ins class=" ++ DQ ++ py "adsbygoogle" ++ DQ ++ NL
       ++ py "       style=" ++ DQ ++ py "display:block" ++ DQ ++ NL
       ++ py "       data-ad-client=" ++ DQ ++ ADSENSE_CLIENT ++ DQ ++ NL
       ++ py "       data-ad-slot=" ++ DQ ++ slot ++ DQ ++ NL
       ++ py "       data-ad-format=" ++ DQ ++ py "auto" ++ DQ ++ NL
       ++ py "       data-full-width-responsive=" ++ DQ ++ py "true" ++ DQ
       ++ py "></ins>" ++ NL
       ++ py "  <script>(adsbygoogle = window.adsbygoogle || []).push({});</script>"
       ++ NL
       ++ py "</div>" ++ NL).

(** *** Routes *)

Definition blog_post (request : Request) (s : str) : M Response :=
  match get_post s with
  | None => abort 404 []
  | Some post =>
      let body :=
        BLOG_POST_BODY post
          (adsense_ad_unit ADSENSE_SLOT_HEADER)
          (adsense_ad_unit ADSENSE_SLOT_INARTICLE)
          (adsense_ad_unit ADSENSE_SLOT_SIDEBAR) in
      page <- render_page request body (py "blog")
                (APP_NAME ++ py " | " ++ title post) (excerpt post) ;;
      ret (Html page)
  end.

Definition lead (now : str) (request : Request) : M Response :=
  let name := strip (or_default (form_get request (py "name")) []) in
  let email := strip (or_default (form_get request (py "email")) []) in
  let message := strip (or_default (form_get request (py "message")) []) in
  if negb (truthy name) || negb (truthy email) || negb (truthy message)
  then abort 400 (py "Missing required fields.")
  else
    let payload : dict :=
      list_to_map
        [ (py "name", Some name);
          (py "email", Some email);
          (py "company", Some (strip (or_default (form_get request (py "company")) [])));
          (py "website", Some (strip (or_default (form_get request (py "website")) [])));
          (py "budget", Some (strip (or_default (form_get request (py "budget")) [])));
          (py "goal", Some (strip (or_default (form_get request (py "goal")) [])));
          (py "message", Some message);
          (py "source",
            Some (strip (or_default (form_get request (py "source")) (py "website_form"))));
          (py "ip",
            match x_forwarded_for request with
            | Some v => Some v
            | None => remote_addr request
            end);
          (py "user_agent", Some (default [] (user_agent request))) ] in
    save_lead now payload ;;;
    ret (Redirect (url_for (py "thank_you")) 302).

Definition lead_alias : Response := Redirect (url_for (py "lead")) 307.

Definition newsletter_subscribe (now : str) (request : Request) : M Response :=
  let email := strip (or_default (form_get request (py "email")) []) in
  if negb (truthy email) || negb (contains (py "@") email)
  then abort 400 (py "Enter a valid email.")
  else
    let payload : dict :=
      list_to_map
        [ (py "email", Some email);
          (py "source",
            Some (strip (or_default (form_get request (py "source")) (py "newsletter"))));
          (py "ip",
            match x_forwarded_for request with
            | Some v => Some v
            | None => remote_addr request
            end);
          (py "user_agent", Some (default [] (user_agent request))) ] in
    save_subscriber now payload ;;;
    ret (Redirect (url_for (py "newsletter_thanks")) 302).

End App.

(** ** Vocabulary of the statements *)

(** A form field that is missing, or present and empty. *)
Definition missing_or_empty (v : option str) : Prop := v = None \/ v = Some [].

(** The submitted value of a form field, the empty string when omitted. *)
Definition submitted (request : Request) (key : str) : str :=
  default [] (form_get request key).

(** The text of a record file before an append: what it holds, or the
    header row that the store writes first when the file is absent. *)
Definition text_before (fs : FileSystem) (file : Path) (header : list str) : str :=
  match fs !! file with
  | Some text => text
  | None => writerow (map Some header)
  end.

(** [path.exists()] as a function of the filesystem. *)
Definition file_exists (fs : FileSystem) (file : Path) : bool :=
  bool_decide (is_Some (nodes fs !! file)).

(** The record file can be opened: the appending open returns a file
    (the path names no directory, and the operating system does not
    refuse the open), and so does the open that creates the file when
    the path does not exist. *)
Definition openable (fs : FileSystem) (file : Path) : Prop :=
  can_open fs Append file = true
  /\ (file_exists fs file = false -> can_open fs Write file = true).

(** What a form handler answers once the store has run: its redirect
    when the store returned, and the error of the store when the store
    raised. *)
Definition after_store (location : str) (stored : outcome unit * FileSystem)
    : outcome Response * FileSystem :=
  match stored with
  | (Done _, fs') => (Done (Redirect location 302), fs')
  | (Aborted code description, fs') => (Aborted code description, fs')
  end.

(** The header row as a line of text. *)
Definition header_line (header : list str) : str :=
  join [COMMA] header ++ [CR; LF].

(** The two record kinds and what the store keeps for each. *)
Inductive kind := Lead | Subscriber.

Definition kind_header (k : kind) : list str :=
  match k with Lead => lead_header | Subscriber => subscriber_header end.

(** One call of the record store. *)
Inductive store_op :=
  | SaveLead (now : str) (data : dict)
  | SaveSubscriber (now : str) (data : dict).

Definition op_kind (op : store_op) : kind :=
  match op with SaveLead _ _ => Lead | SaveSubscriber _ _ => Subscriber end.

Definition op_row (op : store_op) : list cell :=
  match op with
  | SaveLead now data => lead_row now data
  | SaveSubscriber now data => subscriber_row now data
  end.

Definition kind_eqb (a b : kind) : bool :=
  match a, b with
  | Lead, Lead | Subscriber, Subscriber => true
  | _, _ => false
  end.

(** The rows that a sequence of calls hands to the store for one kind. *)
Definition rows_of (k : kind) (ops : list store_op) : list (list cell) :=
  map op_row (List.filter (fun op => kind_eqb (op_kind op) k) ops).

Section Run.
Variables LEADS_CSV NEWSLETTER_CSV : Path.

Definition kind_file (k : kind) : Path :=
  match k with Lead => LEADS_CSV | Subscriber => NEWSLETTER_CSV end.

Definition run_op (op : store_op) : M unit :=
  match op with
  | SaveLead now data => save_lead LEADS_CSV now data
  | SaveSubscriber now data => save_subscriber NEWSLETTER_CSV now data
  end.

(** The calls of [ops], one after the other. *)
Fixpoint run_ops (ops : list store_op) : M unit :=
  match ops with
  | [] => ret tt
  | op :: rest => run_op op ;;; run_ops rest
  end.
End Run.

(** *** The rows of a record file

    What [csv.reader] returns for a text in the default dialect (a file
    opened with [newline=""], Python 3.11 or later): the meaning of a row
    of a record file in the statements. The reader follows the state
    machine of the standard library; the two states for an escape
    character, which the dialect lacks, are left out. *)

Inductive parse_state :=
  | START_RECORD | START_FIELD | IN_FIELD | IN_QUOTED_FIELD
  | QUOTE_IN_QUOTED_FIELD | EAT_CRNL.

(** The reader: its state, the field and the record being read, and the
    records returned so far. *)
Record Reader := mkReader {
  state : parse_state;
  field : str;
  fields : list str;
  records : list (list str)
}.

Definition parse_add_char (r : Reader) (c : char) (st : parse_state) : Reader :=
  mkReader st (field r ++ [c]) (fields r) (records r).

Definition parse_save_field (r : Reader) (st : parse_state) : Reader :=
  mkReader st [] (fields r ++ [field r]) (records r).

Definition set_state (r : Reader) (st : parse_state) : Reader :=
  mkReader st (field r) (fields r) (records r).

Definition is_newline (c : char) : bool := (c =? LF) || (c =? CR).

(** [parse_process_char] on a character that is not a newline, in a state
    where a field may start. *)
Definition start_field (r : Reader) (c : char) : Reader :=
  if c =? QUOTE then set_state r IN_QUOTED_FIELD
  else if c =? COMMA then parse_save_field r START_FIELD
  else parse_add_char r c IN_FIELD.

(** [parse_process_char]: one character, or the end of a line ([None]).
    The result is [None] when the reader raises an error. *)
Definition parse_process_char (r : Reader) (c : option char) : option Reader :=
  match state r, c with
  | START_RECORD, None => Some r
  | START_RECORD, Some c =>
      if is_newline c then Some (set_state r EAT_CRNL)
      else Some (start_field r c)
  | START_FIELD, None => Some (parse_save_field r START_RECORD)
  | START_FIELD, Some c =>
      if is_newline c then Some (parse_save_field r EAT_CRNL)
      else Some (start_field r c)
  | IN_FIELD, None => Some (parse_save_field r START_RECORD)
  | IN_FIELD, Some c =>
      if is_newline c then Some (parse_save_field r EAT_CRNL)
      else if c =? COMMA then Some (parse_save_field r START_FIELD)
      else Some (parse_add_char r c IN_FIELD)
  | IN_QUOTED_FIELD, None => Some r
  | IN_QUOTED_FIELD, Some c =>
      if c =? QUOTE then Some (set_state r QUOTE_IN_QUOTED_FIELD)
      else Some (parse_add_char r c IN_QUOTED_FIELD)
  | QUOTE_IN_QUOTED_FIELD, None => Some (parse_save_field r START_RECORD)
  | QUOTE_IN_QUOTED_FIELD, Some c =>
      if c =? QUOTE then Some (parse_add_char r c IN_QUOTED_FIELD)
      else if c =? COMMA then Some (parse_save_field r START_FIELD)
      else if is_newline c then Some (parse_save_field r EAT_CRNL)
      else Some (parse_add_char r c IN_FIELD)
  | EAT_CRNL, None => Some (set_state r START_RECORD)
  | EAT_CRNL, Some c => if is_newline c then Some r else None
  end.

(** The end of a line: the reader is told, and returns the record when
    it is back in state START_RECORD. *)
Definition end_of_line (r : Reader) : option Reader :=
  match parse_process_char r None with
  | None => None
  | Some r' =>
      match state r' with
      | START_RECORD => Some (mkReader START_RECORD [] [] (records r' ++ [fields r']))
      | _ => Some r'
      end
  end.

(** A line of the file ends after [c]: at a line feed, at a carriage
    return that no line feed follows, and at the end of the text. *)
Definition ends_line (c : char) (rest : str) : bool :=
  match rest with
  | [] => true
  | d :: _ => (c =? LF) || ((c =? CR) && negb (d =? LF))
  end.

(** The reader over a text, line by line. *)
Fixpoint read (r : Reader) (text : str) : option Reader :=
  match text with
  | [] => Some r
  | c :: rest =>
      match parse_process_char r (Some c) with
      | None => None
      | Some r1 =>
          if ends_line c rest
          then match end_of_line r1 with
               | None => None
               | Some r2 => read r2 rest
               end
          else read r1 rest
      end
  end.

(** [list(csv.reader(f))] for a file with the text [text]: at the end of
    the text, a quoted field that is still open closes the last record. *)
Definition csv_reader (text : str) : option (list (list str)) :=
  match read (mkReader START_RECORD [] [] []) text with
  | None => None
  | Some r =>
      match state r with
      | IN_QUOTED_FIELD => Some (records r ++ [fields r ++ [field r]])
      | _ => Some (records r)
      end
  end.

(** A reader that has read a cell and waits for what ends it. *)
Inductive after_cell (v : str) : parse_state -> str -> Prop :=
  | after_empty : v = [] -> after_cell v START_FIELD []
  | after_plain : after_cell v IN_FIELD v
  | after_quoted : after_cell v QUOTE_IN_QUOTED_FIELD v.

(** *** Stored rows *)

(** The cell stored for the client address. *)
Definition ip_cell (request : Request) : cell :=
  match x_forwarded_for request with
  | Some v => Some v
  | None => remote_addr request
  end.

(** The row that [lead] hands to the store for a request it accepts. *)
Definition stored_lead_row (now : str) (request : Request) : list cell :=
  [ Some now;
    Some (strip (submitted request (py "name")));
    Some (strip (submitted request (py "email")));
    Some (strip (submitted request (py "company")));
    Some (strip (submitted request (py "website")));
    Some (strip (submitted request (py "budget")));
    Some (strip (submitted request (py "goal")));
    Some (strip (submitted request (py "message")));
    Some (strip (or_default (form_get request (py "source")) (py "website_form")));
    ip_cell request;
    Some (default [] (user_agent request)) ].

(** The row that [newsletter_subscribe] hands to the store. *)
Definition stored_subscriber_row (now : str) (request : Request) : list cell :=
  [ Some now;
    Some (strip (submitted request (py "email")));
    Some (strip (or_default (form_get request (py "source")) (py "newsletter")));
    ip_cell request;
    Some (default [] (user_agent request)) ].

(** The row that a verbatim store would keep: every form field as it was
    submitted, the empty string for an omitted one. *)
Definition verbatim_lead_row (now : str) (request : Request) : list cell :=
  [ Some now;
    Some (submitted request (py "name"));
    Some (submitted request (py "email"));
    Some (submitted request (py "company"));
    Some (submitted request (py "website"));
    Some (submitted request (py "budget"));
    Some (submitted request (py "goal"));
    Some (submitted request (py "message"));
    Some (submitted request (py "source"));
    ip_cell request;
    Some (default [] (user_agent request)) ].

(** The cell of [row] in the column that [header] calls [name]. *)
Definition column (header : list str) (row : list cell) (name : str) : option cell :=
  snd <$> find (fun hc => bool_decide (fst hc = name)) (combine header row).

(** The columns that come from form fields. *)
Definition lead_form_fields : list str :=
  [ py "name"; py "email"; py "company"; py "website"; py "budget"; py "goal";
    py "message"; py "source" ].
Definition subscriber_form_fields : list str := [ py "email"; py "source" ].

(** A cell holds a string without whitespace at either end. *)
Definition stripped_cell (c : option cell) : Prop :=
  exists v : str, c = Some (Some v)
                  /\ leading_space v = false /\ trailing_space v = false.

(** *** Advertisement blocks *)

(** The whole ad unit for a client and a slot: the markup of
    [adsense_ad_unit] without the newline before and after it. *)
Definition ad_block (client slot : str) : str :=
  py "<div class=" ++ DQ ++ py "adbox" ++ DQ ++ py ">" ++ NL
  ++ py "  <div class=" ++ DQ ++ py "adlabel" ++ DQ
  ++ py ">ADVERTISEMENT</div>" ++ NL
  ++ py "  <ins class=" ++ DQ ++ py "adsbygoogle" ++ DQ ++ NL
  ++ py "       style=" ++ DQ ++ py "display:block" ++ DQ ++ NL
  ++ py "       data-ad-client=" ++ DQ ++ client ++ DQ ++ NL
  ++ py "       data-ad-slot=" ++ DQ ++ slot ++ DQ ++ NL
  ++ py "       data-ad-format=" ++ DQ ++ py "auto" ++ DQ ++ NL
  ++ py "       data-full-width-responsive=" ++ DQ ++ py "true" ++ DQ
  ++ py "></ins>" ++ NL
  ++ py "  <script>(adsbygoogle = window.adsbygoogle || []).push({});</script>"
  ++ NL
  ++ py "</div>".

(** *** Background images *)

(** The first of the two candidate files that exists. *)
Definition first_existing (fs : FileSystem) (STATIC_IMG_DIR IMAGES_DIR : Path)
    (filename : str) : option Path :=
  if file_exists fs (joinpath STATIC_IMG_DIR filename)
  then Some (joinpath STATIC_IMG_DIR filename)
  else if file_exists fs (joinpath IMAGES_DIR filename)
       then Some (joinpath IMAGES_DIR filename)
       else None.

(** *** The sitemap *)

(** A priority such as 0.7, in tenths. *)
Definition priority_tenths (priority : str) : option N :=
  match priority with
  | [a; 46; b] =>
      if (48 <=? a) && (a <=? 57) && (48 <=? b) && (b <=? 57)
      then Some (10 * (a - 48) + (b - 48))
      else None
  | _ => None
  end.

(** The parts of an entry of [pages]. *)
Definition entry_loc (page : str * str * str) : str := fst (fst page).
Definition entry_changefreq (page : str * str * str) : str := snd (fst page).
Definition entry_priority (page : str * str * str) : str := snd page.

(** The number of entries of a sitemap, counted on its lines. *)
Definition url_entries (xml : list str) : nat :=
  length (List.filter (fun line => bool_decide (line = py "  <url>")) xml).

(** The value of a line of the form [    <tag>value</tag>], the form of
    the lines of a sitemap entry; [None] for a line of another form. *)
Definition tag_value (tag line : str) : option str :=
  let opening := py "    <" ++ tag ++ py ">" in
  let closing := py "</" ++ tag ++ py ">" in
  if startswith opening line
     && startswith (rev closing) (rev line)
     && Nat.leb (length opening + length closing) (length line)
  then Some (firstn (length line - length opening - length closing)
               (skipn (length opening) line))
  else None.

(** The values that the lines of a sitemap give for a tag, in order. *)
Definition xml_values (tag : str) (xml : list str) : list str :=
  omap (tag_value tag) xml.

(** The seven pages the sitemap names, by path. *)
Definition sitemap_static_paths : list str :=
  [ py "/"; py "/insights"; py "/blog"; py "/start"; py "/privacy";
    py "/terms"; py "/thank-you" ].

(** The legal pages and the thank-you page. *)
Definition legal_and_thanks_paths : list str :=
  [ py "/privacy"; py "/terms"; py "/thank-you" ].

(** *** Text that the template engine leaves alone *)

(** Text that can stand anywhere in inert text: tag free, and not ending
    in an opening brace. *)
Definition template_safe (s : str) : bool := tag_free s && negb (ends_with 123 s).

(** A text that is not empty and does not end with [c]. *)
Definition last_is_not (c : char) (s : str) : Prop :=
  s <> [] /\ ends_with c s = false.

(** The advertisement identifiers hold nothing that the template engine
    would read as a tag, or advertisements are off. *)
Definition ads_template_safe (ADSENSE_ENABLED : bool)
    (ADSENSE_CLIENT ADSENSE_SLOT_HEADER ADSENSE_SLOT_INARTICLE
       ADSENSE_SLOT_SIDEBAR : str) : Prop :=
  ADSENSE_ENABLED = false
  \/ (template_safe ADSENSE_CLIENT = true
      /\ template_safe ADSENSE_SLOT_HEADER = true
      /\ template_safe ADSENSE_SLOT_INARTICLE = true
      /\ template_safe ADSENSE_SLOT_SIDEBAR = true).

(** *** Sample inputs *)

(** A clock reading. *)
Definition sample_now : str := py "2026-01-05T10:00:00+00:00".

(** The default file names, and a filesystem without files. *)
Definition leads : Path := py "leads.csv".
Definition newsletter : Path := py "newsletter.csv".
Definition empty : FileSystem := ∅.

(** A filesystem in which the path [.] names a directory, one in which
    a directory has the name of an image, one in which the lead file can
    be created and not appended to, and one in which it cannot be
    created. *)
Definition sample_directory : FileSystem :=
  {| nodes := {[ py "." := Directory ]}; refused := fun _ _ => false |}.
Definition sample_image_directory : FileSystem :=
  {| nodes := {[ py "/srv/images/insights_bg_1920x1080.jpg" := Directory ]};
     refused := fun _ _ => false |}.
Definition sample_append_refused : FileSystem :=
  {| nodes := ∅;
     refused := fun mode file =>
       match mode with
       | Append => bool_decide (file = py "leads.csv")
       | _ => false
       end |}.
Definition sample_read_only : FileSystem :=
  {| nodes := ∅;
     refused := fun mode file =>
       match mode with
       | Read => false
       | _ => bool_decide (file = py "leads.csv")
       end |}.

Definition sample_lead : Request :=
  {| path := py "/api/lead";
     form := [ (py "name", py " Ada"); (py "email", py "ada@example.com");
               (py "message", py "hello, there") ];
     x_forwarded_for := None;
     user_agent := Some (py " curl/8.0 ");
     remote_addr := Some (py "203.0.113.7") |}.

Definition sample_lead_without_email : Request :=
  {| path := py "/api/lead";
     form := [ (py "name", py "Ada"); (py "message", py "hello") ];
     x_forwarded_for := None;
     user_agent := Some (py "curl/8.0");
     remote_addr := Some (py "203.0.113.7") |}.

Definition sample_blank_lead : Request :=
  {| path := py "/api/lead";
     form := [ (py "name", py "   "); (py "email", py "ada@example.com");
               (py "message", py "hello") ];
     x_forwarded_for := None;
     user_agent := None;
     remote_addr := None |}.

Definition sample_subscription : Request :=
  {| path := py "/api/newsletter";
     form := [ (py "email", py "ada@example.com ") ];
     x_forwarded_for := Some (py "198.51.100.2");
     user_agent := None;
     remote_addr := Some (py "203.0.113.7") |}.

Definition sample_ops : list store_op :=
  [ SaveLead sample_now (list_to_map [ (py "name", Some (py "Ada")) ]);
    SaveSubscriber sample_now (list_to_map [ (py "email", Some (py "a@b")) ]);
    SaveLead sample_now (list_to_map [ (py "name", None) ]) ].

(** The first post of the registry, and a request for its page. *)
Definition no_post : BlogPost :=
  {| slug := []; title := []; date := []; excerpt := []; html := [] |}.
Definition sample_post : BlogPost := hd no_post BLOG_POSTS.

Definition sample_page_request : Request :=
  {| path := py "/blog/positioning-before-promotion";
     form := [];
     x_forwarded_for := None;
     user_agent := None;
     remote_addr := None |}.

(** A template engine that raises on every source that is not inert. *)
Definition sample_engine (source : str) (hero_bg_url : option str) : option str :=
  None.

(** ** More of the application

    The settings that the module reads from the environment, the robots
    directive, the blog index and the views of the static pages, and
    the vocabulary of the statements about them. *)

(** *** Settings read from the environment *)

(** [os.environ] *)
Definition Environ : Type := gmap str str.

(** [os.getenv(name, fallback)] *)
Definition getenv (environ : Environ) (name fallback : str) : str :=
  default fallback (environ !! name).

(** The module-level settings, as functions of the environment at
    import. *)
Module Settings.
Section Environment.
Variable environ : Environ.

Definition CANONICAL_DOMAIN : str :=
  strip (getenv environ (py "CANONICAL_DOMAIN") []).

Definition INCLUDE_PIXELS : bool :=
  truthy (strip (getenv environ (py "INCLUDE_PIXELS") [])).

Definition ADSENSE_ENABLED : bool :=
  truthy (strip (getenv environ (py "ADSENSE_ENABLED") [])).
Definition ADSENSE_CLIENT : str :=
  strip (getenv environ (py "ADSENSE_CLIENT") []).
Definition ADSENSE_SLOT_HEADER : str :=
  strip (getenv environ (py "ADSENSE_SLOT_HEADER") []).
Definition ADSENSE_SLOT_INARTICLE : str :=
  strip (getenv environ (py "ADSENSE_SLOT_INARTICLE") []).
Definition ADSENSE_SLOT_SIDEBAR : str :=
  strip (getenv environ (py "ADSENSE_SLOT_SIDEBAR") []).

End Environment.
End Settings.

(** *** SEO: the robots directive *)

Definition robots (CANONICAL_DOMAIN : str) : Response :=
  let lines :=
    [ py "User-agent: *";
      py "Allow: /";
      py "Sitemap: " ++ site_url CANONICAL_DOMAIN (py "/sitemap.xml") ] in
  WithMimetype (join NL lines ++ NL) (py "text/plain").

(** *** The blog index

    The template of the index, as the function that renders it: the
    text between [{% for p in posts %}] and [{% endfor %}] once for
    every post, in the order of the list. *)

Definition BLOG_LIST_BODY (posts : list BlogPost) (ad_sidebar : str) : str :=
  NL ++ py "<main class=" ++ DQ ++ py "page" ++ DQ ++ py ">" ++ NL
  ++ py "  <div class=" ++ DQ ++ py "container" ++ DQ ++ py ">" ++ NL
  ++ py "    <h1>Blog</h1>" ++ NL
  ++ py "    <p class=" ++ DQ ++ py "lead" ++ DQ
  ++ py ">Short, practical strategy notes" ++ [8212]
  ++ py "built for operators.</p>" ++ NL
  ++ NL ++ py "    <div class=" ++ DQ ++ py "blogwrap" ++ DQ ++ py " style="
  ++ DQ ++ py "margin-top:18px;" ++ DQ ++ py ">" ++ NL
  ++ py "      <div>" ++ NL
  ++ py "        "
  ++ flat_map (fun p : BlogPost =>
       NL ++ py "          <div class=" ++ DQ ++ py "postcard" ++ DQ
       ++ py " style=" ++ DQ ++ py "margin-bottom:12px;" ++ DQ ++ py ">" ++ NL
       ++ py "            <a href=" ++ DQ
       ++ escape (url_for_blog_post (slug p)) ++ DQ ++ py ">" ++ NL
       ++ py "              <div class=" ++ DQ ++ py "kicker" ++ DQ
       ++ py ">INSIGHT</div>" ++ NL
       ++ py "              <div class=" ++ DQ ++ py "title" ++ DQ
       ++ py " style=" ++ DQ
       ++ py "font-weight:700; font-size:18px; margin-top:8px;" ++ DQ
       ++ py ">" ++ escape (title p) ++ py "</div>" ++ NL
       ++ py "            </a>" ++ NL
       ++ py "            <div class=" ++ DQ ++ py "postmeta" ++ DQ ++ py ">"
       ++ escape (date p) ++ py "</div>" ++ NL
       ++ py "            <div class=" ++ DQ ++ py "desc" ++ DQ
       ++ py " style=" ++ DQ
       ++ py "color:var(--muted); margin-top:10px; line-height:1.6;" ++ DQ
       ++ py ">" ++ escape (excerpt p) ++ py "</div>" ++ NL
       ++ py "          </div>" ++ NL
       ++ py "        ")
       posts
  ++ NL ++ py "      </div>" ++ NL
  ++ NL ++ py "      <aside class=" ++ DQ ++ py "sidebar" ++ DQ ++ py ">" ++ NL
  ++ py "        <div class=" ++ DQ ++ py "kicker" ++ DQ
  ++ py ">START HERE</div>" ++ NL
  ++ py "        <div style=" ++ DQ ++ py "font-weight:700; margin-top:10px;"
  ++ DQ ++ py ">Want a diagnosis?</div>" ++ NL
  ++ py "        <div class=" ++ DQ ++ py "desc" ++ DQ ++ py " style=" ++ DQ
  ++ py "color:var(--muted); margin-top:8px; line-height:1.6;" ++ DQ ++ py ">" ++ NL
  ++ py "          Request a Signal Audit and we" ++ [8217]
  ++ py "ll tell you what" ++ [8217] ++ py "s actually breaking conversions." ++ NL
  ++ py "        </div>" ++ NL
  ++ py "        <div style=" ++ DQ ++ py "margin-top:12px;" ++ DQ ++ py ">" ++ NL
  ++ py "          <a class=" ++ DQ ++ py "btn" ++ DQ ++ py " href=" ++ DQ
  ++ escape (url_for (py "start")) ++ DQ ++ py ">Request a Signal Audit</a>" ++ NL
  ++ py "        </div>" ++ NL
  ++ NL ++ py "        " ++ NL
  ++ py "<div class=" ++ DQ ++ py "newsletter" ++ DQ ++ py ">" ++ NL
  ++ py "  <div class=" ++ DQ ++ py "kicker" ++ DQ ++ py ">NEWSLETTER</div>" ++ NL
  ++ py "  <div class=" ++ DQ ++ py "hint" ++ DQ
  ++ py ">Short strategy dispatches" ++ [8212] ++ py "no spam. If it"
  ++ [8217] ++ py "s not useful, we won" ++ [8217] ++ py "t send it.</div>" ++ NL
  ++ py "  <form method=" ++ DQ ++ py "post" ++ DQ ++ py " action=" ++ DQ
  ++ escape (url_for (py "newsletter_subscribe")) ++ DQ ++ py " style=" ++ DQ
  ++ py "margin:0; padding:0; border:none; background:transparent; max-width:none;"
  ++ DQ ++ py ">" ++ NL
  ++ py "    <div class=" ++ DQ ++ py "row" ++ DQ ++ py ">" ++ NL
  ++ py "      <input name=" ++ DQ ++ py "email" ++ DQ ++ py " type=" ++ DQ
  ++ py "email" ++ DQ ++ py " required placeholder=" ++ DQ
  ++ py "you@company.com" ++ DQ ++ py " aria-label=" ++ DQ
  ++ py "Email address" ++ DQ ++ py " />" ++ NL
  ++ py "      <button class=" ++ DQ ++ py "btn" ++ DQ ++ py " type=" ++ DQ
  ++ py "submit" ++ DQ ++ py ">Subscribe</button>" ++ NL
  ++ py "    </div>" ++ NL
  ++ py "    <input type=" ++ DQ ++ py "hidden" ++ DQ ++ py " name=" ++ DQ
  ++ py "source" ++ DQ ++ py " value=" ++ DQ ++ py "newsletter_block" ++ DQ
  ++ py " />" ++ NL
  ++ py "  </form>" ++ NL
  ++ py "</div>" ++ NL
  ++ NL ++ NL
  ++ py "        "
  ++ (if truthy ad_sidebar
     then
       NL ++ py "          <div style=" ++ DQ ++ py "margin-top:12px;" ++ DQ
       ++ py ">" ++ ad_sidebar ++ py "</div>" ++ NL
       ++ py "        "
     else [])
  ++ NL ++ py "      </aside>" ++ NL
  ++ py "    </div>" ++ NL
  ++ py "  </div>" ++ NL
  ++ py "</main>".

Section Views.

Variable CANONICAL_DOMAIN : str.
Variable INCLUDE_PIXELS : bool.
Variable ADSENSE_ENABLED : bool.
Variable ADSENSE_CLIENT : str.
Variable ADSENSE_SLOT_SIDEBAR : str.
Variables STATIC_IMG_DIR IMAGES_DIR : Path.
Variable BASE_STYLE : str.
Variable render_tags : str -> option str -> option str.

(** The body templates of the static pages. Their text is marketing
    copy around the tags of [HERO_OPEN] and of the forms; the views
    hand it to [render_page] as it is, and nothing below depends on
    it. *)
Variables HOME_BODY INSIGHTS_BODY START_BODY THANKS_BODY : str.
Variables NEWSLETTER_THANKS_BODY PRIVACY_BODY TERMS_BODY : str.

Local Abbreviation page_of :=
  (render_page CANONICAL_DOMAIN INCLUDE_PIXELS ADSENSE_ENABLED ADSENSE_CLIENT
     STATIC_IMG_DIR IMAGES_DIR BASE_STYLE render_tags).

Definition home (request : Request) : M Response :=
  page <- page_of request HOME_BODY (py "home")
            (APP_NAME ++ py " | Strategy-led Marketing")
            (py "Strategy-led marketing: positioning, systems, and "
             ++ py "distribution that converts.") ;;
  ret (Html page).

Definition insights (request : Request) : M Response :=
  page <- page_of request INSIGHTS_BODY (py "insights")
            (APP_NAME ++ py " | Insights")
            (py "Marketing insights on positioning, systems, and distribution.") ;;
  ret (Html page).

Definition blog (request : Request) : M Response :=
  let body :=
    BLOG_LIST_BODY BLOG_POSTS
      (adsense_ad_unit ADSENSE_ENABLED ADSENSE_CLIENT ADSENSE_SLOT_SIDEBAR) in
  page <- page_of request body (py "blog")
            (APP_NAME ++ py " | Blog")
            (py "Practical marketing strategy notes: positioning, systems, "
             ++ py "and distribution.") ;;
  ret (Html page).

Definition start (request : Request) : M Response :=
  page <- page_of request START_BODY (py "start")
            (APP_NAME ++ py " | Request a Signal Audit")
            (py "Request a Signal Audit" ++ [8212]
             ++ py "diagnosis-first marketing for brands that want clarity "
             ++ py "and influence.") ;;
  ret (Html page).

Definition thank_you (request : Request) : M Response :=
  page <- page_of request THANKS_BODY (py "thank_you")
            (APP_NAME ++ py " | Thank You")
            (py "Submission received.") ;;
  ret (Html page).

Definition newsletter_thanks (request : Request) : M Response :=
  page <- page_of request NEWSLETTER_THANKS_BODY (py "insights")
            (APP_NAME ++ py " | Subscribed")
            (py "Newsletter subscribed.") ;;
  ret (Html page).

Definition privacy (request : Request) : M Response :=
  page <- page_of request PRIVACY_BODY (py "privacy")
            (APP_NAME ++ py " | Privacy Policy")
            (py "Privacy policy for J Supreme Marketing.") ;;
  ret (Html page).

Definition terms (request : Request) : M Response :=
  page <- page_of request TERMS_BODY (py "terms")
            (APP_NAME ++ py " | Terms")
            (py "Terms of service for J Supreme Marketing.") ;;
  ret (Html page).

(** The views of the static pages, by endpoint. *)
Definition page_views : list (str * (Request -> M Response)) :=
  [ (py "home", home); (py "insights", insights); (py "blog", blog);
    (py "start", start); (py "thank_you", thank_you);
    (py "newsletter_thanks", newsletter_thanks);
    (py "privacy", privacy); (py "terms", terms) ].

End Views.

(** *** Vocabulary of the statements about this part *)

(** A setting that is unset, empty, or whitespace only. *)
Definition blank (environ : Environ) (name : str) : bool :=
  forallb isspace (getenv environ name []).

(** A form posted to one of the two handlers. *)
Inductive submission :=
  | LeadForm (request : Request)
  | NewsletterForm (request : Request).

(** The request of a submission. *)
Definition request_of (s : submission) : Request :=
  match s with LeadForm r | NewsletterForm r => r end.

(** The condition under which the handler goes on to the store: what is
    left of the test before its [abort(400, ...)]. *)
Definition accepted (s : submission) : bool :=
  match s with
  | LeadForm r =>
      truthy (strip (submitted r (py "name")))
      && truthy (strip (submitted r (py "email")))
      && truthy (strip (submitted r (py "message")))
  | NewsletterForm r =>
      truthy (strip (submitted r (py "email")))
      && contains (py "@") (strip (submitted r (py "email")))
  end.

(** The rows of the accepted lead forms, and of the accepted newsletter
    forms, of a sequence of submissions with their clock readings. *)
Fixpoint lead_rows (posts : list (str * submission)) : list (list cell) :=
  match posts with
  | [] => []
  | (now, LeadForm r) :: rest =>
      if accepted (LeadForm r) then stored_lead_row now r :: lead_rows rest
      else lead_rows rest
  | _ :: rest => lead_rows rest
  end.

Fixpoint subscriber_rows (posts : list (str * submission)) : list (list cell) :=
  match posts with
  | [] => []
  | (now, NewsletterForm r) :: rest =>
      if accepted (NewsletterForm r)
      then stored_subscriber_row now r :: subscriber_rows rest
      else subscriber_rows rest
  | _ :: rest => subscriber_rows rest
  end.

(** What the client of a submission is answered. *)
Definition answer (s : submission) : outcome Response :=
  match s with
  | LeadForm r =>
      if accepted s then Done (Redirect (py "/thank-you") 302)
      else Aborted 400 (py "Missing required fields.")
  | NewsletterForm r =>
      if accepted s then Done (Redirect (py "/newsletter/thanks") 302)
      else Aborted 400 (py "Enter a valid email.")
  end.

(** The file a record file is after rows were stored in it from
    absence: nothing without rows, and else the header line and the
    rows. *)
Definition stored_file (header : list str) (rows : list (list cell)) : option str :=
  match rows with
  | [] => None
  | _ => Some (header_line header ++ concat (map writerow rows))
  end.

(** The header and the row under which a submission is stored. *)
Definition record_header (s : submission) : list str :=
  match s with
  | LeadForm _ => lead_header
  | NewsletterForm _ => subscriber_header
  end.

Definition record_row (now : str) (s : submission) : list cell :=
  match s with
  | LeadForm r => stored_lead_row now r
  | NewsletterForm r => stored_subscriber_row now r
  end.

Section Serve.
Variables LEADS_CSV NEWSLETTER_CSV : Path.

(** The record file of a submission. *)
Definition record_file (s : submission) : Path :=
  match s with
  | LeadForm _ => LEADS_CSV
  | NewsletterForm _ => NEWSLETTER_CSV
  end.

(** The handler of a posted form. *)
Definition handle (now : str) (s : submission) : M Response :=
  match s with
  | LeadForm r => lead LEADS_CSV now r
  | NewsletterForm r => newsletter_subscribe NEWSLETTER_CSV now r
  end.

(** Posted forms handled one after the other, each at its clock
    reading: the answers in order, and the filesystem left. An aborted
    request ends that request only. *)
Fixpoint serve (posts : list (str * submission)) (fs : FileSystem)
    : list (outcome Response) * FileSystem :=
  match posts with
  | [] => ([], fs)
  | (now, s) :: rest =>
      let (o, fs1) := handle now s fs in
      let (os, fs2) := serve rest fs1 in
      (o :: os, fs2)
  end.

End Serve.

(** A route of the URL map with this rule that accepts this method. *)
Definition routable (method location : str) : Prop :=
  exists r : Route, In r url_map /\ rule r = location /\ In method (methods r).

(** Every character of [s] is a slash. *)
Definition only_slashes (s : str) : bool := forallb (fun c => c =? 47) s.

(** Sample inputs. *)
Definition sample_environ : Environ :=
  list_to_map
    [ (py "ADSENSE_ENABLED", py "0");
      (py "ADSENSE_CLIENT", py " ca-pub-1234 ");
      (py "ADSENSE_SLOT_SIDEBAR", py "333");
      (py "ADSENSE_SLOT_HEADER", py "   ");
      (py "CANONICAL_DOMAIN", py " https://jsupreme.example// ") ].

Definition sample_posts : list (str * submission) :=
  [ (sample_now, LeadForm sample_lead);
    (sample_now, NewsletterForm sample_subscription);
    (sample_now, LeadForm sample_lead_without_email);
    (py "2026-01-05T10:00:07+00:00", LeadForm sample_lead) ].


(** * Facts

    Every statement below is about the definitions above. The statement
    of a claim of the specification comes with the number of the claim. *)

(** ** Python strings *)

Section PyFacts.

Lemma lstrip_no_leading s : leading_space (lstrip s) = false.
Proof.
  induction s as [|c r IH]; simpl; [reflexivity|].
  destruct (isspace c) eqn:E; [exact IH|]. simpl. exact E.
Qed.

Lemma lstrip_fixed s : leading_space s = false -> lstrip s = s.
Proof. destruct s as [|c r]; simpl; [reflexivity|]. intros ->. reflexivity. Qed.

Lemma lstrip_suffix s : exists p, s = p ++ lstrip s /\ forallb isspace p = true.
Proof.
  induction s as [|c r IH]; simpl.
  - exists []. split; reflexivity.
  - destruct (isspace c) eqn:E.
    + destruct IH as (p & Hp & Hs). exists (c :: p). simpl.
      rewrite E, Hs. split; [f_equal; exact Hp | reflexivity].
    + exists []. split; reflexivity.
Qed.

Lemma lstrip_app_space p s : forallb isspace p = true -> lstrip (p ++ s) = lstrip s.
Proof.
  induction p as [|c p IH]; simpl; [reflexivity|].
  intros H. apply andb_prop in H as [-> H]. exact (IH H).
Qed.

Lemma lstrip_app_keep s t :
  lstrip s <> [] -> lstrip (s ++ t) = lstrip s ++ t.
Proof.
  induction s as [|c r IH]; simpl; [congruence|].
  destruct (isspace c); [exact IH | reflexivity].
Qed.

Lemma lstrip_all_space s : forallb isspace s = true <-> lstrip s = [].
Proof.
  induction s as [|c r IH]; simpl; [tauto|].
  destruct (isspace c); simpl; [exact IH|]. split; discriminate.
Qed.

Lemma rstrip_no_trailing s : trailing_space (rstrip s) = false.
Proof.
  unfold trailing_space, rstrip. rewrite rev_involutive.
  apply lstrip_no_leading.
Qed.

Lemma rstrip_prefix s : exists q, s = rstrip s ++ q /\ forallb isspace q = true.
Proof.
  unfold rstrip. destruct (lstrip_suffix (rev s)) as (p & Hp & Hs).
  exists (rev p). split.
  - rewrite <- rev_app_distr, <- Hp, rev_involutive. reflexivity.
  - rewrite forallb_forall in *. intros x Hx. apply Hs, in_rev, Hx.
Qed.

Lemma rstrip_keeps_head c r :
  isspace c = false -> exists r', rstrip (c :: r) = c :: r'.
Proof.
  intros Hc. unfold rstrip. simpl rev.
  destruct (lstrip (rev r)) as [|d t] eqn:E.
  - apply lstrip_all_space in E. rewrite lstrip_app_space by exact E.
    simpl. rewrite Hc. exists []. reflexivity.
  - rewrite lstrip_app_keep by congruence. rewrite E, rev_app_distr.
    simpl. exists (rev t ++ [d]). reflexivity.
Qed.

(** The result of [strip] neither starts nor ends with whitespace. *)
Lemma strip_no_outer_space s :
  leading_space (strip s) = false /\ trailing_space (strip s) = false.
Proof.
  split; [|apply rstrip_no_trailing].
  unfold strip. pose proof (lstrip_no_leading s) as H.
  destruct (lstrip s) as [|c r]; [reflexivity|]. simpl in H.
  destruct (rstrip_keeps_head c r H) as (r' & ->). exact H.
Qed.

(** [strip] only removes whitespace, on both sides. *)
Lemma strip_decompose s :
  exists p q, s = p ++ strip s ++ q
              /\ forallb isspace p = true /\ forallb isspace q = true.
Proof.
  destruct (lstrip_suffix s) as (p & Hp & Hps).
  destruct (rstrip_prefix (lstrip s)) as (q & Hq & Hqs).
  exists p, q. unfold strip. rewrite <- Hq. auto.
Qed.

Lemma strip_fixed s :
  leading_space s = false -> trailing_space s = false -> strip s = s.
Proof.
  intros Hl Ht. unfold strip. rewrite (lstrip_fixed s Hl).
  unfold rstrip. rewrite (lstrip_fixed (rev s) Ht). apply rev_involutive.
Qed.

Lemma strip_idempotent s : strip (strip s) = strip s.
Proof. destruct (strip_no_outer_space s). apply strip_fixed; assumption. Qed.

(** A string is stripped to the empty string exactly when it is all
    whitespace (the empty string included). *)
Lemma strip_empty_iff s : strip s = [] <-> forallb isspace s = true.
Proof.
  split.
  - intros H. destruct (strip_decompose s) as (p & q & Hs & Hp & Hq).
    rewrite H in Hs. rewrite Hs, forallb_app. simpl. rewrite Hp, Hq. reflexivity.
  - intros H. unfold strip. apply lstrip_all_space in H. rewrite H. reflexivity.
Qed.

Lemma strip_nil : strip [] = [].
Proof. reflexivity. Qed.

(** A character that is not whitespace survives [strip]. *)
Lemma strip_keeps_char c s :
  isspace c = false -> In c s -> In c (strip s).
Proof.
  intros Hc Hin. destruct (strip_decompose s) as (p & q & Hs & Hp & Hq).
  rewrite Hs in Hin. rewrite forallb_forall in Hp, Hq.
  apply in_app_or in Hin as [Hin|Hin].
  - apply Hp in Hin. congruence.
  - apply in_app_or in Hin as [Hin|Hin]; [exact Hin|].
    apply Hq in Hin. congruence.
Qed.

Lemma strip_subset c s : In c (strip s) -> In c s.
Proof.
  intros Hin. destruct (strip_decompose s) as (p & q & Hs & _).
  rewrite Hs. apply in_or_app. right. apply in_or_app. left. exact Hin.
Qed.

(** Membership of one character, as the substring test decides it. *)
Lemma contains_char c s : contains [c] s = true <-> In c s.
Proof.
  induction s as [|d r IH]; simpl.
  - split; [discriminate | tauto].
  - rewrite orb_true_iff, IH, andb_true_r, N.eqb_eq. split.
    + intros [->|H]; auto.
    + intros [->|H]; auto.
Qed.

Lemma contains_app_r sub a b : contains sub b = true -> contains sub (a ++ b) = true.
Proof.
  intros H. induction a as [|c a IH]; simpl; [exact H|].
  rewrite IH. apply orb_true_r.
Qed.

Lemma startswith_app p s : startswith p (p ++ s) = true.
Proof.
  induction p as [|c p IH]; simpl; [reflexivity|].
  rewrite N.eqb_refl. exact IH.
Qed.

Lemma contains_middle sub a b : contains sub (a ++ sub ++ b) = true.
Proof.
  apply contains_app_r. destruct sub as [|c r]; simpl.
  - destruct b; reflexivity.
  - rewrite N.eqb_refl, startswith_app. reflexivity.
Qed.

Lemma truthy_false s : truthy s = false <-> s = [].
Proof. destruct s; simpl; split; congruence. Qed.

Lemma truthy_true s : truthy s = true <-> s <> [].
Proof. destruct s; simpl; split; congruence. Qed.

Lemma app_not_nil_r {A} (a b : list A) : b <> [] -> a ++ b <> [].
Proof. destruct a; simpl; [auto | discriminate]. Qed.

Lemma leading_space_app (a b : str) :
  a <> [] -> leading_space (a ++ b) = leading_space a.
Proof. destruct a; [congruence | reflexivity]. Qed.

Lemma trailing_space_app (a b : str) :
  b <> [] -> trailing_space (a ++ b) = trailing_space b.
Proof.
  intros H. unfold trailing_space. rewrite rev_app_distr.
  apply leading_space_app. intros E. apply H.
  rewrite <- (rev_involutive b), E. reflexivity.
Qed.

(** Whitespace around a text that neither starts nor ends with
    whitespace is all that [strip] removes. *)
Lemma strip_between (p x q : str) :
  forallb isspace p = true -> forallb isspace q = true ->
  x <> [] -> leading_space x = false -> trailing_space x = false ->
  strip (p ++ x ++ q) = x.
Proof.
  intros Hp Hq Hx Hl Ht. unfold strip.
  rewrite lstrip_app_space by exact Hp.
  rewrite lstrip_fixed by (rewrite leading_space_app; assumption).
  unfold rstrip. rewrite rev_app_distr.
  rewrite lstrip_app_space.
  - rewrite lstrip_fixed by exact Ht. apply rev_involutive.
  - rewrite forallb_forall in *. intros c Hc. apply Hq, in_rev, Hc.
Qed.

Lemma startswith_app_l (sub a b : str) :
  startswith sub a = true -> startswith sub (a ++ b) = true.
Proof.
  revert a. induction sub as [|c sub IH]; intros a H; [reflexivity|].
  destruct a as [|d a]; [discriminate H|]. simpl in *.
  apply andb_prop in H as [-> H]. exact (IH a H).
Qed.

Lemma contains_app_l (sub a b : str) :
  contains sub a = true -> contains sub (a ++ b) = true.
Proof.
  induction a as [|d a IH]; intros H.
  - simpl in H. rewrite orb_false_r in H. destruct sub; [|discriminate H].
    destruct b; reflexivity.
  - simpl in H. apply orb_prop in H as [H|H]; simpl.
    + pose proof (startswith_app_l sub (d :: a) b H) as H'.
      simpl in H'. rewrite H'. reflexivity.
    + rewrite (IH H). apply orb_true_r.
Qed.

Lemma contains_self (s : str) : contains s s = true.
Proof.
  rewrite <- (app_nil_r s) at 2. apply (contains_middle s [] []).
Qed.

Lemma strip_keeps_at (e : str) :
  truthy (strip e) && contains (py "@") (strip e) = truthy e && contains (py "@") e.
Proof.
  change (py "@") with [64%N].
  destruct (contains [64] e) eqn:E.
  - apply contains_char in E.
    assert (H : In 64 (strip e)) by (apply strip_keeps_char; [reflexivity | exact E]).
    assert (Hc : contains [64] (strip e) = true) by (apply contains_char; exact H).
    rewrite Hc. destruct e; [destruct E|]. destruct (strip (n :: e)); [destruct H|].
    reflexivity.
  - assert (Hc : contains [64] (strip e) = false).
    { destruct (contains [64] (strip e)) eqn:E'; [|reflexivity].
      apply contains_char, strip_subset, contains_char in E'. congruence. }
    rewrite Hc, !andb_false_r. reflexivity.
Qed.

Lemma whitespace_only_stripped (s : str) :
  forallb isspace s = true -> truthy (strip s) = false.
Proof. intros H. apply strip_empty_iff in H. rewrite H. reflexivity. Qed.

Lemma Forall_map_iff {A B} (P : B -> Prop) (f : A -> B) (l : list A) :
  Forall (fun x => P (f x)) l <-> Forall P (map f l).
Proof.
  induction l as [|x l IH]; simpl; split; intros H; try constructor;
    inversion H; subst; try assumption; apply IH; assumption.
Qed.

Lemma or_default_nil (v : option str) : or_default v [] = default [] v.
Proof. destruct v as [[|c s]|]; reflexivity. Qed.

End PyFacts.

Ltac not_nil := repeat (apply app_not_nil_r); discriminate.

(** ** Rows written, rows read *)

Section ReaderFacts.

Ltac inside :=
  first [ assumption | reflexivity | discriminate
        | apply app_not_nil_r; first [assumption | discriminate] ].

Lemma special_false (c : char) :
  special c = false ->
  (c =? COMMA) = false /\ (c =? QUOTE) = false /\ is_newline c = false.
Proof.
  unfold special, is_newline. intros H.
  apply orb_false_elim in H as [H Hlf]. apply orb_false_elim in H as [H Hcr].
  apply orb_false_elim in H as [Hc Hq]. rewrite Hc, Hq, Hlf, Hcr. auto.
Qed.

Lemma ends_line_inside (c : char) (rest : str) :
  is_newline c = false -> rest <> [] -> ends_line c rest = false.
Proof.
  unfold is_newline, ends_line. intros H Hr.
  destruct rest as [|d rest]; [congruence|].
  apply orb_false_elim in H as [-> ->]. reflexivity.
Qed.

(** An unquoted field, once begun, is read character by character. *)
Lemma read_plain (s f : str) (fs : list str) (recs : list (list str)) (rest : str) :
  existsb special s = false -> rest <> [] ->
  read (mkReader IN_FIELD f fs recs) (s ++ rest)
  = read (mkReader IN_FIELD (f ++ s) fs recs) rest.
Proof.
  revert f. induction s as [|c s IH]; intros f Hs Hr.
  - rewrite app_nil_r. reflexivity.
  - simpl in Hs. apply orb_false_elim in Hs as [Hc Hs].
    destruct (special_false c Hc) as (Hcomma & Hquote & Hnl).
    cbn [app read]. unfold parse_process_char. cbn [state].
    rewrite Hnl, Hcomma.
    rewrite ends_line_inside by inside.
    unfold parse_add_char. cbn [field fields records].
    rewrite IH by assumption. rewrite <- app_assoc. reflexivity.
Qed.

(** The text of a quoted field up to its closing quote gives the field
    back. *)
Lemma read_quoted (s f : str) (fs : list str) (recs : list (list str)) (rest : str) :
  rest <> [] ->
  read (mkReader IN_QUOTED_FIELD f fs recs) (double_quotes s ++ QUOTE :: rest)
  = read (mkReader QUOTE_IN_QUOTED_FIELD (f ++ s) fs recs) rest.
Proof.
  intros Hr. revert f. induction s as [|c s IH]; intros f.
  - rewrite app_nil_r. cbn [double_quotes flat_map app read].
    unfold parse_process_char. cbn [state]. rewrite N.eqb_refl.
    rewrite ends_line_inside by inside. reflexivity.
  - unfold double_quotes. cbn [flat_map]. fold (double_quotes s).
    destruct (c =? QUOTE) eqn:Hq.
    + apply N.eqb_eq in Hq. subst c.
      cbn [app read]. unfold parse_process_char at 1. cbn [state].
      rewrite N.eqb_refl.
      rewrite ends_line_inside by inside.
      unfold set_state. cbn [field fields records read].
      unfold parse_process_char at 1. cbn [state]. rewrite N.eqb_refl.
      rewrite ends_line_inside by inside.
      unfold parse_add_char. cbn [field fields records].
      rewrite IH. rewrite <- app_assoc. reflexivity.
    + cbn [app read]. unfold parse_process_char at 1. cbn [state].
      rewrite Hq. unfold parse_add_char. cbn [field fields records].
      assert (Heol : end_of_line (mkReader IN_QUOTED_FIELD (f ++ [c]) fs recs)
                     = Some (mkReader IN_QUOTED_FIELD (f ++ [c]) fs recs))
        by reflexivity.
      rewrite Heol, IH. rewrite <- app_assoc.
      destruct (ends_line c (double_quotes s ++ QUOTE :: rest)); reflexivity.
Qed.

Lemma field_text_empty (s : str) : field_text s = [] -> s = [].
Proof.
  unfold field_text. destruct (existsb special s); [discriminate | auto].
Qed.

Lemma cell_text_empty (v : cell) : cell_text v = [] -> cell_value v = [].
Proof. destruct v as [s|]; [apply field_text_empty | reflexivity]. Qed.

(** The text of a cell, read where a field may start. *)
Lemma read_cell (v : cell) (st : parse_state) (fs : list str)
    (recs : list (list str)) (rest : str) :
  st = START_RECORD \/ st = START_FIELD -> rest <> [] ->
  cell_text v <> [] ->
  exists (st' : parse_state) (f' : str),
    read (mkReader st [] fs recs) (cell_text v ++ rest)
    = read (mkReader st' f' fs recs) rest
    /\ (st' = IN_FIELD \/ st' = QUOTE_IN_QUOTED_FIELD) /\ f' = cell_value v.
Proof.
  intros Hst Hr Hv. destruct v as [s|]; [|exfalso; apply Hv; reflexivity].
  cbn [cell_text cell_value default] in *. unfold field_text in *.
  destruct (existsb special s) eqn:Hs.
  - exists QUOTE_IN_QUOTED_FIELD, s. split; [|auto].
    cbn [app read].
    assert (Hq : parse_process_char (mkReader st [] fs recs) (Some QUOTE)
                 = Some (mkReader IN_QUOTED_FIELD [] fs recs))
      by (destruct Hst as [-> | ->]; reflexivity).
    rewrite Hq.
    rewrite ends_line_inside by inside.
    rewrite <- app_assoc. apply (read_quoted s [] fs recs rest Hr).
  - exists IN_FIELD, s. split; [|auto].
    destruct s as [|c s]; [congruence|].
    simpl in Hs. apply orb_false_elim in Hs as [Hc Hs].
    destruct (special_false c Hc) as (Hcomma & Hquote & Hnl).
    cbn [app read].
    assert (Hq : parse_process_char (mkReader st [] fs recs) (Some c)
                 = Some (mkReader IN_FIELD [c] fs recs)).
    { destruct Hst as [-> | ->]; unfold parse_process_char, start_field;
        cbn [state]; rewrite Hnl, Hquote, Hcomma; reflexivity. }
    rewrite Hq. rewrite ends_line_inside by inside.
    apply (read_plain s [c] fs recs rest Hs Hr).
Qed.

(** A comma after a cell saves the field. *)
Lemma read_comma (st : parse_state) (f v : str) (fs : list str)
    (recs : list (list str)) (rest : str) :
  (st = START_RECORD /\ f = [] /\ v = []) \/ after_cell v st f -> rest <> [] ->
  read (mkReader st f fs recs) (COMMA :: rest)
  = read (mkReader START_FIELD [] (fs ++ [v]) recs) rest.
Proof.
  intros H Hr. cbn [read].
  rewrite ends_line_inside by inside.
  destruct H as [(-> & -> & ->)|[-> | |]]; reflexivity.
Qed.

(** The line terminator after a cell saves the field and returns the
    record. *)
Lemma read_crlf (st : parse_state) (f v : str) (fs : list str)
    (recs : list (list str)) (rest : str) :
  after_cell v st f ->
  read (mkReader st f fs recs) (CR :: LF :: rest)
  = read (mkReader START_RECORD [] [] (recs ++ [fs ++ [v]])) rest.
Proof.
  intros H. cbn [read].
  assert (H1 : parse_process_char (mkReader st f fs recs) (Some CR)
               = Some (mkReader EAT_CRNL [] (fs ++ [v]) recs))
    by (destruct H as [-> | |]; reflexivity).
  rewrite H1. cbn [ends_line]. change (CR =? LF) with false.
  change (LF =? LF) with true. cbn [orb andb negb].
  assert (H2 : parse_process_char (mkReader EAT_CRNL [] (fs ++ [v]) recs) (Some LF)
               = Some (mkReader EAT_CRNL [] (fs ++ [v]) recs)) by reflexivity.
  rewrite H2.
  assert (H3 : ends_line LF rest = true) by (destruct rest; reflexivity).
  rewrite H3. reflexivity.
Qed.

Lemma join_cons (sep p : str) (q : str) (rest : list str) :
  join sep (p :: q :: rest) = p ++ sep ++ join sep (q :: rest).
Proof. reflexivity. Qed.

(** The cells of a row and the line terminator, read where a field may
    start; at the start of a record the line must not be empty. *)
Lemma read_cells (cells : list cell) : forall (st : parse_state) (fs : list str)
    (recs : list (list str)) (rest : str),
  cells <> [] ->
  st = START_FIELD
  \/ (st = START_RECORD /\ join [COMMA] (map cell_text cells) <> []) ->
  read (mkReader st [] fs recs)
       (join [COMMA] (map cell_text cells) ++ CR :: LF :: rest)
  = read (mkReader START_RECORD [] [] (recs ++ [fs ++ map cell_value cells])) rest.
Proof.
  induction cells as [|v cells IH]; intros st fs recs rest Hne Hst; [congruence|].
  destruct cells as [|w cells].
  - cbn [map join].
    destruct (cell_text v) as [|c t] eqn:Hv.
    + destruct Hst as [-> | [_ Hline]]; [|cbn [map join] in Hline; congruence].
      cbn [app]. rewrite (cell_text_empty v Hv).
      apply read_crlf. constructor. reflexivity.
    + rewrite <- Hv.
      destruct (read_cell v st fs recs (CR :: LF :: rest)) as (st' & f' & Hread & Hst' & ->);
        [destruct Hst as [-> | [-> _]]; auto | discriminate | congruence |].
      rewrite Hread. apply read_crlf.
      destruct Hst' as [-> | ->]; constructor.
  - cbn [map]. rewrite join_cons. rewrite <- !app_assoc.
    cbn [map] in IH.
    assert (Hcomma : forall st' f',
              (st' = START_RECORD /\ f' = [] /\ cell_value v = [])
              \/ after_cell (cell_value v) st' f' ->
              read (mkReader st' f' fs recs)
                   ([COMMA] ++ join [COMMA] (cell_text w :: map cell_text cells)
                    ++ CR :: LF :: rest)
              = read (mkReader START_RECORD [] []
                        (recs ++ [fs ++ cell_value v :: cell_value w :: map cell_value cells]))
                     rest).
    { intros st' f' H. cbn [app]. rewrite (read_comma st' f' (cell_value v)) by
        (assumption || (apply app_not_nil_r; discriminate)).
      rewrite IH by (discriminate || (left; reflexivity)).
      rewrite <- app_assoc. reflexivity. }
    destruct (cell_text v) as [|c t] eqn:Hv.
    + cbn [app]. apply (Hcomma st []).
      pose proof (cell_text_empty v Hv) as Hval.
      destruct Hst as [-> | [-> _]]; [right; constructor; exact Hval | left; auto].
    + rewrite <- Hv.
      destruct (read_cell v st fs recs
                  ([COMMA] ++ join [COMMA] (cell_text w :: map cell_text cells)
                   ++ CR :: LF :: rest))
        as (st' & f' & Hread & Hst' & ->);
        [destruct Hst as [-> | [-> _]]; auto | discriminate | congruence |].
      rewrite Hread. apply Hcomma. right.
      destruct Hst' as [-> | ->]; constructor.
Qed.

Lemma empty_line (row : list cell) :
  join [COMMA] (map cell_text row) = [] ->
  row = [] \/ exists v : cell, row = [v] /\ cell_text v = [].
Proof.
  destruct row as [|v [|w row]]; [auto | |].
  - intros H. right. exists v. auto.
  - cbn [map]. rewrite join_cons. intros H.
    apply app_eq_nil in H as [_ H]. discriminate H.
Qed.

(** One written row, read at the start of a record, is returned as one
    record with the values of its cells. *)
Lemma read_row (row : list cell) (recs : list (list str)) (rest : str) :
  read (mkReader START_RECORD [] [] recs) (writerow row ++ rest)
  = read (mkReader START_RECORD [] [] (recs ++ [map cell_value row])) rest.
Proof.
  unfold writerow.
  destruct (join [COMMA] (map cell_text row)) as [|c line] eqn:Hline.
  - destruct (empty_line row Hline) as [-> | (v & -> & Hv)].
    + cbn [app map].
      assert (H3 : ends_line LF rest = true) by (destruct rest; reflexivity).
      cbn [read]. cbn [parse_process_char state is_newline].
      change (ends_line CR (LF :: rest)) with false. cbv iota.
      rewrite H3. reflexivity.
    + cbn [app map]. rewrite (cell_text_empty v Hv).
      change (read (mkReader START_RECORD [] [] recs)
                (QUOTE :: QUOTE :: CR :: LF :: rest))
        with (read (mkReader QUOTE_IN_QUOTED_FIELD [] [] recs) (CR :: LF :: rest)).
      apply (read_crlf QUOTE_IN_QUOTED_FIELD [] []). constructor.
  - assert (Hrow : row <> []) by (destruct row; [discriminate Hline | discriminate]).
    assert (Hmatch : match row with
                     | [] => (c :: line) ++ [CR; LF]
                     | _ :: _ => (c :: line) ++ [CR; LF]
                     end = (c :: line) ++ [CR; LF]) by (destruct row; reflexivity).
    rewrite Hmatch, <- Hline, <- app_assoc.
    change ([CR; LF] ++ rest) with (CR :: LF :: rest).
    rewrite (read_cells row START_RECORD [] recs rest Hrow)
      by (right; split; [reflexivity | rewrite Hline; discriminate]).
    reflexivity.
Qed.

Lemma read_rows (rows : list (list cell)) : forall (recs : list (list str)) (rest : str),
  read (mkReader START_RECORD [] [] recs) (concat (map writerow rows) ++ rest)
  = read (mkReader START_RECORD [] [] (recs ++ map (map cell_value) rows)) rest.
Proof.
  induction rows as [|row rows IH]; intros recs rest.
  - rewrite app_nil_r. reflexivity.
  - cbn [map concat]. rewrite <- app_assoc, read_row, IH, <- app_assoc.
    reflexivity.
Qed.

(** Round trip: what the writer wrote, row after row, the reader returns
    row after row. *)
Lemma csv_round_trip (rows : list (list cell)) :
  csv_reader (concat (map writerow rows)) = Some (map (map cell_value) rows).
Proof.
  unfold csv_reader.
  rewrite <- (app_nil_r (concat (map writerow rows))), read_rows.
  reflexivity.
Qed.

(** A text that the writer wrote, and one more written row. *)
Lemma csv_reader_append (rows : list (list cell)) (row : list cell) :
  csv_reader (concat (map writerow rows) ++ writerow row)
  = Some (map (map cell_value) rows ++ [map cell_value row]).
Proof.
  rewrite <- (app_nil_r (writerow row)).
  change (writerow row ++ []) with (concat (map writerow [row])).
  rewrite <- concat_app, <- map_app, csv_round_trip, map_app. reflexivity.
Qed.

Lemma cell_value_header (header : list str) :
  map cell_value (map Some header) = header.
Proof. induction header as [|h header IH]; [reflexivity|]. simpl. rewrite IH. reflexivity. Qed.

End ReaderFacts.

(** ** The record store *)

Section StoreFacts.

(** *** The filesystem, read and written *)

Lemma fs_lookup_nodes (fs : FileSystem) (file : Path) :
  fs !! file = match nodes fs !! file with
               | Some (File text) => Some text
               | _ => None
               end.
Proof. reflexivity. Qed.

Lemma nodes_insert (fs : FileSystem) (file : Path) (text : str) :
  nodes (<[file := text]> fs) = <[file := File text]> (nodes fs).
Proof. reflexivity. Qed.

Lemma fs_lookup_insert_eq (fs : FileSystem) (file : Path) (text : str) :
  <[file := text]> fs !! file = Some text.
Proof. rewrite fs_lookup_nodes, nodes_insert, lookup_insert_eq. reflexivity. Qed.

Lemma fs_lookup_insert_ne (fs : FileSystem) (file other : Path) (text : str) :
  file <> other -> <[file := text]> fs !! other = fs !! other.
Proof.
  intros H. rewrite !fs_lookup_nodes, nodes_insert, lookup_insert_ne by exact H.
  reflexivity.
Qed.

Lemma fs_insert_insert_eq (fs : FileSystem) (file : Path) (t1 t2 : str) :
  <[file := t2]> (<[file := t1]> fs) = <[file := t2]> fs.
Proof.
  unfold insert at 1 3, fs_insert. rewrite nodes_insert, insert_insert_eq.
  reflexivity.
Qed.

Lemma exists_absent (fs : FileSystem) (file : Path) :
  file_exists fs file = false -> fs !! file = None /\ is_directory fs file = false.
Proof.
  unfold file_exists, is_directory. rewrite fs_lookup_nodes. intros H.
  apply bool_decide_eq_false in H.
  destruct (nodes fs !! file) as [n|]; [|split; reflexivity].
  exfalso. apply H. eauto.
Qed.

Lemma exists_present (fs : FileSystem) (file : Path) (text : str) :
  fs !! file = Some text -> file_exists fs file = true /\ is_directory fs file = false.
Proof.
  unfold file_exists, is_directory. rewrite fs_lookup_nodes. intros H.
  destruct (nodes fs !! file) as [[t|]|]; try discriminate H.
  split; [apply bool_decide_eq_true; eauto | reflexivity].
Qed.

(** A path that exists and is no directory is a regular file. *)
Lemma exists_regular (fs : FileSystem) (file : Path) :
  file_exists fs file = true -> is_directory fs file = false ->
  exists text : str, fs !! file = Some text.
Proof.
  unfold file_exists, is_directory. rewrite fs_lookup_nodes. intros H Hd.
  apply bool_decide_eq_true in H. destruct H as [n Hn]. rewrite Hn in *.
  destruct n as [t|]; [eauto | discriminate Hd].
Qed.

Lemma can_open_no_directory (fs : FileSystem) (mode : open_mode) (file : Path) :
  can_open fs mode file = true -> is_directory fs file = false.
Proof.
  unfold can_open. intros H. apply andb_prop in H as [H _].
  apply negb_true_iff in H. exact H.
Qed.

(** Writing a regular file where there was no directory changes no
    answer of [can_open]. *)
Lemma can_open_insert (fs : FileSystem) (file other : Path) (text : str)
    (mode : open_mode) :
  is_directory fs file = false ->
  can_open (<[file := text]> fs) mode other = can_open fs mode other.
Proof.
  intros Hd. unfold can_open. f_equal. f_equal.
  unfold is_directory in *. rewrite nodes_insert.
  destruct (decide (file = other)) as [<-|Hne].
  - rewrite lookup_insert_eq. symmetry. exact Hd.
  - rewrite lookup_insert_ne by exact Hne. reflexivity.
Qed.

Lemma openable_insert (fs : FileSystem) (file other : Path) (text : str) :
  is_directory fs file = false -> openable fs other ->
  openable (<[file := text]> fs) other.
Proof.
  intros Hd [Ha Hw]. unfold openable. rewrite !can_open_insert by exact Hd.
  split; [exact Ha|]. intros Hex. apply Hw.
  unfold file_exists in *. rewrite nodes_insert in Hex.
  destruct (decide (file = other)) as [<-|Hne].
  - rewrite lookup_insert_eq in Hex. apply bool_decide_eq_false in Hex.
    exfalso. apply Hex. eauto.
  - rewrite lookup_insert_ne in Hex by exact Hne. exact Hex.
Qed.

Lemma openable_no_directory (fs : FileSystem) (file : Path) :
  openable fs file -> is_directory fs file = false.
Proof. intros [Ha _]. exact (can_open_no_directory fs Append file Ha). Qed.

(** A filesystem that refuses no open and has no directory at the
    path. *)
Lemma openable_free (fs : FileSystem) (file : Path) :
  is_directory fs file = false ->
  (forall mode : open_mode, refused fs mode file = false) ->
  openable fs file.
Proof.
  intros Hd Hr. unfold openable, can_open. rewrite Hd, !Hr. auto.
Qed.

(** *** One call of [save_row] *)

(** What [save_row] does, whatever the path names and whatever the
    operating system allows. *)
Lemma save_row_outcome (file : Path) (header : list str) (row : list cell)
    (fs : FileSystem) :
  save_row file header row fs =
  if file_exists fs file
  then if can_open fs Append file
       then (Done tt, <[file := default [] (fs !! file) ++ writerow row]> fs)
       else (Aborted 500 (py "Internal Server Error"), fs)
  else if can_open fs Write file
       then if can_open fs Append file
            then (Done tt,
                  <[file := writerow (map Some header) ++ writerow row]> fs)
            else (Aborted 500 (py "Internal Server Error"),
                  <[file := writerow (map Some header)]> fs)
       else (Aborted 500 (py "Internal Server Error"), fs).
Proof.
  unfold save_row, ensure_csv_header, bind, path_exists.
  fold (file_exists fs file).
  destruct (file_exists fs file) eqn:E; cbn [negb].
  - unfold ret, open_a_write.
    destruct (can_open fs Append file); reflexivity.
  - unfold open_w_write.
    destruct (can_open fs Write file) eqn:Hw; [|reflexivity].
    unfold open_a_write.
    rewrite (can_open_insert fs file file _ Append (can_open_no_directory _ _ _ Hw)).
    destruct (can_open fs Append file); [|reflexivity].
    rewrite fs_lookup_insert_eq, fs_insert_insert_eq. reflexivity.
Qed.

(** One call of [save_row] on a file that can be opened, whatever the
    file holds. *)
Lemma save_row_result (file : Path) (header : list str) (row : list cell)
    (fs : FileSystem) :
  openable fs file ->
  save_row file header row fs =
  (Done tt, <[file := text_before fs file header ++ writerow row]> fs).
Proof.
  intros [Ha Hw]. rewrite save_row_outcome, Ha. unfold text_before.
  destruct (file_exists fs file) eqn:E.
  - destruct (exists_regular fs file E (can_open_no_directory _ _ _ Ha))
      as (text & ->). reflexivity.
  - rewrite (Hw eq_refl). destruct (exists_absent fs file E) as (-> & _).
    reflexivity.
Qed.

(** [save_row] returns exactly when the file can be opened. *)
Lemma save_row_returns (file : Path) (header : list str) (row : list cell)
    (fs : FileSystem) :
  openable fs file <-> exists fs' : FileSystem,
                         save_row file header row fs = (Done tt, fs').
Proof.
  split.
  - intros H. rewrite save_row_result by exact H. eauto.
  - intros [fs' H]. rewrite save_row_outcome in H. unfold openable.
    destruct (file_exists fs file).
    + destruct (can_open fs Append file); [|discriminate H].
      split; [reflexivity | discriminate].
    + destruct (can_open fs Write file); [|discriminate H].
      destruct (can_open fs Append file); [|discriminate H].
      split; reflexivity.
Qed.

(** A call of [save_row] that returns has written the row after what the
    file held, or after the header. *)
Lemma save_row_done (file : Path) (header : list str) (row : list cell)
    (fs fs' : FileSystem) (u : unit) :
  save_row file header row fs = (Done u, fs') ->
  fs' = <[file := text_before fs file header ++ writerow row]> fs.
Proof.
  destruct u. rewrite save_row_outcome. unfold text_before.
  destruct (file_exists fs file) eqn:E.
  - destruct (can_open fs Append file) eqn:Ha; [|discriminate].
    destruct (exists_regular fs file E (can_open_no_directory _ _ _ Ha))
      as (text & ->). intros [= <-]. reflexivity.
  - destruct (exists_absent fs file E) as (-> & _).
    destruct (can_open fs Write file); [|discriminate].
    destruct (can_open fs Append file); [|discriminate].
    intros [= <-]. reflexivity.
Qed.

(** A call of [save_row] that raises has left the filesystem as it was,
    or has created the file with the header row and nothing else. *)
Lemma save_row_failed (file : Path) (header : list str) (row : list cell)
    (fs fs' : FileSystem) (code : Z) (description : str) :
  save_row file header row fs = (Aborted code description, fs') ->
  code = 500%Z
  /\ (fs' = fs
      \/ (fs !! file = None /\ fs' = <[file := writerow (map Some header)]> fs)).
Proof.
  rewrite save_row_outcome.
  destruct (file_exists fs file) eqn:E.
  - destruct (can_open fs Append file); [discriminate|].
    intros [= <- _ <-]. auto.
  - destruct (exists_absent fs file E) as (Hnone & _).
    destruct (can_open fs Write file).
    + destruct (can_open fs Append file); [discriminate|].
      intros [= <- _ <-]. auto.
    + intros [= <- _ <-]. auto.
Qed.



(** A file that exists and is empty gets the row and no header. *)
Example save_row_into_empty_file :
  snd (save_row leads lead_header (stored_lead_row sample_now sample_lead)
         (<[leads := []]> empty)) !! leads
  = Some (writerow (stored_lead_row sample_now sample_lead)).
Proof. vm_compute. reflexivity. Qed.

(** A path that names a directory exists, so no header is written, and
    the appending open raises. *)
Example save_row_into_directory :
  save_row (py ".") lead_header (stored_lead_row sample_now sample_lead)
    sample_directory
  = (Aborted 500 (py "Internal Server Error"), sample_directory).
Proof. vm_compute. reflexivity. Qed.

Lemma header_line_lead : writerow (map Some lead_header) = header_line lead_header.
Proof. vm_compute. reflexivity. Qed.

Lemma header_line_subscriber :
  writerow (map Some subscriber_header) = header_line subscriber_header.
Proof. vm_compute. reflexivity. Qed.

Lemma header_line_kind k :
  writerow (map Some (kind_header k)) = header_line (kind_header k).
Proof. destruct k; [apply header_line_lead | apply header_line_subscriber]. Qed.

Lemma header_has_no_line_break k :
  ~ In CR (join [COMMA] (kind_header k)) /\ ~ In LF (join [COMMA] (kind_header k)).
Proof.
  destruct k; split; intros H; vm_compute in H;
    repeat (destruct H as [H|H]; [discriminate H|]); exact H.
Qed.

Lemma op_row_length op : length (op_row op) = length (kind_header (op_kind op)).
Proof. destruct op; reflexivity. Qed.

Lemma kind_eqb_eq a b : kind_eqb a b = true <-> a = b.
Proof. destruct a, b; simpl; split; congruence. Qed.

Lemma rows_of_lengths k ops :
  Forall (fun row => length row = length (kind_header k)) (rows_of k ops).
Proof.
  unfold rows_of. induction ops as [|op ops IH]; simpl; [constructor|].
  destruct (kind_eqb (op_kind op) k) eqn:E; [|exact IH].
  simpl. constructor; [|exact IH].
  rewrite op_row_length. destruct (op_kind op), k; simpl in E; congruence.
Qed.

(** Read back, a file that the store began and kept is its header row
    and then its rows. *)
Lemma store_text_read (k : kind) (rows : list (list cell)) :
  csv_reader (header_line (kind_header k) ++ concat (map writerow rows))
  = Some (kind_header k :: map (map cell_value) rows).
Proof.
  rewrite <- header_line_kind.
  change (writerow (map Some (kind_header k)) ++ concat (map writerow rows))
    with (concat (map writerow (map Some (kind_header k) :: rows))).
  rewrite csv_round_trip. cbn [map]. rewrite cell_value_header. reflexivity.
Qed.

Section Sequences.
Variables LEADS_CSV NEWSLETTER_CSV : Path.
Hypothesis own_files : LEADS_CSV <> NEWSLETTER_CSV.

Local Abbreviation file := (kind_file LEADS_CSV NEWSLETTER_CSV).
Local Abbreviation run := (run_ops LEADS_CSV NEWSLETTER_CSV).

Lemma kind_file_inj (a b : kind) : file a = file b -> a = b.
Proof.
  destruct a, b; simpl; intros H; try reflexivity; congruence.
Qed.

Lemma kind_file_openable (fs : FileSystem) (k : kind) :
  openable fs LEADS_CSV -> openable fs NEWSLETTER_CSV -> openable fs (file k).
Proof. intros Hl Hn. destruct k; assumption. Qed.

Lemma run_op_result (op : store_op) (fs : FileSystem) :
  openable fs (file (op_kind op)) ->
  run_op LEADS_CSV NEWSLETTER_CSV op fs =
  (Done tt,
   <[file (op_kind op) :=
       text_before fs (file (op_kind op)) (kind_header (op_kind op))
       ++ writerow (op_row op)]> fs).
Proof. destruct op; simpl; apply save_row_result. Qed.

(** The file of a kind after a sequence of calls on files that can be
    opened: untouched when no call is of that kind, and otherwise its
    former text (or the header) and then one written row per call of the
    kind, in order. *)
Lemma run_ops_file (k : kind) (ops : list store_op) : forall fs : FileSystem,
  openable fs LEADS_CSV -> openable fs NEWSLETTER_CSV ->
  exists fs' : FileSystem,
    run ops fs = (Done tt, fs') /\
    fs' !! file k =
      match rows_of k ops with
      | [] => fs !! file k
      | rows =>
          Some (text_before fs (file k) (kind_header k)
                ++ concat (map writerow rows))
      end.
Proof.
  induction ops as [|op ops IH]; intros fs Hl Hn.
  - exists fs. split; reflexivity.
  - simpl. unfold bind.
    pose proof (kind_file_openable fs (op_kind op) Hl Hn) as Hop.
    rewrite run_op_result by exact Hop.
    set (fs1 := <[file (op_kind op) := _]> fs).
    assert (Hd : is_directory fs (file (op_kind op)) = false)
      by (apply openable_no_directory, Hop).
    destruct (IH fs1 (openable_insert _ _ _ _ Hd Hl) (openable_insert _ _ _ _ Hd Hn))
      as (fs' & Hrun & Hfile).
    exists fs'. split; [exact Hrun|]. rewrite Hfile. clear Hfile Hrun.
    unfold rows_of. simpl List.filter.
    destruct (kind_eqb (op_kind op) k) eqn:E.
    + apply kind_eqb_eq in E. subst k. simpl map.
      fold (rows_of (op_kind op) ops).
      assert (H1 : fs1 !! file (op_kind op) =
                   Some (text_before fs (file (op_kind op)) (kind_header (op_kind op))
                         ++ writerow (op_row op)))
        by (subst fs1; apply fs_lookup_insert_eq).
      destruct (rows_of (op_kind op) ops) as [|r rows].
      * rewrite H1. simpl. rewrite app_nil_r. reflexivity.
      * unfold text_before at 1. rewrite H1.
        simpl. rewrite <- !app_assoc. reflexivity.
    + fold (rows_of k ops).
      assert (Hne : file (op_kind op) <> file k).
      { intros H. apply kind_file_inj in H. subst k.
        destruct (op_kind op); discriminate. }
      assert (H1 : fs1 !! file k = fs !! file k)
        by (subst fs1; apply fs_lookup_insert_ne; exact Hne).
      unfold text_before. rewrite H1. reflexivity.
Qed.

(** The store only appends: whatever a file holds stays at its start. *)
Lemma store_only_appends (k : kind) (ops : list store_op) (fs : FileSystem)
    (text : str) :
  openable fs LEADS_CSV -> openable fs NEWSLETTER_CSV ->
  fs !! file k = Some text ->
  exists (fs' : FileSystem) (suffix : str),
    run ops fs = (Done tt, fs') /\ fs' !! file k = Some (text ++ suffix).
Proof.
  intros Hl Hn Htext. destruct (run_ops_file k ops fs Hl Hn) as (fs' & Hrun & Hfile).
  exists fs'. unfold text_before in Hfile. rewrite Htext in Hfile.
  destruct (rows_of k ops) as [|row rows].
  - exists []. rewrite app_nil_r. auto.
  - exists (concat (map writerow (row :: rows))). auto.
Qed.

End Sequences.



End StoreFacts.

(** ** The form handlers *)

Section HandlerFacts.

Lemma missing_or_empty_submitted (request : Request) (key : str) :
  missing_or_empty (form_get request key) <-> submitted request key = [].
Proof.
  unfold missing_or_empty, submitted.
  destruct (form_get request key) as [s|]; simpl.
  - split; [intros [H|H]; congruence | intros ->; auto].
  - split; auto.
Qed.

Lemma lead_row_of_payload (now : str) (n e c w b g m s ip ua : cell) :
  lead_row now
    (list_to_map
       [ (py "name", n); (py "email", e); (py "company", c); (py "website", w);
         (py "budget", b); (py "goal", g); (py "message", m); (py "source", s);
         (py "ip", ip); (py "user_agent", ua) ])
  = [Some now; n; e; c; w; b; g; m; s; ip; ua].
Proof. vm_compute. reflexivity. Qed.

Lemma subscriber_row_of_payload (now : str) (e s ip ua : cell) :
  subscriber_row now
    (list_to_map
       [ (py "email", e); (py "source", s); (py "ip", ip); (py "user_agent", ua) ])
  = [Some now; e; s; ip; ua].
Proof. vm_compute. reflexivity. Qed.

Lemma url_for_thank_you : url_for (py "thank_you") = py "/thank-you".
Proof. vm_compute. reflexivity. Qed.

Lemma url_for_newsletter_thanks :
  url_for (py "newsletter_thanks") = py "/newsletter/thanks".
Proof. vm_compute. reflexivity. Qed.

(** What [lead] does, in one equation. *)
Lemma lead_outcome (LEADS_CSV : Path) (now : str) (request : Request)
    (fs : FileSystem) :
  lead LEADS_CSV now request fs =
  if truthy (strip (submitted request (py "name")))
     && truthy (strip (submitted request (py "email")))
     && truthy (strip (submitted request (py "message")))
  then after_store (py "/thank-you")
         (save_row LEADS_CSV lead_header (stored_lead_row now request) fs)
  else (Aborted 400 (py "Missing required fields."), fs).
Proof.
  unfold lead, submitted, stored_lead_row, ip_cell, submitted.
  rewrite !or_default_nil.
  destruct (truthy (strip (default [] (form_get request (py "name")))));
    [|reflexivity].
  destruct (truthy (strip (default [] (form_get request (py "email")))));
    [|reflexivity].
  destruct (truthy (strip (default [] (form_get request (py "message")))));
    [|reflexivity].
  cbn [negb orb andb]. unfold bind, save_lead.
  rewrite lead_row_of_payload, url_for_thank_you.
  destruct (save_row LEADS_CSV lead_header _ fs) as [[u|code d] fs']; reflexivity.
Qed.

(** What [lead] does when the lead file can be opened. *)
Lemma lead_result (LEADS_CSV : Path) (now : str) (request : Request)
    (fs : FileSystem) :
  openable fs LEADS_CSV ->
  lead LEADS_CSV now request fs =
  if truthy (strip (submitted request (py "name")))
     && truthy (strip (submitted request (py "email")))
     && truthy (strip (submitted request (py "message")))
  then (Done (Redirect (py "/thank-you") 302),
        <[LEADS_CSV := text_before fs LEADS_CSV lead_header
                       ++ writerow (stored_lead_row now request)]> fs)
  else (Aborted 400 (py "Missing required fields."), fs).
Proof.
  intros H. rewrite lead_outcome, save_row_result by exact H. reflexivity.
Qed.

(** What [newsletter_subscribe] does, in one equation. *)
Lemma newsletter_outcome (NEWSLETTER_CSV : Path) (now : str) (request : Request)
    (fs : FileSystem) :
  newsletter_subscribe NEWSLETTER_CSV now request fs =
  if truthy (strip (submitted request (py "email")))
     && contains (py "@") (strip (submitted request (py "email")))
  then after_store (py "/newsletter/thanks")
         (save_row NEWSLETTER_CSV subscriber_header
            (stored_subscriber_row now request) fs)
  else (Aborted 400 (py "Enter a valid email."), fs).
Proof.
  unfold newsletter_subscribe, submitted, stored_subscriber_row, ip_cell, submitted.
  rewrite !or_default_nil.
  destruct (truthy (strip (default [] (form_get request (py "email")))));
    [|reflexivity].
  destruct (contains (py "@") (strip (default [] (form_get request (py "email")))));
    [|reflexivity].
  cbn [negb orb andb]. unfold bind, save_subscriber.
  rewrite subscriber_row_of_payload, url_for_newsletter_thanks.
  destruct (save_row NEWSLETTER_CSV subscriber_header _ fs) as [[u|code d] fs'];
    reflexivity.
Qed.

(** What [newsletter_subscribe] does when the subscriber file can be
    opened. *)
Lemma newsletter_result (NEWSLETTER_CSV : Path) (now : str) (request : Request)
    (fs : FileSystem) :
  openable fs NEWSLETTER_CSV ->
  newsletter_subscribe NEWSLETTER_CSV now request fs =
  if truthy (strip (submitted request (py "email")))
     && contains (py "@") (strip (submitted request (py "email")))
  then (Done (Redirect (py "/newsletter/thanks") 302),
        <[NEWSLETTER_CSV := text_before fs NEWSLETTER_CSV subscriber_header
                            ++ writerow (stored_subscriber_row now request)]> fs)
  else (Aborted 400 (py "Enter a valid email."), fs).
Proof.
  intros H. rewrite newsletter_outcome, save_row_result by exact H. reflexivity.
Qed.

(** A handler that answers with a response has stored its row. *)
Lemma after_store_done (location : str) (stored : outcome unit * FileSystem)
    (r : Response) (fs' : FileSystem) :
  after_store location stored = (Done r, fs') ->
  r = Redirect location 302 /\ stored = (Done tt, fs').
Proof.
  destruct stored as [[[]|code d] fs1]; simpl; [|discriminate].
  intros [= <- <-]. split; reflexivity.
Qed.

(** The sample lead, on a filesystem without files: the file written. *)
Example lead_sample_file :
  snd (lead leads sample_now sample_lead empty) !! leads
  = Some (py "created_at_utc,name,email,company,website,budget,goal,message,source,ip,user_agent"
          ++ [CR; LF]
          ++ py "2026-01-05T10:00:00+00:00,Ada,ada@example.com,,,,," ++ DQ
          ++ py "hello, there" ++ DQ ++ py ",website_form,203.0.113.7, curl/8.0 "
          ++ [CR; LF]).
Proof. vm_compute. reflexivity. Qed.

(** The sample subscription, on a filesystem without files. *)
Example newsletter_sample :
  newsletter_subscribe newsletter sample_now sample_subscription empty
  = (Done (Redirect (py "/newsletter/thanks") 302),
     <[newsletter :=
         py "created_at_utc,email,source,ip,user_agent" ++ [CR; LF]
         ++ py "2026-01-05T10:00:00+00:00,ada@example.com,newsletter,198.51.100.2,"
         ++ [CR; LF]]> empty).
Proof. vm_compute. reflexivity. Qed.



(** A lead file that cannot be opened: the accepted lead is answered with
    500. Nothing is written when the path names a directory, or when the
    file cannot be created; the header row alone is written when the
    file can be created and the appending open is refused. *)
Example lead_storage_failure :
  lead (py ".") sample_now sample_lead sample_directory
    = (Aborted 500 (py "Internal Server Error"), sample_directory)
  /\ lead leads sample_now sample_lead sample_read_only
      = (Aborted 500 (py "Internal Server Error"), sample_read_only)
  /\ lead leads sample_now sample_lead sample_append_refused
      = (Aborted 500 (py "Internal Server Error"),
         <[leads := header_line lead_header]> sample_append_refused).
Proof. repeat split; vm_compute; reflexivity. Qed.


(** C2: a lead in which name, email or message is missing or empty is
    answered with status 400, and the filesystem, the lead file with it,
    is left exactly as it was. *)
Theorem lead_missing_field_rejected
    (LEADS_CSV : Path) (now : str) (request : Request) (fs : FileSystem) :
  missing_or_empty (form_get request (py "name"))
  \/ missing_or_empty (form_get request (py "email"))
  \/ missing_or_empty (form_get request (py "message")) ->
  lead LEADS_CSV now request fs
    = (Aborted 400 (py "Missing required fields."), fs)
  /\ status status_code (fst (lead LEADS_CSV now request fs)) = 400%Z
  /\ snd (lead LEADS_CSV now request fs) !! LEADS_CSV = fs !! LEADS_CSV.
Proof.
  intros H. rewrite lead_outcome.
  assert (Hb : truthy (strip (submitted request (py "name")))
               && truthy (strip (submitted request (py "email")))
               && truthy (strip (submitted request (py "message"))) = false).
  { destruct H as [H|[H|H]]; apply missing_or_empty_submitted in H; rewrite H;
      simpl; rewrite ?andb_false_r; reflexivity. }
  rewrite Hb. repeat split.
Qed.

(** C2 on the sample lead without an email field. *)
Lemma lead_missing_field_witness :
  missing_or_empty (form_get sample_lead_without_email (py "email"))
  /\ lead leads sample_now sample_lead_without_email empty
       = (Aborted 400 (py "Missing required fields."), empty).
Proof.
  assert (H : missing_or_empty (form_get sample_lead_without_email (py "email")))
    by (left; reflexivity).
  split; [exact H|].
  exact (proj1 (lead_missing_field_rejected leads sample_now
                  sample_lead_without_email empty (or_intror (or_introl H)))).
Defined.



(** A subscriber file that cannot be opened: 500, and nothing written. *)
Example newsletter_storage_failure :
  newsletter_subscribe (py ".") sample_now sample_subscription sample_directory
  = (Aborted 500 (py "Internal Server Error"), sample_directory).
Proof. vm_compute. reflexivity. Qed.

(** *** Stored values and whitespace *)

Lemma stripped_cell_strip (s : str) : stripped_cell (Some (Some (strip s))).
Proof. exists (strip s). split; [reflexivity | apply strip_no_outer_space]. Qed.

Lemma lead_form_columns (c0 c1 c2 c3 c4 c5 c6 c7 c8 c9 c10 : cell) :
  map (column lead_header [c0; c1; c2; c3; c4; c5; c6; c7; c8; c9; c10])
      lead_form_fields
  = map Some [c1; c2; c3; c4; c5; c6; c7; c8].
Proof. vm_compute. reflexivity. Qed.

Lemma subscriber_form_columns (c0 c1 c2 c3 c4 : cell) :
  map (column subscriber_header [c0; c1; c2; c3; c4]) subscriber_form_fields
  = map Some [c1; c2].
Proof. vm_compute. reflexivity. Qed.

Lemma lead_form_cells_stripped (now : str) (request : Request) :
  Forall (fun name => stripped_cell (column lead_header (stored_lead_row now request) name))
         lead_form_fields.
Proof.
  apply (Forall_map_iff stripped_cell). unfold stored_lead_row.
  rewrite lead_form_columns. simpl map.
  repeat (constructor; [apply stripped_cell_strip|]). constructor.
Qed.

Lemma subscriber_form_cells_stripped (now : str) (request : Request) :
  Forall (fun name =>
            stripped_cell (column subscriber_header (stored_subscriber_row now request) name))
         subscriber_form_fields.
Proof.
  apply (Forall_map_iff stripped_cell). unfold stored_subscriber_row.
  rewrite subscriber_form_columns. simpl map.
  repeat (constructor; [apply stripped_cell_strip|]). constructor.
Qed.

(** C10, amended: both handlers strip the form fields before they
    validate and store. A lead whose name, email or message is only
    whitespace, and a subscription whose email is only whitespace, get
    status 400 and nothing is written. When a handler does store a row,
    every cell of a column that comes from a form field holds a string
    with no whitespace at either end. *)
Theorem handlers_strip_form_fields
    (LEADS_CSV NEWSLETTER_CSV : Path) (now : str) (request : Request)
    (fs : FileSystem) :
  (forallb isspace (submitted request (py "name")) = true
   \/ forallb isspace (submitted request (py "email")) = true
   \/ forallb isspace (submitted request (py "message")) = true ->
   lead LEADS_CSV now request fs
     = (Aborted 400 (py "Missing required fields."), fs))
  /\ (forallb isspace (submitted request (py "email")) = true ->
      newsletter_subscribe NEWSLETTER_CSV now request fs
        = (Aborted 400 (py "Enter a valid email."), fs))
  /\ (forall (r : Response) (fs' : FileSystem),
        lead LEADS_CSV now request fs = (Done r, fs') ->
        fs' !! LEADS_CSV
          = Some (text_before fs LEADS_CSV lead_header
                  ++ writerow (stored_lead_row now request))
        /\ Forall (fun name =>
                     stripped_cell
                       (column lead_header (stored_lead_row now request) name))
                  lead_form_fields)
  /\ (forall (r : Response) (fs' : FileSystem),
        newsletter_subscribe NEWSLETTER_CSV now request fs = (Done r, fs') ->
        fs' !! NEWSLETTER_CSV
          = Some (text_before fs NEWSLETTER_CSV subscriber_header
                  ++ writerow (stored_subscriber_row now request))
        /\ Forall (fun name =>
                     stripped_cell
                       (column subscriber_header
                          (stored_subscriber_row now request) name))
                  subscriber_form_fields).
Proof.
  split; [|split; [|split]].
  - intros H. rewrite lead_outcome.
    destruct H as [H|[H|H]]; apply whitespace_only_stripped in H; rewrite H;
      rewrite ?andb_false_r; reflexivity.
  - intros H. rewrite newsletter_outcome.
    apply whitespace_only_stripped in H. rewrite H. reflexivity.
  - intros r fs' H. rewrite lead_outcome in H.
    destruct (truthy _ && truthy _ && truthy _); [|discriminate H].
    apply after_store_done in H as [_ H]. apply save_row_done in H. subst fs'.
    split; [apply fs_lookup_insert_eq|].
    apply lead_form_cells_stripped.
  - intros r fs' H. rewrite newsletter_outcome in H.
    destruct (truthy _ && contains _ _); [|discriminate H].
    apply after_store_done in H as [_ H]. apply save_row_done in H. subst fs'.
    split; [apply fs_lookup_insert_eq|].
    apply subscriber_form_cells_stripped.
Qed.

(** C10, amended, on the sample lead whose name is three spaces. *)
Lemma handlers_strip_witness :
  forallb isspace (submitted sample_blank_lead (py "name")) = true
  /\ lead leads sample_now sample_blank_lead empty
       = (Aborted 400 (py "Missing required fields."), empty).
Proof.
  assert (H : forallb isspace (submitted sample_blank_lead (py "name")) = true)
    by reflexivity.
  split; [exact H|].
  exact (proj1 (handlers_strip_form_fields leads newsletter sample_now
                  sample_blank_lead empty) (or_introl H)).
Defined.

(** C10 as stated fails for the columns that do not come from the form:
    the user agent of the sample lead is stored with the spaces it came
    with. *)
Lemma stored_user_agent_keeps_whitespace :
  exists fs' : FileSystem,
    lead (py "leads.csv") sample_now sample_lead ∅
      = (Done (Redirect (py "/thank-you") 302), fs')
    /\ fs' !! py "leads.csv"
         = Some (header_line lead_header
                 ++ writerow (stored_lead_row sample_now sample_lead))
    /\ column lead_header (stored_lead_row sample_now sample_lead) (py "user_agent")
         = Some (Some (py " curl/8.0 "))
    /\ leading_space (py " curl/8.0 ") = true
    /\ trailing_space (py " curl/8.0 ") = true.
Proof.
  exists (snd (lead (py "leads.csv") sample_now sample_lead ∅)).
  repeat split; vm_compute; reflexivity.
Qed.

End HandlerFacts.

(** ** Advertisement blocks *)

Section AdFacts.

Lemma ad_block_edges (client slot : str) :
  ad_block client slot <> []
  /\ leading_space (ad_block client slot) = false
  /\ trailing_space (ad_block client slot) = false.
Proof.
  unfold ad_block. split; [discriminate|]. split; [reflexivity|].
  repeat (rewrite trailing_space_app by not_nil). reflexivity.
Qed.

Lemma adsense_ad_unit_enabled (client slot : str) :
  client <> [] -> slot <> [] ->
  adsense_ad_unit true client slot = ad_block client slot.
Proof.
  intros Hc Hs. unfold adsense_ad_unit.
  apply truthy_true in Hc, Hs. rewrite Hc, Hs. cbn [andb negb].
  destruct (ad_block_edges client slot) as (Hx & Hl & Ht).
  rewrite <- (strip_between NL (ad_block client slot) NL)
    by (reflexivity || assumption).
  f_equal. unfold ad_block. rewrite <- !app_assoc. reflexivity.
Qed.

Lemma adsense_ad_unit_result (ADSENSE_ENABLED : bool) (ADSENSE_CLIENT slot : str) :
  adsense_ad_unit ADSENSE_ENABLED ADSENSE_CLIENT slot =
  if ADSENSE_ENABLED && truthy ADSENSE_CLIENT && truthy slot
  then ad_block ADSENSE_CLIENT slot
  else [].
Proof.
  destruct ADSENSE_ENABLED; [|reflexivity].
  destruct ADSENSE_CLIENT as [|c client]; [reflexivity|].
  destruct slot as [|d s]; [unfold adsense_ad_unit; reflexivity|].
  rewrite adsense_ad_unit_enabled by discriminate. reflexivity.
Qed.

(** C5: the ad unit is the whole block when the enabled flag is set and
    both the client identifier and the slot identifier are not empty, and
    the empty string in every other case; the block itself is never
    empty, so the unit is empty exactly when one of the three fails. *)
Theorem adsense_ad_unit_all_or_nothing
    (ADSENSE_ENABLED : bool) (ADSENSE_CLIENT slot : str) :
  adsense_ad_unit ADSENSE_ENABLED ADSENSE_CLIENT slot =
    (if ADSENSE_ENABLED && truthy ADSENSE_CLIENT && truthy slot
     then ad_block ADSENSE_CLIENT slot
     else [])
  /\ ad_block ADSENSE_CLIENT slot <> []
  /\ (adsense_ad_unit ADSENSE_ENABLED ADSENSE_CLIENT slot = [] <->
      ADSENSE_ENABLED = false \/ ADSENSE_CLIENT = [] \/ slot = []).
Proof.
  pose proof (adsense_ad_unit_result ADSENSE_ENABLED ADSENSE_CLIENT slot) as Heq.
  pose proof (ad_block_edges ADSENSE_CLIENT slot) as (Hx & _).
  split; [exact Heq|]. split; [exact Hx|].
  rewrite Heq. destruct ADSENSE_ENABLED; simpl.
  - destruct ADSENSE_CLIENT as [|c client]; simpl; [tauto|].
    destruct slot as [|d s]; simpl; [tauto|].
    split; [intros H; contradiction | intros [H|[H|H]]; discriminate].
  - tauto.
Qed.

End AdFacts.

(** ** Background images *)

Section BackgroundFacts.
Variables STATIC_IMG_DIR IMAGES_DIR : Path.

Lemma find_bg_file_result (filename : str) (fs : FileSystem) :
  find_bg_file STATIC_IMG_DIR IMAGES_DIR filename fs
  = (Done (first_existing fs STATIC_IMG_DIR IMAGES_DIR filename), fs).
Proof.
  unfold find_bg_file, first_existing, file_exists, bind, path_exists.
  destruct (bool_decide (is_Some (nodes fs !! joinpath STATIC_IMG_DIR filename)));
    [reflexivity|].
  destruct (bool_decide (is_Some (nodes fs !! joinpath IMAGES_DIR filename)));
    reflexivity.
Qed.

(** What the image route answers: 404 when neither candidate exists and
    when the first that exists is no regular file, the file when it is
    one that can be read, and 500 when the reading open raises. *)
Lemma static_img_files_result (filename : str) (fs : FileSystem) :
  static_img_files STATIC_IMG_DIR IMAGES_DIR filename fs
  = (match first_existing fs STATIC_IMG_DIR IMAGES_DIR filename with
     | Some file =>
         match fs !! file with
         | Some _ =>
             if refused fs Read file
             then Aborted 500 (py "Internal Server Error")
             else Done (SendFile file)
         | None => Aborted 404 []
         end
     | None => Aborted 404 []
     end, fs).
Proof.
  unfold static_img_files, bind. rewrite find_bg_file_result.
  destruct (first_existing fs STATIC_IMG_DIR IMAGES_DIR filename) as [file|];
    [|reflexivity].
  unfold send_from_directory. destruct (fs !! file); [|reflexivity].
  destruct (refused fs Read file); reflexivity.
Qed.

Lemma bg_mapping_filenames (page filename : str) :
  bg_mapping !! page = Some filename -> truthy filename = true.
Proof.
  intros H. apply elem_of_list_to_map_2 in H.
  repeat (apply elem_of_cons in H as [H|H]; [injection H as _ ->; reflexivity|]).
  apply elem_of_nil in H. destruct H.
Qed.

Lemma bg_image_for_result (page : str) (fs : FileSystem) :
  bg_image_for STATIC_IMG_DIR IMAGES_DIR page fs =
  (Done
     match bg_mapping !! page with
     | None => None
     | Some filename =>
         match first_existing fs STATIC_IMG_DIR IMAGES_DIR filename with
         | Some _ => Some (py "/static/img/" ++ filename)
         | None => None
         end
     end, fs).
Proof.
  unfold bg_image_for.
  destruct (bg_mapping !! page) as [filename|] eqn:E; [|reflexivity].
  rewrite (bg_mapping_filenames page filename E). cbn [negb].
  unfold bind. rewrite find_bg_file_result.
  destruct (first_existing fs STATIC_IMG_DIR IMAGES_DIR filename); reflexivity.
Qed.

(** C8: the lookup of a background image reads the filesystem and
    leaves it as it was. For a page key of the mapping it looks for the
    file under the first directory, then under the second, and answers
    with the public path /static/img/ followed by the file name when one
    of the two exists, and with [None] when neither does (and for a key
    outside the mapping). A path exists when it names a regular file or
    a directory. The route behind that public path takes the first of
    the two paths that exists, and serves it when it is a regular file
    that can be read. The answer depends on the filesystem only through
    the existence of the two candidate files. *)
Theorem bg_image_for_first_match (page : str) (fs : FileSystem) :
  bg_image_for STATIC_IMG_DIR IMAGES_DIR page fs =
    (Done
       match bg_mapping !! page with
       | None => None
       | Some filename =>
           match first_existing fs STATIC_IMG_DIR IMAGES_DIR filename with
           | Some _ => Some (py "/static/img/" ++ filename)
           | None => None
           end
       end,
     fs)
  /\ (forall filename : str,
        find_bg_file STATIC_IMG_DIR IMAGES_DIR filename fs
          = (Done (first_existing fs STATIC_IMG_DIR IMAGES_DIR filename), fs)
        /\ static_img_files STATIC_IMG_DIR IMAGES_DIR filename fs
          = (match first_existing fs STATIC_IMG_DIR IMAGES_DIR filename with
             | Some file =>
                 match fs !! file with
                 | Some _ =>
                     if refused fs Read file
                     then Aborted 500 (py "Internal Server Error")
                     else Done (SendFile file)
                 | None => Aborted 404 []
                 end
             | None => Aborted 404 []
             end, fs))
  /\ (forall (filename : str) (fs' : FileSystem),
        bg_mapping !! page = Some filename ->
        file_exists fs' (joinpath STATIC_IMG_DIR filename)
          = file_exists fs (joinpath STATIC_IMG_DIR filename) ->
        file_exists fs' (joinpath IMAGES_DIR filename)
          = file_exists fs (joinpath IMAGES_DIR filename) ->
        fst (bg_image_for STATIC_IMG_DIR IMAGES_DIR page fs')
          = fst (bg_image_for STATIC_IMG_DIR IMAGES_DIR page fs)).
Proof.
  split; [apply bg_image_for_result|]. split.
  - intros filename. split; [apply find_bg_file_result|].
    apply static_img_files_result.
  - intros filename fs' E H1 H2. rewrite !bg_image_for_result, E. simpl.
    unfold first_existing. rewrite H1, H2. reflexivity.
Qed.

End BackgroundFacts.

(** C8 on the blog page, with its image only in the second directory:
    two filesystems that differ in what the file holds give one answer. *)
Lemma bg_image_for_witness :
  bg_mapping !! py "blog" = Some (py "insights_bg_1920x1080.jpg")
  /\ fst (bg_image_for (py "/srv/static/img") (py "/srv/images") (py "blog")
            (<[py "/srv/images/insights_bg_1920x1080.jpg" := []]> empty))
     = fst (bg_image_for (py "/srv/static/img") (py "/srv/images") (py "blog")
              (<[py "/srv/images/insights_bg_1920x1080.jpg" := py "jpeg"]> empty)).
Proof.
  assert (E : bg_mapping !! py "blog" = Some (py "insights_bg_1920x1080.jpg"))
    by (vm_compute; reflexivity).
  split; [exact E|].
  apply (proj2 (proj2 (bg_image_for_first_match (py "/srv/static/img")
                         (py "/srv/images") (py "blog")
                         (<[py "/srv/images/insights_bg_1920x1080.jpg" := py "jpeg"]> empty)))
           (py "insights_bg_1920x1080.jpg")
           (<[py "/srv/images/insights_bg_1920x1080.jpg" := []]> empty) E);
    vm_compute; reflexivity.
Defined.

(** ** The sitemap *)

Section SitemapFacts.
Variable CANONICAL_DOMAIN : str.

Local Abbreviation pages := (sitemap_pages CANONICAL_DOMAIN).
Local Abbreviation url := (site_url CANONICAL_DOMAIN).

Lemma url_entries_app (a b : list str) :
  url_entries (a ++ b) = (url_entries a + url_entries b)%nat.
Proof. unfold url_entries. rewrite List.filter_app, length_app. reflexivity. Qed.

Lemma url_entries_of_entry (page : str * str * str) :
  url_entries (sitemap_entry page) = 1%nat.
Proof. destruct page as [[loc cf] pr]. vm_compute. reflexivity. Qed.

Lemma url_entries_of_entries (ps : list (str * str * str)) :
  url_entries (flat_map sitemap_entry ps) = length ps.
Proof.
  induction ps as [|page ps IH]; [reflexivity|].
  cbn [flat_map length]. rewrite url_entries_app, url_entries_of_entry, IH.
  reflexivity.
Qed.

Lemma sitemap_locs :
  map entry_loc pages
  = map url (sitemap_static_paths ++ map (fun p => py "/blog/" ++ slug p) BLOG_POSTS).
Proof. reflexivity. Qed.

Lemma sitemap_priorities :
  map (fun page => priority_tenths (entry_priority page)) pages
  = [Some 10; Some 7; Some 7; Some 7; Some 2; Some 2; Some 1]
    ++ repeat (Some 6) (length BLOG_POSTS).
Proof. reflexivity. Qed.

(** Two paths with one public URL are one path. *)
Lemma site_url_inj (p q : str) : url p = url q -> p = q.
Proof.
  unfold site_url. destruct (truthy CANONICAL_DOMAIN); [|auto].
  apply app_inv_head.
Qed.

(** *** The lines of the document *)

Lemma tag_value_line (tag value : str) :
  tag_value tag (py "    <" ++ tag ++ py ">" ++ value ++ py "</" ++ tag ++ py ">")
  = Some value.
Proof.
  replace (py "    <" ++ tag ++ py ">" ++ value ++ py "</" ++ tag ++ py ">")
    with ((py "    <" ++ tag ++ py ">") ++ value ++ py "</" ++ tag ++ py ">")
    by (rewrite <- !app_assoc; reflexivity).
  unfold tag_value. cbv zeta.
  set (opening := py "    <" ++ tag ++ py ">").
  set (closing := py "</" ++ tag ++ py ">").
  rewrite startswith_app. rewrite !rev_app_distr, <- app_assoc, startswith_app.
  rewrite !length_app.
  replace (Nat.leb _ _) with true by (symmetry; apply Nat.leb_le; lia).
  cbn [andb]. f_equal.
  rewrite skipn_app, skipn_all, Nat.sub_diag. cbn [skipn app].
  replace (length opening + (length value + length closing)
           - length opening - length closing)%nat
    with (length value) by lia.
  change (drop 0 (value ++ closing)) with (value ++ closing).
  rewrite firstn_app, firstn_all, Nat.sub_diag. cbn [firstn]. apply app_nil_r.
Qed.

Lemma xml_values_app (tag : str) (a b : list str) :
  xml_values tag (a ++ b) = xml_values tag a ++ xml_values tag b.
Proof. apply omap_app. Qed.

(** An entry gives one location, one change frequency and one priority:
    those of its page. *)
Lemma xml_values_entry (page : str * str * str) :
  xml_values (py "loc") (sitemap_entry page) = [entry_loc page]
  /\ xml_values (py "changefreq") (sitemap_entry page) = [entry_changefreq page]
  /\ xml_values (py "priority") (sitemap_entry page) = [entry_priority page].
Proof.
  destruct page as [[loc cf] pr]. unfold xml_values, sitemap_entry.
  cbn [omap list_omap entry_loc entry_changefreq entry_priority fst snd].
  pose proof (tag_value_line (py "loc") loc) as Hloc.
  pose proof (tag_value_line (py "changefreq") cf) as Hcf.
  pose proof (tag_value_line (py "priority") pr) as Hpr.
  repeat split.
  - replace (tag_value (py "loc") (py "    <loc>" ++ loc ++ py "</loc>"))
      with (Some loc) by (symmetry; exact Hloc).
    vm_compute. reflexivity.
  - replace (tag_value (py "changefreq")
               (py "    <changefreq>" ++ cf ++ py "</changefreq>"))
      with (Some cf) by (symmetry; exact Hcf).
    vm_compute. reflexivity.
  - replace (tag_value (py "priority")
               (py "    <priority>" ++ pr ++ py "</priority>"))
      with (Some pr) by (symmetry; exact Hpr).
    vm_compute. reflexivity.
Qed.

Lemma xml_values_entries (ps : list (str * str * str)) :
  xml_values (py "loc") (flat_map sitemap_entry ps) = map entry_loc ps
  /\ xml_values (py "changefreq") (flat_map sitemap_entry ps)
     = map entry_changefreq ps
  /\ xml_values (py "priority") (flat_map sitemap_entry ps)
     = map entry_priority ps.
Proof.
  induction ps as [|page ps (IH1 & IH2 & IH3)]; [repeat split; reflexivity|].
  cbn [flat_map map]. rewrite !xml_values_app, IH1, IH2, IH3.
  destruct (xml_values_entry page) as (-> & -> & ->). repeat split.
Qed.

Lemma xml_values_sitemap :
  xml_values (py "loc") (sitemap_xml CANONICAL_DOMAIN) = map entry_loc pages
  /\ xml_values (py "changefreq") (sitemap_xml CANONICAL_DOMAIN)
     = map entry_changefreq pages
  /\ xml_values (py "priority") (sitemap_xml CANONICAL_DOMAIN)
     = map entry_priority pages.
Proof.
  unfold sitemap_xml. rewrite !xml_values_app.
  destruct (xml_values_entries pages) as (-> & -> & ->).
  repeat split; rewrite app_nil_r; reflexivity.
Qed.

Ltac other_page :=
  let H := fresh in
  intros H; apply site_url_inj in H; vm_compute in H; discriminate H.

Ltac this_page :=
  let H := fresh in
  intros H; exfalso; apply H; reflexivity.

Ltac not_legal :=
  let H := fresh in
  intros H; cbn [map legal_and_thanks_paths In] in H;
  repeat (destruct H as [H|H];
          [apply site_url_inj in H; vm_compute in H; discriminate H|]);
  destruct H.

Ltac legal :=
  let H := fresh in
  intros H; exfalso; apply H; cbn [map legal_and_thanks_paths In];
  first [ left; reflexivity
        | right; left; reflexivity
        | right; right; left; reflexivity ].

(** C6, amended: the sitemap names seven pages (home, insights, blog,
    start, privacy, terms and thank-you) and every blog post, and nothing
    else: the number of its entries is seven plus the number of blog
    posts. The document has, for every entry and in the order of the
    entries, one line with its location, one with its change frequency
    and one with its priority. The home page has priority 1.0 and every
    other entry has less. The privacy, terms and thank-you pages are
    among the seven pages, have priority 0.2 at most, and every other
    entry has 0.6 at least, every other of the seven pages 0.7 at
    least. *)
Theorem sitemap_lists_seven_pages_and_posts :
  map entry_loc pages
    = map url (sitemap_static_paths
               ++ map (fun p => url_for_blog_post (slug p)) BLOG_POSTS)
  /\ length pages = (7 + length BLOG_POSTS)%nat
  /\ sitemap CANONICAL_DOMAIN
       = WithMimetype (join NL (sitemap_xml CANONICAL_DOMAIN)) (py "application/xml")
  /\ url_entries (sitemap_xml CANONICAL_DOMAIN) = length pages
  /\ xml_values (py "loc") (sitemap_xml CANONICAL_DOMAIN) = map entry_loc pages
  /\ xml_values (py "changefreq") (sitemap_xml CANONICAL_DOMAIN)
     = map entry_changefreq pages
  /\ xml_values (py "priority") (sitemap_xml CANONICAL_DOMAIN)
     = map entry_priority pages
  /\ Forall (fun page =>
               entry_changefreq page <> []
               /\ exists n : N,
                    priority_tenths (entry_priority page) = Some n
                    /\ (entry_loc page = url (py "/") -> n = 10)
                    /\ (entry_loc page <> url (py "/") -> n < 10)
                    /\ (In (entry_loc page) (map url legal_and_thanks_paths) ->
                        n <= 2)
                    /\ (~ In (entry_loc page) (map url legal_and_thanks_paths) ->
                        6 <= n))
            pages
  /\ Forall (fun page =>
               exists n : N,
                 priority_tenths (entry_priority page) = Some n
                 /\ (~ In (entry_loc page) (map url legal_and_thanks_paths) ->
                     7 <= n))
            (firstn 7 pages)
  /\ hd_error (map entry_loc pages) = Some (url (py "/"))
  /\ incl (map url legal_and_thanks_paths) (map entry_loc (firstn 7 pages)).
Proof.
  destruct xml_values_sitemap as (Hloc & Hcf & Hpr).
  split; [reflexivity|]. split; [reflexivity|]. split; [reflexivity|].
  split.
  { unfold sitemap_xml. rewrite !url_entries_app, url_entries_of_entries.
    reflexivity. }
  split; [exact Hloc|]. split; [exact Hcf|]. split; [exact Hpr|].
  split; [|split; [|split]].
  - unfold sitemap_pages.
    cbn [app map BLOG_POSTS slug entry_loc entry_changefreq entry_priority fst snd].
    repeat (apply List.Forall_cons;
            [split; [discriminate|];
             eexists; split; [vm_compute; reflexivity|];
             split; [first [intros _; reflexivity | other_page]|];
             split; [first [intros _; lia | this_page]|];
             split; [first [intros _; lia | not_legal]|];
             first [intros _; lia | legal]|]).
    apply List.Forall_nil.
  - unfold sitemap_pages.
    cbn [app map firstn BLOG_POSTS entry_loc entry_priority fst snd].
    repeat (apply List.Forall_cons;
            [eexists; split; [vm_compute; reflexivity|];
             first [intros _; lia | legal]|]).
    apply List.Forall_nil.
  - reflexivity.
  - intros loc H. cbn [map legal_and_thanks_paths In] in H.
    unfold sitemap_pages. cbn [app map firstn entry_loc fst In].
    destruct H as [<-|[<-|[<-|[]]]];
      [ do 4 right; left; reflexivity
      | do 5 right; left; reflexivity
      | do 6 right; left; reflexivity ].
Qed.

End SitemapFacts.

(** C6 as stated fails: the route /newsletter/thanks renders a page and
    has no variable part, so there are eight static page routes, and with
    the two blog posts the claim counts ten entries; the sitemap has
    nine, and none of them is /newsletter/thanks. *)
Lemma sitemap_omits_newsletter_thanks :
  In (py "/newsletter/thanks") (map rule static_page_routes)
  /\ length static_page_routes = 8%nat
  /\ length BLOG_POSTS = 2%nat
  /\ url_entries (sitemap_xml []) = 9%nat
  /\ length (sitemap_pages []) <> (length static_page_routes + length BLOG_POSTS)%nat
  /\ ~ In (site_url [] (py "/newsletter/thanks")) (map entry_loc (sitemap_pages [])).
Proof.
  split; [vm_compute; tauto|]. split; [reflexivity|]. split; [reflexivity|].
  split; [vm_compute; reflexivity|]. split; [vm_compute; discriminate|].
  intros H. vm_compute in H.
  repeat (destruct H as [H|H]; [discriminate H|]). exact H.
Qed.

(** ** Blog posts *)

Section BlogFacts.

Lemma ends_with_app (c : char) (a b : str) :
  b <> [] -> ends_with c (a ++ b) = ends_with c b.
Proof.
  intros H. unfold ends_with. rewrite rev_app_distr.
  destruct (rev b) as [|d r] eqn:E; [|reflexivity].
  exfalso. apply H. rewrite <- (rev_involutive b), E. reflexivity.
Qed.

Lemma ends_with_cons (c d e : char) (r : str) :
  ends_with c (d :: e :: r) = ends_with c (e :: r).
Proof. apply (ends_with_app c [d] (e :: r)). discriminate. Qed.

Lemma tag_free_app (a b : str) :
  tag_free a = true -> ends_with 123 a = false -> tag_free b = true ->
  tag_free (a ++ b) = true.
Proof.
  induction a as [|c a IH]; intros Ha He Hb; [exact Hb|].
  simpl in Ha. apply andb_prop in Ha as [Ha Hr]. apply andb_prop in Ha as [Hcr Hc].
  destruct a as [|d a].
  - unfold ends_with in He. simpl in He. simpl. rewrite Hcr, He, Hb. reflexivity.
  - rewrite ends_with_cons in He.
    change ((c :: d :: a) ++ b) with (c :: (d :: a) ++ b).
    cbn [tag_free]. rewrite Hcr. cbn [app]. cbn [app] in Hc. rewrite Hc.
    cbn [andb]. exact (IH Hr He Hb).
Qed.

Lemma template_safe_app (a b : str) :
  template_safe a = true -> template_safe b = true -> template_safe (a ++ b) = true.
Proof.
  unfold template_safe. intros Ha Hb.
  apply andb_prop in Ha as [Ha Hea]. apply andb_prop in Hb as [Hb Heb].
  apply negb_true_iff in Hea, Heb.
  rewrite tag_free_app by assumption. simpl.
  destruct b as [|d b]; [rewrite app_nil_r, Hea; reflexivity|].
  rewrite ends_with_app by discriminate. rewrite Heb. reflexivity.
Qed.

Lemma template_safe_if (b : bool) (x : str) :
  template_safe x = true -> template_safe (if b then x else []) = true.
Proof. destruct b; [auto | reflexivity]. Qed.

Ltac safe_pieces :=
  lazymatch goal with
  | |- template_safe (_ ++ _) = true => apply template_safe_app; safe_pieces
  | |- template_safe (if _ then _ else []) = true =>
      apply template_safe_if; safe_pieces
  | |- _ => first [assumption | vm_compute; reflexivity]
  end.

Lemma ad_block_safe (client slot : str) :
  template_safe client = true -> template_safe slot = true ->
  template_safe (ad_block client slot) = true.
Proof. intros Hc Hs. unfold ad_block. safe_pieces. Qed.

Lemma ad_unit_safe (enabled : bool) (client slot : str) :
  enabled = false \/ (template_safe client = true /\ template_safe slot = true) ->
  template_safe (adsense_ad_unit enabled client slot) = true.
Proof.
  intros H. rewrite adsense_ad_unit_result.
  destruct enabled; [|reflexivity].
  destruct H as [H|[Hc Hs]]; [discriminate H|].
  cbn [andb]. destruct (truthy client && truthy slot); [|reflexivity].
  apply ad_block_safe; assumption.
Qed.

Lemma post_fields_safe (post : BlogPost) :
  In post BLOG_POSTS ->
  template_safe (escape (title post)) = true
  /\ template_safe (escape (date post)) = true
  /\ template_safe (html post) = true.
Proof. intros [<-|[<-|[]]]; repeat split; vm_compute; reflexivity. Qed.

Lemma blog_post_body_safe (post : BlogPost) (a1 a2 a3 : str) :
  In post BLOG_POSTS ->
  template_safe a1 = true -> template_safe a2 = true -> template_safe a3 = true ->
  template_safe (BLOG_POST_BODY post a1 a2 a3) = true.
Proof.
  intros Hin H1 H2 H3.
  destruct (post_fields_safe post Hin) as (Ht & Hd & Hh).
  unfold BLOG_POST_BODY. safe_pieces.
Qed.

Lemma escape_app (a b : str) : escape (a ++ b) = escape a ++ escape b.
Proof. unfold escape. apply flat_map_app. Qed.

Lemma escape_titles (post : BlogPost) :
  In post BLOG_POSTS -> escape (title post) = title post.
Proof. intros [<-|[<-|[]]]; vm_compute; reflexivity. Qed.

Lemma get_post_found (post : BlogPost) :
  In post BLOG_POSTS -> get_post (slug post) = Some post.
Proof. intros [<-|[<-|[]]]; vm_compute; reflexivity. Qed.

Lemma get_post_in_none (posts : list BlogPost) (s : str) :
  (forall post, In post posts -> slug post <> s) -> get_post_in posts s = None.
Proof.
  induction posts as [|p posts IH]; intros H; [reflexivity|].
  unfold get_post_in in *. simpl.
  rewrite bool_decide_eq_false_2 by (apply H; left; reflexivity).
  apply IH. intros post Hin. apply H. right. exact Hin.
Qed.

Ltac find_piece x :=
  lazymatch goal with
  | |- contains _ (x ++ _) = true => apply contains_app_l
  | |- contains _ (_ ++ _) = true => apply contains_app_r; find_piece x
  end.

(** The page shows its title. *)
Lemma BASE_shows_title (style app_name slogan meta_title meta_desc canonical : str)
    (include_pixels adsense_enabled : bool) (adsense_client body sub : str) :
  contains sub (escape meta_title) = true ->
  contains sub (BASE style app_name slogan meta_title meta_desc canonical
                  include_pixels adsense_enabled adsense_client body) = true.
Proof.
  intros H. unfold BASE. find_piece (escape meta_title). exact H.
Qed.

Lemma last_is_not_app (c : char) (a b : str) :
  last_is_not c b -> last_is_not c (a ++ b).
Proof.
  intros [Hb He]. split; [apply app_not_nil_r; exact Hb|].
  rewrite ends_with_app by exact Hb. exact He.
Qed.

Lemma blog_post_body_no_final_newline (post : BlogPost) (a1 a2 a3 : str) :
  ends_with 10 (BLOG_POST_BODY post a1 a2 a3) = false.
Proof.
  apply (proj2 (A := BLOG_POST_BODY post a1 a2 a3 <> [])).
  unfold BLOG_POST_BODY. repeat (apply last_is_not_app).
  split; [discriminate | reflexivity].
Qed.

Section Route.
Variable CANONICAL_DOMAIN : str.
Variable INCLUDE_PIXELS : bool.
Variable ADSENSE_ENABLED : bool.
Variable ADSENSE_CLIENT : str.
Variables ADSENSE_SLOT_HEADER ADSENSE_SLOT_INARTICLE ADSENSE_SLOT_SIDEBAR : str.
Variables STATIC_IMG_DIR IMAGES_DIR : Path.
Variable BASE_STYLE : str.
Variable render_tags : str -> option str -> option str.

Local Abbreviation view :=
  (blog_post CANONICAL_DOMAIN INCLUDE_PIXELS ADSENSE_ENABLED ADSENSE_CLIENT
     ADSENSE_SLOT_HEADER ADSENSE_SLOT_INARTICLE ADSENSE_SLOT_SIDEBAR
     STATIC_IMG_DIR IMAGES_DIR BASE_STYLE render_tags).

(** C7: for a slug that no post of the registry has, the view aborts
    with 404. For the slug of a post of the registry it answers 200 with
    an HTML page in which the title of that post occurs. [render_page]
    renders the body, advertisement blocks included, a second time as a
    template, so the second part is stated for advertisement identifiers
    that hold no template tag (or advertisements off). *)
Theorem blog_post_found_or_404 (request : Request) (s : str) (fs : FileSystem) :
  ((forall post : BlogPost, In post BLOG_POSTS -> slug post <> s) ->
   view request s fs = (Aborted 404 [], fs))
  /\ (forall post : BlogPost,
        In post BLOG_POSTS -> slug post = s ->
        ads_template_safe ADSENSE_ENABLED ADSENSE_CLIENT ADSENSE_SLOT_HEADER
          ADSENSE_SLOT_INARTICLE ADSENSE_SLOT_SIDEBAR ->
        exists page : str,
          view request s fs = (Done (Html page), fs)
          /\ status status_code (fst (view request s fs)) = 200%Z
          /\ contains (title post) page = true).
Proof.
  split.
  - intros H. unfold blog_post, get_post.
    rewrite (get_post_in_none BLOG_POSTS s H). reflexivity.
  - intros post Hin <- Hads.
    assert (Hsafe : forall slot : str,
              In slot [ADSENSE_SLOT_HEADER; ADSENSE_SLOT_INARTICLE; ADSENSE_SLOT_SIDEBAR] ->
              template_safe (adsense_ad_unit ADSENSE_ENABLED ADSENSE_CLIENT slot) = true).
    { intros slot Hslot. apply ad_unit_safe.
      destruct Hads as [Hoff|(Hc & Hh & Hi & Hs)]; [left; exact Hoff|].
      right. split; [exact Hc|].
      destruct Hslot as [<-|[<-|[<-|[]]]]; assumption. }
    set (body := BLOG_POST_BODY post
                   (adsense_ad_unit ADSENSE_ENABLED ADSENSE_CLIENT ADSENSE_SLOT_HEADER)
                   (adsense_ad_unit ADSENSE_ENABLED ADSENSE_CLIENT ADSENSE_SLOT_INARTICLE)
                   (adsense_ad_unit ADSENSE_ENABLED ADSENSE_CLIENT ADSENSE_SLOT_SIDEBAR)).
    assert (Hinert : inert body = true).
    { unfold inert. subst body. rewrite blog_post_body_no_final_newline.
      pose proof (blog_post_body_safe post _ _ _ Hin
                    (Hsafe _ (or_introl eq_refl))
                    (Hsafe _ (or_intror (or_introl eq_refl)))
                    (Hsafe _ (or_intror (or_intror (or_introl eq_refl))))) as H.
      unfold template_safe in H. apply andb_prop in H as [-> _]. reflexivity. }
    assert (Hview : view request (slug post) fs =
              (Done (Html (BASE BASE_STYLE APP_NAME SLOGAN
                             (APP_NAME ++ py " | " ++ title post) (excerpt post)
                             (site_url CANONICAL_DOMAIN (path request))
                             INCLUDE_PIXELS (ADSENSE_ENABLED && truthy ADSENSE_CLIENT)
                             ADSENSE_CLIENT body)), fs)).
    { unfold blog_post. rewrite (get_post_found post Hin).
      fold body. unfold render_page, bind. rewrite bg_image_for_result.
      unfold render_template_string. rewrite Hinert. reflexivity. }
    eexists. split; [exact Hview|]. split; [rewrite Hview; reflexivity|].
    apply BASE_shows_title. rewrite !escape_app, (escape_titles post Hin).
    apply contains_app_r, contains_app_r, contains_self.
Qed.

End Route.

End BlogFacts.

(** C7 for the first post, with advertisements on. *)
Lemma blog_post_witness :
  In sample_post BLOG_POSTS
  /\ ads_template_safe true (py "ca-pub-1234") (py "111") [] (py "333")
  /\ exists page : str,
       blog_post [] false true (py "ca-pub-1234") (py "111") [] (py "333")
         (py "/srv/static/img") (py "/srv/images") [] sample_engine
         sample_page_request (py "positioning-before-promotion") empty
         = (Done (Html page), empty)
       /\ contains (py "Positioning Before Promotion") page = true.
Proof.
  assert (Hin : In sample_post BLOG_POSTS) by (left; reflexivity).
  assert (Hads : ads_template_safe true (py "ca-pub-1234") (py "111") [] (py "333"))
    by (right; repeat split; reflexivity).
  split; [exact Hin|]. split; [exact Hads|].
  destruct (proj2 (blog_post_found_or_404 [] false true (py "ca-pub-1234")
                     (py "111") [] (py "333") (py "/srv/static/img")
                     (py "/srv/images") [] sample_engine
                     sample_page_request (py "positioning-before-promotion") empty)
              sample_post Hin eq_refl Hads) as (page & Hview & _ & Htitle).
  exists page. split; [exact Hview | exact Htitle].
Defined.

(** * More facts

    What the rest of the application does: the settings, the public
    URLs, posted forms in sequence, redirects, served images and the
    pages. *)

(** ** Settings *)

Section SettingsFacts.

Lemma truthy_strip (s : str) : truthy (strip s) = negb (forallb isspace s).
Proof.
  destruct (forallb isspace s) eqn:E.
  - apply whitespace_only_stripped. exact E.
  - apply truthy_true. intros H. apply strip_empty_iff in H. congruence.
Qed.

Lemma visible_char (s : str) :
  forallb isspace s = false <-> exists c : char, In c s /\ isspace c = false.
Proof.
  induction s as [|d s IH]; simpl.
  - split; [discriminate | intros (c & [] & _)].
  - destruct (isspace d) eqn:E; simpl.
    + rewrite IH. split.
      * intros (c & Hin & Hc). exists c. auto.
      * intros (c & [<-|Hin] & Hc); [congruence|]. exists c. auto.
    + split; [|reflexivity]. intros _. exists d. auto.
Qed.

(** A flag read as [bool(os.getenv(name, "").strip())]. *)
Lemma flag_on (environ : Environ) (name : str) :
  truthy (strip (getenv environ name [])) = true <->
  exists (v : str) (c : char),
    environ !! name = Some v /\ In c v /\ isspace c = false.
Proof.
  rewrite truthy_strip, negb_true_iff, visible_char. unfold getenv.
  destruct (environ !! name) as [v|]; simpl.
  - split.
    + intros (c & Hin & Hc). exists v, c. auto.
    + intros (v' & c & [= <-] & Hin & Hc). exists c. auto.
  - split; [intros (c & [] & _) | intros (v & c & [=] & _)].
Qed.

(** X1: the two flags of the module are on exactly when their
    environment variable is set to a value that holds a character that
    is not whitespace, whatever that value says: unset, empty or
    whitespace only is off, and every other value, such as 0, false or
    no, is on. *)
Theorem flags_on_for_any_visible_value (environ : Environ) :
  (Settings.ADSENSE_ENABLED environ = true <->
   exists (v : str) (c : char),
     environ !! py "ADSENSE_ENABLED" = Some v /\ In c v /\ isspace c = false)
  /\ (Settings.INCLUDE_PIXELS environ = true <->
      exists (v : str) (c : char),
        environ !! py "INCLUDE_PIXELS" = Some v /\ In c v /\ isspace c = false)
  /\ Settings.ADSENSE_ENABLED environ = negb (blank environ (py "ADSENSE_ENABLED"))
  /\ Settings.INCLUDE_PIXELS environ = negb (blank environ (py "INCLUDE_PIXELS")).
Proof.
  split; [apply flag_on|]. split; [apply flag_on|].
  split; apply truthy_strip.
Qed.

(** ADSENSE_ENABLED=0 turns advertisements on. *)
Example zero_enables_ads : Settings.ADSENSE_ENABLED sample_environ = true.
Proof. vm_compute. reflexivity. Qed.

Lemma ad_unit_of_environ (environ : Environ) (name : str) :
  adsense_ad_unit (Settings.ADSENSE_ENABLED environ)
    (Settings.ADSENSE_CLIENT environ) (strip (getenv environ name []))
  = if negb (blank environ (py "ADSENSE_ENABLED"))
       && negb (blank environ (py "ADSENSE_CLIENT"))
       && negb (blank environ name)
    then ad_block (strip (getenv environ (py "ADSENSE_CLIENT") []))
           (strip (getenv environ name []))
    else [].
Proof.
  rewrite adsense_ad_unit_result.
  unfold Settings.ADSENSE_ENABLED, Settings.ADSENSE_CLIENT, blank.
  rewrite !truthy_strip. reflexivity.
Qed.

Lemma ad_unit_of_environ_empty (environ : Environ) (name : str) :
  adsense_ad_unit (Settings.ADSENSE_ENABLED environ)
    (Settings.ADSENSE_CLIENT environ) (strip (getenv environ name [])) = [] <->
  blank environ (py "ADSENSE_ENABLED") = true
  \/ blank environ (py "ADSENSE_CLIENT") = true
  \/ blank environ name = true.
Proof.
  rewrite ad_unit_of_environ.
  destruct (blank environ (py "ADSENSE_ENABLED")); cbn [negb andb]; [split; auto|].
  destruct (blank environ (py "ADSENSE_CLIENT")); cbn [negb andb]; [split; auto|].
  destruct (blank environ name); cbn [negb andb]; [split; auto|].
  pose proof (ad_block_edges (strip (getenv environ (py "ADSENSE_CLIENT") []))
                (strip (getenv environ name []))) as (Hx & _).
  split; [intros H; contradiction | intros [H|[H|H]]; discriminate].
Qed.

(** X2: with the settings as the module reads them, an ad unit is empty
    exactly when one of the three environment variables behind it (the
    flag, the client, the slot) is unset, empty or whitespace only; a
    client or slot of spaces does not give a block with a blank
    identifier. Otherwise the unit is the whole block, and the
    identifiers in it are the values without the whitespace around
    them. *)
Theorem ad_units_need_three_visible_settings (environ : Environ) :
  Forall
    (fun '(slot, name) =>
       adsense_ad_unit (Settings.ADSENSE_ENABLED environ)
         (Settings.ADSENSE_CLIENT environ) slot
       = (if negb (blank environ (py "ADSENSE_ENABLED"))
             && negb (blank environ (py "ADSENSE_CLIENT"))
             && negb (blank environ name)
          then ad_block (strip (getenv environ (py "ADSENSE_CLIENT") []))
                 (strip (getenv environ name []))
          else [])
       /\ (adsense_ad_unit (Settings.ADSENSE_ENABLED environ)
             (Settings.ADSENSE_CLIENT environ) slot = [] <->
           blank environ (py "ADSENSE_ENABLED") = true
           \/ blank environ (py "ADSENSE_CLIENT") = true
           \/ blank environ name = true))
    [ (Settings.ADSENSE_SLOT_HEADER environ, py "ADSENSE_SLOT_HEADER");
      (Settings.ADSENSE_SLOT_INARTICLE environ, py "ADSENSE_SLOT_INARTICLE");
      (Settings.ADSENSE_SLOT_SIDEBAR environ, py "ADSENSE_SLOT_SIDEBAR") ].
Proof.
  repeat (apply List.Forall_cons;
          [split; [apply ad_unit_of_environ | apply ad_unit_of_environ_empty]|]).
  apply List.Forall_nil.
Qed.

(** A slot of spaces gives no unit; a client with spaces around it gives
    a block with the bare client. *)
Example ad_units_of_sample_environ :
  adsense_ad_unit (Settings.ADSENSE_ENABLED sample_environ)
    (Settings.ADSENSE_CLIENT sample_environ)
    (Settings.ADSENSE_SLOT_HEADER sample_environ) = []
  /\ adsense_ad_unit (Settings.ADSENSE_ENABLED sample_environ)
       (Settings.ADSENSE_CLIENT sample_environ)
       (Settings.ADSENSE_SLOT_SIDEBAR sample_environ)
     = ad_block (py "ca-pub-1234") (py "333").
Proof. split; vm_compute; reflexivity. Qed.

End SettingsFacts.

(** ** Public URLs *)

Section UrlFacts.

Lemma lstrip_char_split (x : char) (s : str) :
  exists k : nat, s = repeat x k ++ lstrip_char x s.
Proof.
  induction s as [|c s (k & IH)]; [exists 0%nat; reflexivity|].
  simpl. destruct (N.eqb_spec c x) as [->|Hne].
  - exists (S k). simpl. f_equal. exact IH.
  - exists 0%nat. reflexivity.
Qed.

Lemma lstrip_char_head (x : char) (s : str) :
  match lstrip_char x s with c :: _ => c =? x | [] => false end = false.
Proof.
  induction s as [|c s IH]; [reflexivity|].
  simpl. destruct (c =? x) eqn:E; [exact IH | exact E].
Qed.

Lemma rev_repeat (x : char) (k : nat) : rev (repeat x k) = repeat x k.
Proof.
  induction k as [|k IH]; [reflexivity|].
  simpl. rewrite IH. symmetry. apply repeat_cons.
Qed.

Lemma rstrip_char_split (x : char) (s : str) :
  exists k : nat, s = rstrip_char x s ++ repeat x k.
Proof.
  unfold rstrip_char. destruct (lstrip_char_split x (rev s)) as (k & H).
  exists k. rewrite <- (rev_involutive s) at 1. rewrite H at 1.
  rewrite rev_app_distr, rev_repeat. reflexivity.
Qed.

Lemma rstrip_char_end (x : char) (s : str) : ends_with x (rstrip_char x s) = false.
Proof.
  unfold ends_with, rstrip_char. rewrite rev_involutive. apply lstrip_char_head.
Qed.

Lemma only_slashes_repeat (k : nat) : only_slashes (repeat 47 k) = true.
Proof. induction k as [|k IH]; [reflexivity | exact IH]. Qed.

Lemma only_slashes_base (base rest : str) :
  ends_with 47 base = false -> only_slashes (base ++ rest) = true -> base = [].
Proof.
  intros He Hs. destruct base as [|c base] using rev_ind; [reflexivity|].
  exfalso. unfold ends_with in He. rewrite rev_app_distr in He. simpl in He.
  unfold only_slashes in Hs. rewrite !forallb_app in Hs. simpl in Hs.
  rewrite He in Hs. rewrite andb_false_r in Hs. simpl in Hs. discriminate Hs.
Qed.

(** X3: a public URL is the configured domain without the slashes at
    its end, however many, followed by the path, so that a path which
    begins with a slash is never joined to the domain by two. The URL is
    the bare path exactly when the domain is empty or slashes only. *)
Theorem site_url_joins_without_slash (CANONICAL_DOMAIN p : str) :
  exists (base : str) (k : nat),
    CANONICAL_DOMAIN = base ++ repeat 47 k
    /\ ends_with 47 base = false
    /\ site_url CANONICAL_DOMAIN p = base ++ p
    /\ (site_url CANONICAL_DOMAIN p = p <-> only_slashes CANONICAL_DOMAIN = true).
Proof.
  destruct (rstrip_char_split 47 CANONICAL_DOMAIN) as (k & Hk).
  pose proof (rstrip_char_end 47 CANONICAL_DOMAIN) as He.
  assert (Hurl : site_url CANONICAL_DOMAIN p = rstrip_char 47 CANONICAL_DOMAIN ++ p).
  { unfold site_url. destruct CANONICAL_DOMAIN; reflexivity. }
  exists (rstrip_char 47 CANONICAL_DOMAIN), k.
  split; [exact Hk|]. split; [exact He|]. split; [exact Hurl|].
  rewrite Hurl. split.
  - intros H. apply (app_inv_tail p _ []) in H.
    rewrite Hk, H. apply only_slashes_repeat.
  - intros H. rewrite Hk in H. apply only_slashes_base in H; [|exact He].
    rewrite H. reflexivity.
Qed.

(** The canonical domain of the sample environment, read and joined. *)
Example site_url_of_sample_environ :
  site_url (Settings.CANONICAL_DOMAIN sample_environ) (py "/blog")
  = py "https://jsupreme.example/blog".
Proof. vm_compute. reflexivity. Qed.

Lemma url_for_sitemap : url_for (py "sitemap") = py "/sitemap.xml".
Proof. vm_compute. reflexivity. Qed.

(** X4: the robots directive is plain text of three lines, each ended
    by a line feed: every crawler, everything allowed, and the sitemap
    at the public URL of the rule under which the sitemap view is
    registered, a GET route of the URL map. *)
Theorem robots_names_the_sitemap_route (CANONICAL_DOMAIN : str) :
  robots CANONICAL_DOMAIN =
    WithMimetype
      (py "User-agent: *" ++ NL
       ++ py "Allow: /" ++ NL
       ++ py "Sitemap: " ++ site_url CANONICAL_DOMAIN (url_for (py "sitemap")) ++ NL)
      (py "text/plain")
  /\ status_code (robots CANONICAL_DOMAIN) = 200%Z
  /\ routable (py "GET") (url_for (py "sitemap")).
Proof.
  split; [|split; [reflexivity|]].
  - rewrite url_for_sitemap. unfold robots. cbn [join].
    rewrite <- !app_assoc. reflexivity.
  - rewrite url_for_sitemap. eexists. split; [do 3 right; left; reflexivity|].
    split; [reflexivity | left; reflexivity].
Qed.

End UrlFacts.

(** ** Posted forms, one after the other *)

Section ServeFacts.
Variables LEADS_CSV NEWSLETTER_CSV : Path.

Local Abbreviation handler := (handle LEADS_CSV NEWSLETTER_CSV).

Local Abbreviation own_file := (record_file LEADS_CSV NEWSLETTER_CSV).

(** What a handler does, in one equation. *)
Lemma handle_outcome (now : str) (s : submission) (fs : FileSystem) :
  handler now s fs =
  if accepted s
  then after_store (match s with
                    | LeadForm _ => py "/thank-you"
                    | NewsletterForm _ => py "/newsletter/thanks"
                    end)
         (save_row (own_file s) (record_header s) (record_row now s) fs)
  else (answer s, fs).
Proof.
  destruct s as [r|r]; cbn [handle record_file record_header record_row];
    unfold answer, accepted.
  - rewrite lead_outcome.
    destruct (truthy (strip (submitted r (py "name")))
              && truthy (strip (submitted r (py "email")))
              && truthy (strip (submitted r (py "message")))); reflexivity.
  - rewrite newsletter_outcome.
    destruct (truthy (strip (submitted r (py "email")))
              && contains (py "@") (strip (submitted r (py "email")))); reflexivity.
Qed.

(** What a handler does when its record file can be opened. *)
Lemma handle_result (now : str) (s : submission) (fs : FileSystem) :
  openable fs (own_file s) ->
  handler now s fs =
  (answer s,
   if accepted s
   then <[own_file s := text_before fs (own_file s) (record_header s)
                        ++ writerow (record_row now s)]> fs
   else fs).
Proof.
  intros Hopen. rewrite handle_outcome, save_row_result by exact Hopen.
  unfold answer. destruct s as [r|r]; destruct (accepted _); reflexivity.
Qed.

(** The filesystem a handler leaves: the one it found, or that one with
    the record file written, after what the file held. *)
Lemma handle_leaves (now : str) (s : submission) (fs : FileSystem) :
  snd (handler now s fs) = fs
  \/ (accepted s = true
      /\ exists text : str,
           snd (handler now s fs) = <[own_file s := text]> fs
           /\ forall old : str, fs !! own_file s = Some old ->
                exists suffix : str, text = old ++ suffix).
Proof.
  rewrite handle_outcome. destruct (accepted s); [|left; reflexivity].
  destruct (save_row (own_file s) (record_header s) (record_row now s) fs)
    as [[u|code d] fs'] eqn:E; cbn [after_store snd].
  - right. split; [reflexivity|]. apply save_row_done in E. subst fs'.
    eexists. split; [reflexivity|]. intros old Hold.
    unfold text_before. rewrite Hold. eauto.
  - apply save_row_failed in E as (_ & [->|[Hnone ->]]); [left; reflexivity|].
    right. split; [reflexivity|]. eexists. split; [reflexivity|].
    intros old Hold. rewrite Hold in Hnone. discriminate Hnone.
Qed.

(** X5: a form handler changes no file but the record file of its
    kind, and that one it only extends: the text the file held stays at
    its start. A submission that is not accepted changes nothing. *)
Theorem handler_extends_its_own_file_only
    (now : str) (s : submission) (fs : FileSystem) :
  (forall file : Path,
     file <> own_file s -> snd (handler now s fs) !! file = fs !! file)
  /\ (forall text : str,
        fs !! own_file s = Some text ->
        exists suffix : str,
          snd (handler now s fs) !! own_file s = Some (text ++ suffix))
  /\ (accepted s = false -> snd (handler now s fs) = fs).
Proof.
  split; [|split].
  - intros file Hne.
    destruct (handle_leaves now s fs) as [->|(_ & text & -> & _)]; [reflexivity|].
    apply fs_lookup_insert_ne. congruence.
  - intros text Htext.
    destruct (handle_leaves now s fs) as [->|(_ & new & -> & Hnew)].
    + exists []. rewrite app_nil_r. exact Htext.
    + destruct (Hnew text Htext) as (suffix & ->). exists suffix.
      apply fs_lookup_insert_eq.
  - intros H. rewrite handle_outcome, H. reflexivity.
Qed.

Hypothesis own_files : LEADS_CSV <> NEWSLETTER_CSV.

Lemma serve_cons (now : str) (s : submission) (rest : list (str * submission))
    (fs : FileSystem) :
  serve LEADS_CSV NEWSLETTER_CSV ((now, s) :: rest) fs =
  (fst (handler now s fs)
     :: fst (serve LEADS_CSV NEWSLETTER_CSV rest (snd (handler now s fs))),
   snd (serve LEADS_CSV NEWSLETTER_CSV rest (snd (handler now s fs)))).
Proof.
  cbn [serve]. destruct (handler now s fs) as [o fs1]. cbn [fst snd].
  destruct (serve LEADS_CSV NEWSLETTER_CSV rest fs1). reflexivity.
Qed.

Lemma own_file_openable (fs : FileSystem) (s : submission) :
  openable fs LEADS_CSV -> openable fs NEWSLETTER_CSV -> openable fs (own_file s).
Proof. intros Hl Hn. destruct s; assumption. Qed.

(** The record files after a sequence of posted forms, whatever they
    held before, when the two files can be opened. *)
Lemma serve_files (posts : list (str * submission)) : forall fs : FileSystem,
  openable fs LEADS_CSV -> openable fs NEWSLETTER_CSV ->
  fst (serve LEADS_CSV NEWSLETTER_CSV posts fs) = map (fun p => answer (snd p)) posts
  /\ snd (serve LEADS_CSV NEWSLETTER_CSV posts fs) !! LEADS_CSV =
       match lead_rows posts with
       | [] => fs !! LEADS_CSV
       | rows => Some (text_before fs LEADS_CSV lead_header
                       ++ concat (map writerow rows))
       end
  /\ snd (serve LEADS_CSV NEWSLETTER_CSV posts fs) !! NEWSLETTER_CSV =
       match subscriber_rows posts with
       | [] => fs !! NEWSLETTER_CSV
       | rows => Some (text_before fs NEWSLETTER_CSV subscriber_header
                       ++ concat (map writerow rows))
       end
  /\ (forall file : Path,
        file <> LEADS_CSV -> file <> NEWSLETTER_CSV ->
        snd (serve LEADS_CSV NEWSLETTER_CSV posts fs) !! file = fs !! file).
Proof.
  induction posts as [|[now s] rest IH]; intros fs Hl Hn.
  - repeat split; reflexivity.
  - rewrite serve_cons. cbn [fst snd map].
    pose proof (own_file_openable fs s Hl Hn) as Hown.
    assert (Hd : is_directory fs (own_file s) = false)
      by (apply openable_no_directory, Hown).
    rewrite (handle_result now s fs Hown) in *. cbn [fst snd] in *.
    set (fs1 := if accepted s then _ else fs).
    assert (Hl1 : openable fs1 LEADS_CSV)
      by (subst fs1; destruct (accepted s); [apply openable_insert|]; assumption).
    assert (Hn1 : openable fs1 NEWSLETTER_CSV)
      by (subst fs1; destruct (accepted s); [apply openable_insert|]; assumption).
    destruct (IH fs1 Hl1 Hn1) as (Hans & Hleads & Hnews & Hother).
    rewrite Hans, Hleads, Hnews. clear Hans Hleads Hnews.
    split; [reflexivity|]. split; [|split].
    + subst fs1.
      destruct s as [r|r]; cbn [lead_rows record_file record_header record_row].
      * destruct (accepted (LeadForm r)); [|reflexivity].
        destruct (lead_rows rest) as [|row rows].
        -- rewrite fs_lookup_insert_eq. simpl. rewrite app_nil_r. reflexivity.
        -- unfold text_before at 1. rewrite fs_lookup_insert_eq.
           simpl. rewrite <- !app_assoc. reflexivity.
      * set (fs1 := if accepted (NewsletterForm r) then _ else fs).
        assert (Hsame : fs1 !! LEADS_CSV = fs !! LEADS_CSV).
        { subst fs1. destruct (accepted (NewsletterForm r)); [|reflexivity].
          apply fs_lookup_insert_ne. congruence. }
        unfold text_before. rewrite Hsame. reflexivity.
    + subst fs1.
      destruct s as [r|r]; cbn [subscriber_rows record_file record_header record_row].
      * set (fs1 := if accepted (LeadForm r) then _ else fs).
        assert (Hsame : fs1 !! NEWSLETTER_CSV = fs !! NEWSLETTER_CSV).
        { subst fs1. destruct (accepted (LeadForm r)); [|reflexivity].
          apply fs_lookup_insert_ne. congruence. }
        unfold text_before. rewrite Hsame. reflexivity.
      * destruct (accepted (NewsletterForm r)); [|reflexivity].
        destruct (subscriber_rows rest) as [|row rows].
        -- rewrite fs_lookup_insert_eq. simpl. rewrite app_nil_r. reflexivity.
        -- unfold text_before at 1. rewrite fs_lookup_insert_eq.
           simpl. rewrite <- !app_assoc. reflexivity.
    + intros file Hfl Hfn. rewrite Hother by assumption. subst fs1.
      destruct (accepted s); [|reflexivity].
      apply fs_lookup_insert_ne. destruct s; cbn [record_file]; congruence.
Qed.

End ServeFacts.

Lemma stored_file_read (k : kind) (rows : list (list cell)) :
  csv_reader <$> stored_file (kind_header k) rows =
  match rows with
  | [] => None
  | row :: rest => Some (Some (kind_header k :: map (map cell_value) (row :: rest)))
  end.
Proof.
  destruct rows as [|row rows]; [reflexivity|].
  unfold stored_file. cbn [fmap option_fmap option_map].
  rewrite store_text_read. reflexivity.
Qed.



(** ** Redirects *)

Section RedirectFacts.

Lemma routable_thank_you : routable (py "GET") (py "/thank-you").
Proof.
  eexists. split; [do 9 right; left; reflexivity|].
  split; [reflexivity | left; reflexivity].
Qed.

Lemma routable_newsletter_thanks : routable (py "GET") (py "/newsletter/thanks").
Proof.
  eexists. split; [do 10 right; left; reflexivity|].
  split; [reflexivity | left; reflexivity].
Qed.

Lemma routable_lead : routable (py "POST") (py "/api/lead").
Proof.
  eexists. split; [do 13 right; left; reflexivity|].
  split; [reflexivity | left; reflexivity].
Qed.

(** X7: no redirect of the application leads nowhere. The redirect a
    form handler answers comes from an accepted form, has code 302 and
    names a rule of the URL map that accepts GET; the alias of the lead
    form answers 307, which keeps the method and the body, to the rule
    under which the lead handler is registered, and that rule accepts
    POST. *)
Theorem redirects_name_routes
    (LEADS_CSV NEWSLETTER_CSV : Path) (now : str) (s : submission)
    (fs : FileSystem) (location : str) (code : Z) :
  fst (handle LEADS_CSV NEWSLETTER_CSV now s fs) = Done (Redirect location code) ->
  accepted s = true
  /\ code = 302%Z
  /\ routable (py "GET") location
  /\ lead_alias = Redirect (url_for (py "lead")) 307
  /\ routable (py "POST") (url_for (py "lead"))
  /\ find (fun r => bool_decide (rule r = url_for (py "lead"))) url_map
     = find (fun r => bool_decide (endpoint r = py "lead")) url_map.
Proof.
  rewrite handle_outcome. intros H.
  assert (Hs : accepted s = true /\ code = 302%Z /\ routable (py "GET") location).
  { destruct (accepted s) eqn:E;
      [|destruct s; unfold answer in H; rewrite E in H; discriminate H].
    destruct (save_row _ _ _ fs) as [[u|c d] fs']; cbn [after_store fst] in H;
      [|discriminate H].
    injection H as <- <-. split; [reflexivity|]. split; [reflexivity|].
    destruct s; [apply routable_thank_you | apply routable_newsletter_thanks]. }
  destruct Hs as (Ha & Hc & Hr).
  split; [exact Ha|]. split; [exact Hc|]. split; [exact Hr|].
  split; [reflexivity|]. split; [apply routable_lead|].
  vm_compute. reflexivity.
Qed.

Lemma redirects_witness :
  accepted (LeadForm sample_lead) = true
  /\ routable (py "GET") (py "/thank-you").
Proof.
  destruct (redirects_name_routes leads newsletter sample_now
              (LeadForm sample_lead) empty (py "/thank-you") 302)
    as (Ha & _ & Hr & _).
  - vm_compute. reflexivity.
  - split; [exact Ha | exact Hr].
Defined.

End RedirectFacts.

(** ** Background images, served *)

Section ServedFacts.
Variables STATIC_IMG_DIR IMAGES_DIR : Path.

Lemma first_existing_exists (fs : FileSystem) (filename : str) (file : Path) :
  first_existing fs STATIC_IMG_DIR IMAGES_DIR filename = Some file ->
  file_exists fs file = true
  /\ (file = joinpath STATIC_IMG_DIR filename
      \/ (file_exists fs (joinpath STATIC_IMG_DIR filename) = false
          /\ file = joinpath IMAGES_DIR filename)).
Proof.
  unfold first_existing.
  destruct (file_exists fs (joinpath STATIC_IMG_DIR filename)) eqn:E1.
  - intros [= <-]. auto.
  - destruct (file_exists fs (joinpath IMAGES_DIR filename)) eqn:E2;
      [|discriminate].
    intros [= <-]. auto.
Qed.

Lemma directory_no_file (fs : FileSystem) (file : Path) :
  is_directory fs file = true -> fs !! file = None.
Proof.
  unfold is_directory. rewrite fs_lookup_nodes.
  destruct (nodes fs !! file) as [[t|]|]; try discriminate. reflexivity.
Qed.

(** X8: a background URL that the renderer is given is served when the
    image is a regular file that can be read. When [bg_image_for]
    answers a URL for a page, the URL is /static/img/ and a file name,
    and a candidate path of that name exists: the one under the first
    directory, or the one under the second when the first has none. The
    image route answers that file name with that path when it names a
    regular file whose reading open is not refused, with 500 when the
    open is refused, and with 404 when the path names a directory,
    although the page carries the URL. The route leaves the filesystem
    as it was. *)
Theorem background_url_served_when_regular_file
    (page url : str) (fs : FileSystem) :
  fst (bg_image_for STATIC_IMG_DIR IMAGES_DIR page fs) = Done (Some url) ->
  exists (filename : str) (file : Path),
    url = py "/static/img/" ++ filename
    /\ file_exists fs file = true
    /\ (file = joinpath STATIC_IMG_DIR filename
        \/ (file_exists fs (joinpath STATIC_IMG_DIR filename) = false
            /\ file = joinpath IMAGES_DIR filename))
    /\ static_img_files STATIC_IMG_DIR IMAGES_DIR filename fs
       = (match fs !! file with
          | Some _ =>
              if refused fs Read file
              then Aborted 500 (py "Internal Server Error")
              else Done (SendFile file)
          | None => Aborted 404 []
          end, fs)
    /\ (is_Some (fs !! file) -> refused fs Read file = false ->
        static_img_files STATIC_IMG_DIR IMAGES_DIR filename fs
        = (Done (SendFile file), fs))
    /\ (is_directory fs file = true ->
        static_img_files STATIC_IMG_DIR IMAGES_DIR filename fs
        = (Aborted 404 [], fs)).
Proof.
  rewrite bg_image_for_result. cbn [fst].
  destruct (bg_mapping !! page) as [filename|]; [|discriminate].
  destruct (first_existing fs STATIC_IMG_DIR IMAGES_DIR filename) as [file|] eqn:E;
    [|discriminate].
  intros [= <-]. exists filename, file. split; [reflexivity|].
  destruct (first_existing_exists fs filename file E) as (Hex & Hwhich).
  split; [exact Hex|]. split; [exact Hwhich|].
  rewrite static_img_files_result, E. split; [reflexivity|]. split.
  - intros [text ->] ->. reflexivity.
  - intros Hd. rewrite (directory_no_file fs file Hd). reflexivity.
Qed.

End ServedFacts.

(** X8 on the blog page, with its image in the second directory only. *)
Lemma background_url_witness :
  exists (filename : str) (file : Path),
    py "/static/img/insights_bg_1920x1080.jpg" = py "/static/img/" ++ filename
    /\ file_exists (<[py "/srv/images/insights_bg_1920x1080.jpg" := py "jpeg"]> empty)
         file = true
    /\ (file = joinpath (py "/srv/static/img") filename
        \/ (file_exists
              (<[py "/srv/images/insights_bg_1920x1080.jpg" := py "jpeg"]> empty)
              (joinpath (py "/srv/static/img") filename) = false
            /\ file = joinpath (py "/srv/images") filename)).
Proof.
  destruct (background_url_served_when_regular_file (py "/srv/static/img")
              (py "/srv/images") (py "blog")
              (py "/static/img/insights_bg_1920x1080.jpg")
              (<[py "/srv/images/insights_bg_1920x1080.jpg" := py "jpeg"]> empty))
    as (filename & file & Hurl & Hex & Hwhich & _).
  - vm_compute. reflexivity.
  - exists filename, file. split; [exact Hurl|]. split; [exact Hex | exact Hwhich].
Defined.

(** A directory with the name of the image: the page is given the URL,
    and the image route answers 404. *)
Example background_directory_not_served :
  fst (bg_image_for (py "/srv/static/img") (py "/srv/images") (py "blog")
         sample_image_directory)
    = Done (Some (py "/static/img/insights_bg_1920x1080.jpg"))
  /\ static_img_files (py "/srv/static/img") (py "/srv/images")
       (py "insights_bg_1920x1080.jpg") sample_image_directory
     = (Aborted 404 [], sample_image_directory).
Proof. split; vm_compute; reflexivity. Qed.

(** ** Pages *)

Section PageFacts.

Ltac piece x :=
  lazymatch goal with
  | |- contains _ (x ++ _) = true => apply contains_app_l
  | |- contains _ (_ ++ _) = true => apply contains_app_r; piece x
  end.

Ltac safe_parts :=
  lazymatch goal with
  | |- template_safe (_ ++ _) = true => apply template_safe_app; safe_parts
  | |- template_safe (if _ then _ else []) = true =>
      apply template_safe_if; safe_parts
  | |- _ => first [assumption | vm_compute; reflexivity]
  end.

Lemma contains_flat_map {A} (f : A -> str) (x : A) (l : list A) (sub : str) :
  In x l -> contains sub (f x) = true -> contains sub (flat_map f l) = true.
Proof.
  intros Hin Hsub. induction l as [|y l IH]; [destruct Hin|].
  cbn [flat_map]. destruct Hin as [->|Hin].
  - apply contains_app_l. exact Hsub.
  - apply contains_app_r. apply IH. exact Hin.
Qed.

Lemma template_safe_flat_map {A} (f : A -> str) (l : list A) :
  (forall x : A, In x l -> template_safe (f x) = true) ->
  template_safe (flat_map f l) = true.
Proof.
  induction l as [|y l IH]; intros H; [reflexivity|].
  cbn [flat_map]. apply template_safe_app.
  - apply H. left. reflexivity.
  - apply IH. intros x Hin. apply H. right. exact Hin.
Qed.

Lemma blog_list_body_safe (ad_sidebar : str) :
  template_safe ad_sidebar = true ->
  template_safe (BLOG_LIST_BODY BLOG_POSTS ad_sidebar) = true.
Proof.
  intros Had. unfold BLOG_LIST_BODY.
  repeat lazymatch goal with
  | |- template_safe (flat_map _ _ ++ _) = true =>
      apply template_safe_app;
      [apply template_safe_flat_map; intros p [<-|[<-|[]]]; vm_compute; reflexivity|]
  | |- template_safe (_ ++ _) = true =>
      apply template_safe_app; [safe_parts|]
  end.
  vm_compute. reflexivity.
Qed.

Lemma blog_list_body_no_final_newline (posts : list BlogPost) (ad_sidebar : str) :
  ends_with 10 (BLOG_LIST_BODY posts ad_sidebar) = false.
Proof.
  apply (proj2 (A := BLOG_LIST_BODY posts ad_sidebar <> [])).
  unfold BLOG_LIST_BODY. repeat (apply last_is_not_app).
  split; [discriminate | reflexivity].
Qed.

(** The index shows the title of every post, and links to its page. *)
Lemma blog_list_body_shows (post : BlogPost) (ad_sidebar : str) :
  In post BLOG_POSTS ->
  contains (title post) (BLOG_LIST_BODY BLOG_POSTS ad_sidebar) = true
  /\ contains (py "<a href=" ++ DQ ++ url_for_blog_post (slug post) ++ DQ)
       (BLOG_LIST_BODY BLOG_POSTS ad_sidebar) = true.
Proof.
  intros Hin. split.
  - unfold BLOG_LIST_BODY.
    repeat lazymatch goal with
    | |- contains _ (flat_map _ _ ++ _) = true => apply contains_app_l
    | |- contains _ (_ ++ _) = true => apply contains_app_r
    end.
    apply (contains_flat_map _ post); [exact Hin|]. cbv beta.
    piece (escape (title post)). rewrite (escape_titles post Hin).
    apply contains_self.
  - destruct Hin as [<-|[<-|[]]]; vm_compute; reflexivity.
Qed.

Lemma BASE_shows_body (style app_name slogan meta_title meta_desc canonical : str)
    (include_pixels adsense_enabled : bool) (adsense_client body sub : str) :
  contains sub body = true ->
  contains sub (BASE style app_name slogan meta_title meta_desc canonical
                  include_pixels adsense_enabled adsense_client body) = true.
Proof. intros H. unfold BASE. piece body. exact H. Qed.

Lemma BASE_shows_canonical
    (style app_name slogan meta_title meta_desc canonical : str)
    (include_pixels adsense_enabled : bool) (adsense_client body : str) :
  contains (escape canonical)
    (BASE style app_name slogan meta_title meta_desc canonical
       include_pixels adsense_enabled adsense_client body) = true.
Proof. unfold BASE. piece (escape canonical). apply contains_self. Qed.

Lemma contains_prefix (a b c rest : str) :
  contains (a ++ b ++ c) (a ++ b ++ c ++ rest) = true.
Proof.
  replace (a ++ b ++ c ++ rest) with ((a ++ b ++ c) ++ rest)
    by (rewrite <- !app_assoc; reflexivity).
  apply contains_app_l, contains_self.
Qed.

(** The title element of the page. *)
Lemma BASE_shows_title_element
    (style app_name slogan meta_title meta_desc canonical : str)
    (include_pixels adsense_enabled : bool) (adsense_client body : str) :
  contains (py "<title>" ++ escape meta_title ++ py "</title>")
    (BASE style app_name slogan meta_title meta_desc canonical
       include_pixels adsense_enabled adsense_client body) = true.
Proof.
  unfold BASE.
  repeat lazymatch goal with
  | |- contains _ (py "  <title>" ++ _) = true => fail
  | |- contains _ (_ ++ _) = true => apply contains_app_r
  end.
  change (py "  <title>") with (py "  " ++ py "<title>").
  rewrite <- app_assoc. apply contains_app_r, contains_prefix.
Qed.

Section Config.
Variable CANONICAL_DOMAIN : str.
Variable INCLUDE_PIXELS : bool.
Variable ADSENSE_ENABLED : bool.
Variable ADSENSE_CLIENT : str.
Variable ADSENSE_SLOT_SIDEBAR : str.
Variables STATIC_IMG_DIR IMAGES_DIR : Path.
Variable BASE_STYLE : str.
Variable render_tags : str -> option str -> option str.

Local Abbreviation page_of :=
  (render_page CANONICAL_DOMAIN INCLUDE_PIXELS ADSENSE_ENABLED ADSENSE_CLIENT
     STATIC_IMG_DIR IMAGES_DIR BASE_STYLE render_tags).
Local Abbreviation layout :=
  (fun (request : Request) (title desc body : str) =>
     BASE BASE_STYLE APP_NAME SLOGAN title desc
       (site_url CANONICAL_DOMAIN (path request))
       INCLUDE_PIXELS (ADSENSE_ENABLED && truthy ADSENSE_CLIENT)
       ADSENSE_CLIENT body).

(** What [render_page] does, in one equation. *)
Lemma render_page_result (request : Request) (body_html page title desc : str)
    (fs : FileSystem) :
  page_of request body_html page title desc fs =
  (match render_template_string render_tags body_html
           (match bg_mapping !! page with
            | None => None
            | Some filename =>
                match first_existing fs STATIC_IMG_DIR IMAGES_DIR filename with
                | Some _ => Some (py "/static/img/" ++ filename)
                | None => None
                end
            end) with
   | Some body => Done (layout request title desc body)
   | None => Aborted 500 (py "Internal Server Error")
   end, fs).
Proof.
  unfold render_page, bind. rewrite bg_image_for_result.
  destruct (render_template_string render_tags body_html _); reflexivity.
Qed.

Lemma page_view_result (request : Request) (body_html page title desc : str)
    (fs : FileSystem) :
  (page <- page_of request body_html page title desc ;; ret (Html page)) fs =
  (match render_template_string render_tags body_html
           (match bg_mapping !! page with
            | None => None
            | Some filename =>
                match first_existing fs STATIC_IMG_DIR IMAGES_DIR filename with
                | Some _ => Some (py "/static/img/" ++ filename)
                | None => None
                end
            end) with
   | Some body => Done (Html (layout request title desc body))
   | None => Aborted 500 (py "Internal Server Error")
   end, fs).
Proof.
  unfold bind at 1. rewrite render_page_result.
  destruct (render_template_string render_tags body_html _); reflexivity.
Qed.

(** X9: the blog index answers 200 with a page that shows the title
    of every post of the registry and links to its page, and every such
    link leads to a post that [get_post] finds; the filesystem stays as
    it was. [render_page] renders the index, the advertisement block
    included, a second time as a template, so this is stated for
    advertisement identifiers that hold no template tag (or
    advertisements off). *)
Theorem blog_lists_every_post (request : Request) (fs : FileSystem) :
  ADSENSE_ENABLED = false
  \/ (template_safe ADSENSE_CLIENT = true
      /\ template_safe ADSENSE_SLOT_SIDEBAR = true) ->
  exists page : str,
    blog CANONICAL_DOMAIN INCLUDE_PIXELS ADSENSE_ENABLED ADSENSE_CLIENT
      ADSENSE_SLOT_SIDEBAR STATIC_IMG_DIR IMAGES_DIR BASE_STYLE render_tags
      request fs = (Done (Html page), fs)
    /\ forall post : BlogPost,
         In post BLOG_POSTS ->
         contains (title post) page = true
         /\ contains (py "<a href=" ++ DQ ++ url_for_blog_post (slug post) ++ DQ)
              page = true
         /\ get_post (slug post) = Some post.
Proof.
  intros Hads.
  set (body := BLOG_LIST_BODY BLOG_POSTS
                 (adsense_ad_unit ADSENSE_ENABLED ADSENSE_CLIENT ADSENSE_SLOT_SIDEBAR)).
  assert (Hinert : inert body = true).
  { unfold inert. subst body. rewrite blog_list_body_no_final_newline.
    rewrite andb_true_r.
    assert (H : template_safe
                  (BLOG_LIST_BODY BLOG_POSTS
                     (adsense_ad_unit ADSENSE_ENABLED ADSENSE_CLIENT
                        ADSENSE_SLOT_SIDEBAR)) = true)
      by (apply blog_list_body_safe, ad_unit_safe; exact Hads).
    unfold template_safe in H. apply andb_prop in H as [H _]. exact H. }
  eexists. split.
  - unfold blog. fold body. rewrite page_view_result.
    unfold render_template_string. rewrite Hinert. reflexivity.
  - intros post Hin.
    destruct (blog_list_body_shows post
                (adsense_ad_unit ADSENSE_ENABLED ADSENSE_CLIENT ADSENSE_SLOT_SIDEBAR)
                Hin) as (Htitle & Hlink).
    split; [apply BASE_shows_body; exact Htitle|].
    split; [apply BASE_shows_body; exact Hlink|].
    apply get_post_found. exact Hin.
Qed.

(** X10: without the flag, or without a client identifier, nothing of
    the advertisement settings reaches a page: the layout, the blog
    index and a blog post are then what they are for a site with the
    flag off and no identifier set at all. *)
Theorem pages_without_ads_ignore_ad_settings
    (ADSENSE_SLOT_HEADER ADSENSE_SLOT_INARTICLE : str)
    (request : Request) (body_html page title desc s : str) (fs : FileSystem) :
  ADSENSE_ENABLED && truthy ADSENSE_CLIENT = false ->
  page_of request body_html page title desc fs
    = render_page CANONICAL_DOMAIN INCLUDE_PIXELS false [] STATIC_IMG_DIR
        IMAGES_DIR BASE_STYLE render_tags request body_html page title desc fs
  /\ blog CANONICAL_DOMAIN INCLUDE_PIXELS ADSENSE_ENABLED ADSENSE_CLIENT
       ADSENSE_SLOT_SIDEBAR STATIC_IMG_DIR IMAGES_DIR BASE_STYLE render_tags
       request fs
     = blog CANONICAL_DOMAIN INCLUDE_PIXELS false [] [] STATIC_IMG_DIR
         IMAGES_DIR BASE_STYLE render_tags request fs
  /\ blog_post CANONICAL_DOMAIN INCLUDE_PIXELS ADSENSE_ENABLED ADSENSE_CLIENT
       ADSENSE_SLOT_HEADER ADSENSE_SLOT_INARTICLE ADSENSE_SLOT_SIDEBAR
       STATIC_IMG_DIR IMAGES_DIR BASE_STYLE render_tags request s fs
     = blog_post CANONICAL_DOMAIN INCLUDE_PIXELS false [] [] [] []
         STATIC_IMG_DIR IMAGES_DIR BASE_STYLE render_tags request s fs.
Proof.
  intros Hoff.
  destruct ADSENSE_ENABLED; [destruct ADSENSE_CLIENT; [|discriminate Hoff]|];
    repeat split; reflexivity.
Qed.

Section ViewFacts.
Variables HOME_BODY INSIGHTS_BODY START_BODY THANKS_BODY : str.
Variables NEWSLETTER_THANKS_BODY PRIVACY_BODY TERMS_BODY : str.

Local Abbreviation views :=
  (page_views CANONICAL_DOMAIN INCLUDE_PIXELS ADSENSE_ENABLED ADSENSE_CLIENT
     ADSENSE_SLOT_SIDEBAR STATIC_IMG_DIR IMAGES_DIR BASE_STYLE render_tags
     HOME_BODY INSIGHTS_BODY START_BODY THANKS_BODY NEWSLETTER_THANKS_BODY
     PRIVACY_BODY TERMS_BODY).

Ltac view_case rest :=
  rewrite page_view_result; cbn [fst snd];
  split; [reflexivity|];
  split; [|vm_compute; tauto];
  destruct (render_template_string _ _ _) as [body|];
  [ right; eexists; exists rest; split; [reflexivity|];
    split;
    [ lazymatch goal with
      | |- contains _ (BASE ?st ?a ?sl ?t ?d ?c ?p ?e ?cl ?b) = true =>
          exact (BASE_shows_title_element st a sl t d c p e cl b)
      end
    | apply BASE_shows_canonical ]
  | left; reflexivity ].

(** X11: the eight views of the static pages, whatever their body
    templates hold. A view leaves the filesystem as it was. It answers
    500 when the template engine raises, and otherwise 200 with a page
    in the shared layout whose title element is the application name,
    a bar and the name of the page, and which carries the public URL of
    the request path as its canonical URL. The views are registered
    under the static page routes of the URL map, in its order. *)
Theorem page_views_only_read
    (endpoint : str) (view : Request -> M Response) (request : Request)
    (fs : FileSystem) :
  In (endpoint, view) views ->
  snd (view request fs) = fs
  /\ (fst (view request fs) = Aborted 500 (py "Internal Server Error")
      \/ exists page rest : str,
           fst (view request fs) = Done (Html page)
           /\ contains (py "<title>" ++ APP_NAME ++ py " | " ++ rest ++ py "</title>")
                page = true
           /\ contains (escape (site_url CANONICAL_DOMAIN (path request))) page
              = true)
  /\ In (url_for endpoint) (map rule static_page_routes).
Proof.
  intros Hin. cbn [page_views In] in Hin.
  destruct Hin as [[= <- <-]|[[= <- <-]|[[= <- <-]|[[= <- <-]|[[= <- <-]|
                    [[= <- <-]|[[= <- <-]|[[= <- <-]|[]]]]]]]]].
  - unfold home. view_case (py "Strategy-led Marketing").
  - unfold insights. view_case (py "Insights").
  - unfold blog. view_case (py "Blog").
  - unfold start. view_case (py "Request a Signal Audit").
  - unfold thank_you. view_case (py "Thank You").
  - unfold newsletter_thanks. view_case (py "Subscribed").
  - unfold privacy. view_case (py "Privacy Policy").
  - unfold terms. view_case (py "Terms").
Qed.

Lemma page_views_endpoints : map fst views = map endpoint static_page_routes.
Proof. reflexivity. Qed.

End ViewFacts.

End Config.

End PageFacts.

(** X9 with advertisements on. *)
Lemma blog_witness :
  exists page : str,
    blog [] false true (py "ca-pub-1234") (py "333") (py "/srv/static/img")
      (py "/srv/images") [] sample_engine sample_page_request empty
    = (Done (Html page), empty)
    /\ contains (py "The Signal Audit Framework") page = true.
Proof.
  destruct (blog_lists_every_post [] false true (py "ca-pub-1234") (py "333")
              (py "/srv/static/img") (py "/srv/images") [] sample_engine
              sample_page_request empty)
    as (page & Hview & Hposts).
  - right. split; reflexivity.
  - exists page. split; [exact Hview|].
    apply (Hposts (hd no_post (tl BLOG_POSTS))). right. left. reflexivity.
Defined.

(** X10 for a site with the flag on and no client identifier. *)
Lemma pages_without_ads_witness :
  blog [] false true [] (py "333") (py "/srv/static/img") (py "/srv/images") []
    sample_engine sample_page_request empty
  = blog [] false false [] [] (py "/srv/static/img") (py "/srv/images") []
      sample_engine sample_page_request empty.
Proof.
  apply (pages_without_ads_ignore_ad_settings [] false true [] (py "333")
           (py "/srv/static/img") (py "/srv/images") [] sample_engine
           (py "111") (py "222") sample_page_request [] [] [] [] [] empty).
  reflexivity.
Defined.

(** X11 for the privacy page, with a body that holds no tag and an
    engine that raises on every other. *)
Lemma page_views_witness :
  snd (privacy [] false false [] (py "/srv/static/img") (py "/srv/images") []
         sample_engine (py "<p>Privacy</p>") sample_page_request empty) = empty
  /\ In (url_for (py "privacy")) (map rule static_page_routes).
Proof.
  destruct (page_views_only_read [] false false [] [] (py "/srv/static/img")
              (py "/srv/images") [] sample_engine
              [] [] [] [] [] (py "<p>Privacy</p>") []
              (py "privacy")
              (privacy [] false false [] (py "/srv/static/img") (py "/srv/images")
                 [] sample_engine (py "<p>Privacy</p>"))
              sample_page_request empty) as (Hfs & _ & Hroute).
  - do 6 right. left. reflexivity.
  - split; [exact Hfs | exact Hroute].
Defined.
